(** * LCT maintenance dashboard: the work-order pipeline

    A shallow embedding of the client-side pipeline of the STS maintenance
    application (the dashboard script): date normalisation, rule-based
    classification, row normalisation, KPI aggregation and filtering,
    followed by the properties the design document states about them.

    Conventions of the embedding.
    - A JavaScript string is a [string] of bytes (UTF-8).  Case mapping,
      white space and digits are the ASCII ones; other bytes pass through
      unchanged.  Substring tests on well-formed UTF-8 agree with the tests
      on the code units of the source.
    - A JavaScript number is an integer [Z], or [None] for NaN where a
      computation can produce it; the KPI mean is an exact rational.
    - A row of a sheet and a work order are objects with open field sets:
      finite maps from field names to primitive values.
    - [throw] is the [Throw] branch of a [Result]; [try]/[catch] is a
      match on it.
    - What belongs to the engine and not to the script (the time zone, the
      generic date parser, the random source) is a [Host]. *)

From Stdlib Require Import String Ascii ZArith List Lia Bool QArith.
From Stdlib Require Import Numbers.DecimalString Numbers.DecimalZ.
From stdpp Require Import gmap strings list.

Open Scope string_scope.
Open Scope Z_scope.

(** ** Primitive values and objects *)

Inductive Prim : Type :=
  | PUndefined
  | PNull
  | PBool (b : bool)
  | PNum (n : Z)
  | PStr (s : string).

(** An object with primitive fields: a sheet row, a work order. *)
Abbreviation Obj := (gmap string Prim).

(** ToBoolean. *)
Definition truthy (v : Prim) : bool :=
  match v with
  | PUndefined | PNull => false
  | PBool b => b
  | PNum n => negb (n =? 0)
  | PStr s => negb (String.eqb s "")
  end.

(** [o.k]: a missing property reads as [undefined]. *)
Definition get (o : Obj) (k : string) : Prim := default PUndefined (o !! k).

(** [a || b] on values. *)
Definition orElse (a b : Prim) : Prim := if truthy a then a else b.

Definition Z_to_string (n : Z) : string := NilEmpty.string_of_int (Z.to_int n).

(** ToString of a number that may be NaN. *)
Definition numToString (n : option Z) : string :=
  match n with
  | Some z => Z_to_string z
  | None => "NaN"
  end.

(** ToString of a primitive, as a template literal or [String(v)] applies it. *)
Definition toStr (v : Prim) : string :=
  match v with
  | PUndefined => "undefined"
  | PNull => "null"
  | PBool true => "true"
  | PBool false => "false"
  | PNum n => Z_to_string n
  | PStr s => s
  end.

(** ** Exceptions *)

Inductive Exn : Type :=
  | Error (message : string)
  | TypeError (message : string).

Definition message (e : Exn) : string :=
  match e with
  | Error m | TypeError m => m
  end.

(** The outcome of a call that may throw. *)
Inductive Result (A : Type) : Type :=
  | Ok (a : A)
  | Throw (e : Exn).

Arguments Ok {A} a.
Arguments Throw {A} e.

#[global] Instance Result_ret : MRet Result := fun A a => Ok a.
#[global] Instance Result_bind : MBind Result := fun A B f m =>
  match m with
  | Ok a => f a
  | Throw e => Throw e
  end.

(** [v.toUpperCase()] on a value read from an object: a method of strings
    only; on any other truthy value the call is a TypeError (its text is
    the engine's, here V8's wording). *)
Definition notAFunction : Exn := TypeError "toUpperCase is not a function".

(** ** Strings *)

Module JsString.

Definition isLowerAZ (c : ascii) : bool :=
  let n := nat_of_ascii c in (97 <=? n)%nat && (n <=? 122)%nat.

Definition isDigit (c : ascii) : bool :=
  let n := nat_of_ascii c in (48 <=? n)%nat && (n <=? 57)%nat.

(** White space of [\s] and of [trim] within ASCII: TAB, LF, VT, FF, CR, SP. *)
Definition isSpace (c : ascii) : bool :=
  let n := nat_of_ascii c in ((9 <=? n)%nat && (n <=? 13)%nat) || (n =? 32)%nat.

Definition upperChar (c : ascii) : ascii :=
  if isLowerAZ c then ascii_of_nat (nat_of_ascii c - 32) else c.

Fixpoint toUpperCase (s : string) : string :=
  match s with
  | EmptyString => EmptyString
  | String c r => String (upperChar c) (toUpperCase r)
  end.

(** [s.includes(pat)]. *)
Fixpoint includes (s pat : string) : bool :=
  if String.prefix pat s then true
  else match s with
       | EmptyString => false
       | String _ r => includes r pat
       end.

Fixpoint trimStart (s : string) : string :=
  match s with
  | String c r => if isSpace c then trimStart r else s
  | EmptyString => EmptyString
  end.

Fixpoint trimEnd (s : string) : string :=
  match s with
  | EmptyString => EmptyString
  | String c r =>
      match trimEnd r with
      | EmptyString => if isSpace c then EmptyString else String c EmptyString
      | r' => String c r'
      end
  end.

Definition trim (s : string) : string := trimEnd (trimStart s).

(** [s.slice(0, n)] and [s.substring(0, n)] for a constant [n >= 0]. *)
Definition slice0 (n : nat) (s : string) : string := String.substring 0 n s.

(** The longest prefix of digits, and what follows it. *)
Fixpoint spanDigits (s : string) : string * string :=
  match s with
  | String c r =>
      if isDigit c then let '(ds, rest) := spanDigits r in (String c ds, rest)
      else (EmptyString, s)
  | EmptyString => (EmptyString, EmptyString)
  end.

Definition digitVal (c : ascii) : Z := Z.of_nat (nat_of_ascii c) - 48.

(** The value of a string of digits, read left to right. *)
Fixpoint digitsValue (acc : Z) (ds : string) : Z :=
  match ds with
  | EmptyString => acc
  | String c r => digitsValue (10 * acc + digitVal c) r
  end.

(** [parseInt(s, 10)]: leading white space, an optional sign, then the
    longest run of digits; NaN when there is no digit. *)
Definition parseInt (s : string) : option Z :=
  let s1 := trimStart s in
  let '(neg, s2) :=
    match s1 with
    | String "-" r => (true, r)
    | String "+" r => (false, r)
    | _ => (false, s1)
    end in
  let '(ds, _) := spanDigits s2 in
  match ds with
  | EmptyString => None
  | _ => Some (if neg then - digitsValue 0 ds else digitsValue 0 ds)
  end.

(** [s.split(re)] for a regular expression that is a class of single
    characters: every separator character ends a part. *)
Fixpoint splitOn (sep : ascii -> bool) (s : string) : list string :=
  match s with
  | EmptyString => [EmptyString]
  | String c r =>
      if sep c then EmptyString :: splitOn sep r
      else match splitOn sep r with
           | p :: ps => String c p :: ps
           | [] => [String c EmptyString]
           end
  end.

(** [s.padStart(2, '0')]. *)
Definition padStart2 (s : string) : string :=
  match String.length s with
  | O => "00"
  | S O => "0" ++ s
  | _ => s
  end.

End JsString.

Import JsString.

(** ** Classification *)

(** [v.toUpperCase()] for a truthy value [v]. *)
Definition upperOf (v : Prim) : Result string :=
  match v with
  | PStr s => Ok (toUpperCase s)
  | _ => Throw notAFunction
  end.

Definition getEquipmentType (moKey : Prim) : Result string :=
  if negb (truthy moKey) then Ok "Other"
  else
    moKey ← upperOf moKey;
    if includes moKey "STS" then Ok "STS Crane"
    else if includes moKey "SPS" || includes moKey "SPR" then Ok "Spreader"
    else Ok "Other".

Definition locationOf (moKey : string) : string :=
    if includes moKey "MNH" then "HOIST"
    else if includes moKey "BMH" then "BOOM"
    else if includes moKey "HDB" then "SPREADER"
    else if includes moKey "GAN" then "GANTRY"
    else if includes moKey "ELE" then "ELECTRICAL"
    else if includes moKey "TRL" then "TROLLEY"
    else if includes moKey "LIG" then "LIGHTING"
    else if includes moKey "CAB" then "OPERATOR CABIN"
    else if includes moKey "HYD" then "HYDRAULIC"
    else if includes moKey "FES" then "FESTOON"
    else if includes moKey "ELV" then "ELEVATOR"
    else if includes moKey "TRM" || includes moKey "TLS" then "TLS"
    else if includes moKey "SLE" then "Machine room"
    else "Other".

Definition getFaultLocation (moKey : Prim) : Result string :=
  if negb (truthy moKey) then Ok "Other"
  else
    moKey ← upperOf moKey;
    Ok (locationOf moKey).

(** The [if (d.includes(..) || ..) return label;] lines of
    [determineFailure], one entry per line, in the order of the source. *)
Definition failureRules : list (list string * string) :=
  [ (["TWIN"], "twin");
    (["TELESC"], "Telescopy");
    (["NOISE"; "DAMAGE"; "BRUIT"; "ENDOMMA"; "VIBRE"], "Mech fail");
    (["AC FAULT"], "A/C");
    (["SIÈGE"; "SEAT"], "operator seat");
    (["CRANE OF"], "Crane off");
    (["DRIVE OF"; "CONTROL OF"; "CONTROLE OF"; "ALM"], "Drive Off");
    (["POWER"], "Power cut off");
    (["ROOF"; "TTDS"; "SPREADER READY"], "spreader ready intrlck");
    (["DOMMAGE"], "Incident_Dommage");
    (["HOIST BRAKE"; "HOIST SERVICE BRAKE"], "Hoist service brake");
    (["HOIST EMERG"], "Hoist Emergency brake");
    (["HDB"; "HEADBLOCK"], "Headblock");
    (["FESTOON"], "Festoon");
    (["HOIST SLOW"], "Hoist slowdown");
    (["AFFICHEUR"], "Display");
    (["GANTRY DRIVE"], "Gantry drive");
    (["GANTRY POSITION"], "Gantry position");
    (["GANTRY WHEEL"], "Gantry wheel brake");
    (["GANTRY BRAKE"], "Gantry brake");
    (["GANTRY ENCODER"], "Gantry encoder");
    (["GANTRY MOTOR"], "Gantry motor");
    (["TROLLEY DRIVE"], "Trolley drive");
    (["TROLLEY POSITION"], "Trolley position");
    (["TROLLEY BRAKE"], "Trolley brake");
    (["TROLLEY GATE"], "Trolley gate");
    (["TROLLEY ROPE"], "Trolley rope tension");
    (["HOIST DRIVE"], "hoist drive");
    (["HOIST POSITION"], "hoist position");
    (["HOIST WIRE"], "hoist wire rope");
    (["HOIST BRAKE"], "Hoist brake");
    (["HOIST ENCODER"], "Hoist encoder");
    (["HOIST MOTOR"], "Hoist motor");
    (["GCR"], "GCR");
    (["SCR"; "SPREADER CABLE REEL"], "SCR");
    (["BAD STACK"; "COINC"; "SPREADER BLOQUÉ"; "SPREADER ACCROCHÉ"; "STUCK"], "Stuck");
    (["BLINK FAULT"; "COMMUNICA"; "COMUNICA"; "LIGHT BLINK"], "Communication");
    (["BOOM ISSUE"; "BOOM FAULT"; "BOOM INV"], "Boom Drive");
    (["BOOM LEVEL"; "BOOM DOWN"; "BOOM UP"; "NO BOOM"], "Boom position");
    (["TLS"], "TLS fault");
    (["CHANGE"; "CHANGEMENT"], "spreader change");
    (["JOYSTICK"; "JOYSTI"], "Joystick fault");
    (["CONNECTOR"; "PLUG"], "spreader plug");
    (["FUITE D'HUILE"; "OIL LEAK"], "oil leakage");
    (["DÉVÉRROU"; "VÉRROU"; "LOCK FAULT"; "UNLOCK"; "UNLOPK"; "LOCKING FAULT"], "Lock/unlock");
    (["FLIPPER"], "Flipper");
    (["TELESCOP"; "TELECO"; "TELSCO"], "Telescopic");
    (["LIGHTS"; "LIGHT"; "LIGHT FAULT"; "LIGHT ISSUE"; "LIGHT OFF"; "LAMPE"; "FLOODLIGHT"], "Light");
    (["POMPE SPREADER"; "SPREADER PUMP"; "PUMP"], "spreader pump") ].

(** One line of the chain: [d.includes(p1) || d.includes(p2) || ..]. *)
Definition ruleMatches (d : string) (rule : list string * string) : bool :=
  existsb (includes d) (fst rule).

(** The chain of [if .. return ..;] lines ending in [return null]. *)
Fixpoint firstMatch (d : string) (rules : list (list string * string)) : option string :=
  match rules with
  | [] => None
  | rule :: rest => if ruleMatches d rule then Some (snd rule) else firstMatch d rest
  end.

(** [determineFailure(cause)] for a string argument (its one caller passes a
    template literal). *)
Definition determineFailure (cause : string) : option string :=
  if String.eqb cause "" then None
  else firstMatch (toUpperCase (trim cause)) failureRules.

(** [determineFailure(..) || 'Unknown'], the value stored in the [failure]
    field by [processData]. *)
Definition failureLabel (combinedText : string) : string :=
  match determineFailure combinedText with
  | Some label => if String.eqb label "" then "Unknown" else label
  | None => "Unknown"
  end.

(** ** The host

    Three things are the engine's and not the script's: the offset of local
    time from UTC, taken constant here (no daylight-saving or historical
    transitions); the parser behind [new Date(string)], whose accepted
    formats outside the ISO one are implementation-defined; and the random
    source, [randomInt i] being what [Math.floor(Math.random() * 10000)]
    yields while row [i] is normalised. *)

Class Host : Type := {
  tzOffset : Z;
  DateParse : string -> option Z;
  randomInt : nat -> Z
}.

(** A Date object: a time value in milliseconds since 1970-01-01T00:00Z, or
    an Invalid Date (time value NaN). *)
Inductive JsDate : Type :=
  | DateOf (t : Z)
  | InvalidDate.

Module Calendar.

Definition msPerDay : Z := 86400000.

Definition Day (t : Z) : Z := t / msPerDay.

(** Days since 1970-01-01 of the proleptic Gregorian date [y]-[m]-[d],
    [m] in 1..12. *)
Definition daysFromCivil (y m d : Z) : Z :=
  let y := if m <=? 2 then y - 1 else y in
  let era := y / 400 in
  let yoe := y - era * 400 in
  let doy := (153 * (if 2 <? m then m - 3 else m + 9) + 2) / 5 + d - 1 in
  let doe := yoe * 365 + yoe / 4 - yoe / 100 + doy in
  era * 146097 + doe - 719468.

(** The Gregorian date (year, month 1..12, day) of a day number. *)
Definition civilFromDays (z : Z) : Z * Z * Z :=
  let z := z + 719468 in
  let era := z / 146097 in
  let doe := z - era * 146097 in
  let yoe := (doe - doe / 1460 + doe / 36524 - doe / 146096) / 365 in
  let y := yoe + era * 400 in
  let doy := doe - (365 * yoe + yoe / 4 - yoe / 100) in
  let mp := (5 * doy + 2) / 153 in
  let d := doy - (153 * mp + 2) / 5 + 1 in
  let m := if mp <? 10 then mp + 3 else mp - 9 in
  (if m <=? 2 then y + 1 else y, m, d).

(** MakeDay: months outside 0..11 carry into the year, days outside the
    month carry into the neighbouring months. *)
Definition MakeDay (year month date : Z) : Z :=
  daysFromCivil (year + month / 12) (month mod 12 + 1) 1 + date - 1.

Definition TimeClip (t : Z) : JsDate :=
  if Z.abs t <=? 8640000000000000 then DateOf t else InvalidDate.

Definition YearFromTime (t : Z) : Z := let '(y, _, _) := civilFromDays (Day t) in y.
Definition MonthFromTime (t : Z) : Z := let '(_, m, _) := civilFromDays (Day t) in m - 1.
Definition DateFromTime (t : Z) : Z := let '(_, _, d) := civilFromDays (Day t) in d.
Definition WeekDay (t : Z) : Z := (Day t + 4) mod 7.
Definition TimeWithinDay (t : Z) : Z := t mod msPerDay.

(** A year argument in 0..99 means 1900 + year. *)
Definition fullYear (year : Z) : Z :=
  if (0 <=? year) && (year <=? 99) then 1900 + year else year.

Definition timeValue (d : JsDate) : option Z :=
  match d with
  | DateOf t => Some t
  | InvalidDate => None
  end.

(** [new Date(tv)] for a number that may be NaN. *)
Definition newDate (tv : option Z) : JsDate :=
  match tv with
  | Some t => TimeClip t
  | None => InvalidDate
  end.

(** [Date.UTC(year, month, date)]. *)
Definition DateUTC (year month date : Z) : option Z :=
  timeValue (TimeClip (MakeDay (fullYear year) month date * msPerDay)).

Definition getUTCFullYear (d : JsDate) : option Z := YearFromTime <$> timeValue d.
Definition getUTCDate (d : JsDate) : option Z := DateFromTime <$> timeValue d.
Definition getUTCDay (d : JsDate) : option Z := WeekDay <$> timeValue d.

(** [d.setUTCDate(dt)], returning the updated Date. *)
Definition setUTCDate (d : JsDate) (dt : option Z) : JsDate :=
  newDate (t ← timeValue d; dt ← dt;
           Some (MakeDay (YearFromTime t) (MonthFromTime t) dt * msPerDay + TimeWithinDay t)).

(** [Math.ceil(a / b)] for [b > 0], the quotient taken exactly. *)
Definition ceilDiv (a b : Z) : Z := - ((- a) / b).

Section Local.
Context `{Host}.

(** [new Date(year, month, date)]: midnight of that day in local time. *)
Definition newDateLocal (year month date : Z) : JsDate :=
  TimeClip (MakeDay (fullYear year) month date * msPerDay - tzOffset).

Definition LocalTime (t : Z) : Z := t + tzOffset.

Definition getFullYear (d : JsDate) : option Z := (YearFromTime ∘ LocalTime) <$> timeValue d.
Definition getMonth (d : JsDate) : option Z := (MonthFromTime ∘ LocalTime) <$> timeValue d.
Definition getDate (d : JsDate) : option Z := (DateFromTime ∘ LocalTime) <$> timeValue d.

(** [new Date(value)] for a primitive: a string goes through the
    parser, anything else through ToNumber. *)
Definition newDateOf (v : Prim) : JsDate :=
  match v with
  | PStr s => newDate (DateParse s)
  | PNum n => newDate (Some n)
  | PBool b => newDate (Some (if b then 1 else 0))
  | PNull => newDate (Some 0)
  | PUndefined => InvalidDate
  end.
End Local.

End Calendar.

Import Calendar.

(** ** Date helpers of the script *)

(** The regular expression [/^\d{4}-\d{2}-\d{2}/]. *)
Definition isoPrefix (s : string) : bool :=
  match s with
  | String y1 (String y2 (String y3 (String y4 (String "-"
      (String m1 (String m2 (String "-" (String d1 (String d2 _))))))))) =>
      isDigit y1 && isDigit y2 && isDigit y3 && isDigit y4
      && isDigit m1 && isDigit m2 && isDigit d1 && isDigit d2
  | _ => false
  end.

(** The separator class [/[\/\-\s]/]. *)
Definition isDateSep (c : ascii) : bool :=
  Ascii.eqb c "/" || Ascii.eqb c "-" || isSpace c.

Definition isValidDate (d : JsDate) : bool :=
  match d with
  | DateOf _ => true
  | InvalidDate => false
  end.

Section DateHelpers.
Context `{Host}.

(** The French branch of [parseFrenchDate]:
    [new Date(year, month, day)] from the first three parts, when there
    are three parts and each starts with an integer. *)
Definition frenchParts (s : string) : option JsDate :=
  match splitOn isDateSep s with
  | p0 :: p1 :: p2 :: _ =>
      match parseInt p0, parseInt p1, parseInt p2 with
      | Some day, Some month1, Some year =>
          let date := newDateLocal year (month1 - 1) day in
          if isValidDate date then Some date else None
      | _, _, _ => None
      end
  | _ => None
  end.

(** The last resort of [parseFrenchDate]: [new Date(dateStr)], or [null]
    when that is an Invalid Date. *)
Definition fallbackDate (dateStr : Prim) : option JsDate :=
  let date := newDateOf dateStr in
  if isValidDate date then Some date else None.

(** [parseFrenchDate] of the dashboard script; [None] is [null].  The
    numeric branch returns its Date unchecked, so it can be an Invalid
    Date object. *)
Definition parseFrenchDate (dateStr : Prim) : option JsDate :=
  if negb (truthy dateStr) then None
  else
    match dateStr with
    | PNum n =>
        let excelEpoch := newDateLocal 1899 11 30 in
        Some (newDate (t0 ← timeValue excelEpoch; Some (t0 + n * msPerDay)))
    | _ =>
        let iso :=
          match dateStr with
          | PStr s =>
              if isoPrefix s then
                let date := newDate (DateParse s) in
                if isValidDate date then Some date else None
              else None
          | _ => None
          end in
        match iso with
        | Some date => Some date
        | None =>
            match frenchParts (toStr dateStr) with
            | Some date => Some date
            | None => fallbackDate dateStr
            end
        end
    end.

(** [formatToFrenchDate(date)] for [null] or a Date; [None] is [null]. *)
Definition formatToFrenchDate (date : option JsDate) : option string :=
  match date with
  | Some (DateOf t as d) =>
      Some (padStart2 (numToString (getDate d)) ++ "/"
            ++ padStart2 (numToString ((fun m => m + 1) <$> getMonth d)) ++ "/"
            ++ numToString (getFullYear d))
  | _ => None
  end.

(** [getWeekNumber(date)]; [None] is NaN. *)
Definition getWeekNumber (date : JsDate) : option Z :=
  let d := newDate (y ← getFullYear date; m ← getMonth date; dt ← getDate date;
                    DateUTC y m dt) in
  let dayNum := match getUTCDay d with
                | Some 0 | None => 7
                | Some n => n
                end in
  let d := setUTCDate d ((fun dt => dt + 4 - dayNum) <$> getUTCDate d) in
  let yearStart := newDate (y ← getUTCFullYear d; DateUTC y 0 1) in
  td ← timeValue d; ts ← timeValue yearStart;
  Some (ceilDiv (td - ts + msPerDay) (7 * msPerDay)).

(** [formatDateForChart] of the dashboard script: the year-week bucket. *)
Definition formatDateForChart (dateStr : Prim) : string :=
  match parseFrenchDate dateStr with
  | None => "Unknown"
  | Some date =>
      let year := getFullYear date in
      let week := getWeekNumber date in
      numToString year ++ "-W" ++ padStart2 (numToString week)
  end.

End DateHelpers.

(** The second copy of the script (its functions at the top level of the
    file) differs in two of the helpers. *)
Module Standalone.
Section DateHelpers.
Context `{Host}.

(** No ISO branch in this copy. *)
Definition parseFrenchDate (dateStr : Prim) : option JsDate :=
  if negb (truthy dateStr) then None
  else
    match dateStr with
    | PNum n =>
        let excelEpoch := newDateLocal 1899 11 30 in
        Some (newDate (t0 ← timeValue excelEpoch; Some (t0 + n * msPerDay)))
    | _ =>
        match frenchParts (toStr dateStr) with
        | Some date => Some date
        | None => fallbackDate dateStr
        end
    end.

(** The year-month-week bucket. *)
Definition formatDateForChart (dateStr : Prim) : string :=
  match parseFrenchDate dateStr with
  | None => ""
  | Some date =>
      let year := getFullYear date in
      let month := (fun m => m + 1) <$> getMonth date in
      let weekNumber := getWeekNumber date in
      numToString year ++ "-" ++ padStart2 (numToString month)
        ++ "-W" ++ padStart2 (numToString weekNumber)
  end.
End DateHelpers.
End Standalone.

(** Two hosts for closed examples: UTC, and Casablanca's UTC+1; their
    generic parser is not reached by the examples. *)
Definition utcHost : Host :=
  {| tzOffset := 0; DateParse := fun _ => None; randomInt := fun _ => 0 |}.
Definition casaHost : Host :=
  {| tzOffset := 3600000; DateParse := fun _ => None; randomInt := fun i => Z.of_nat i |}.

(** ** Spreader numbers *)

(** A match of [/SPR(\d+)/i] at the very start of [s]: the captured digits. *)
Definition sprDigitsHere (s : string) : option string :=
  match s with
  | String c1 (String c2 (String c3 r)) =>
      if Ascii.eqb (upperChar c1) "S" && Ascii.eqb (upperChar c2) "P"
         && Ascii.eqb (upperChar c3) "R"
      then match spanDigits r with
           | (EmptyString, _) => None
           | (ds, _) => Some ds
           end
      else None
  | _ => None
  end.

(** [s.match(/SPR(\d+)/i)]: the capture of the leftmost match. *)
Fixpoint sprMatch (s : string) : option string :=
  match sprDigitsHere s with
  | Some ds => Some ds
  | None =>
      match s with
      | String _ r => sprMatch r
      | EmptyString => None
      end
  end.

Definition isValidSpreaderNumber (spreaderName : string) : bool :=
  match sprMatch spreaderName with
  | None => false
  | Some ds =>
      match parseInt ds with
      | Some number => (number <? 100) || (200 <? number)
      | None => false
      end
  end.

(** The number the rule speaks of: the digits that follow "SPR" in the
    leftmost place where digits follow it. *)
Definition spreaderNumber (moKey : string) : option Z :=
  ds ← sprMatch moKey; parseInt ds.

(** ** Status codes *)

(** [statusMap], in the order [Object.keys] lists its integer keys. *)
Definition statusMap : list (string * (string * string)) :=
  [ ("0", ("TEM", "Template"));
    ("1", ("PAS", "Passive"));
    ("2", ("ORD", "Job ordered"));
    ("3", ("INI", "Job Initial status - Default"));
    ("4", ("LAT", "Looked at"));
    ("5", ("RDY", "Job ready for execution"));
    ("6", ("IPG", "Job in progress"));
    ("7", ("STP", "Job stopped"));
    ("8", ("WSP", "Waiting for spare parts"));
    ("9", ("RNF", "Registration not finished"));
    ("10", ("FIN", "Technically finished"));
    ("50", ("WPP", "Pending spare parts PSTL"));
    ("55", ("WSL", "Pending spare parts LCT"));
    ("60", ("ODE", "Ops Delay"));
    ("65", ("WFT", "Tools/Service equipment"));
    ("70", ("ITS", "IT Support")) ].

(** [getJobStatusFullName(code)]: the pair of [obs] and [description].
    The guard [!isNaN(code)] of the first test holds whenever
    [statusMap[code]] exists, every key being a decimal numeral. *)
Definition getJobStatusFullName (code : Prim) : Prim * Prim :=
  match List.find (fun e => String.eqb (fst e) (toStr code)) statusMap with
  | Some (_, (obs, description)) => (PStr obs, PStr description)
  | None =>
      match code with
      | PStr c =>
          match List.find (fun e => String.eqb (fst (snd e)) c) statusMap with
          | Some (_, (obs, description)) => (PStr obs, PStr description)
          | None => (code, code)
          end
      | _ => (code, code)
      end
  end.

(** ** Row normalisation: [processExcelWorkbook] *)

(** A workbook as the script reads it: the sheet names in order, and for
    each sheet the rows [XLSX.utils.sheet_to_json] returns for it. *)
Record Workbook : Type := {
  SheetNames : list string;
  Sheets : gmap string (list Obj)
}.

(** The KPI scalars of a result.  The chart tables and the two top-entry
    KPIs are computed after these from the same items, inside handlers that
    swallow their own exceptions; they are left out of the embedding. *)
Record Kpis : Type := {
  total_wo : nat;
  avg_processing_time : Q;
  closed_count : nat;
  waiting_count : nat
}.

Record ProcessResult : Type := {
  data : list Obj;
  kpis : Kpis
}.

(** An element of the array handed to [processData], and the argument
    itself, which JavaScript does not oblige to be an array. *)
Inductive Elem : Type :=
  | EPrim (v : Prim)
  | EObj (o : Obj).

Inductive JsArg : Type :=
  | ArgPrim (v : Prim)
  | ArgObject (o : Obj)
  | ArgArray (items : list Elem).

(** [catch (error) { throw new Error(prefix + error.message) }]. *)
Definition rethrow {A} (prefix : string) (r : Result A) : Result A :=
  match r with
  | Ok a => Ok a
  | Throw e => Throw (Error (prefix ++ message e))
  end.

(** [date ? formatToFrenchDate(date) : null] as a field value. *)
Definition frenchOrNull `{Host} (date : option JsDate) : Prim :=
  match date with
  | Some d =>
      match formatToFrenchDate (Some d) with
      | Some s => PStr s
      | None => PNull
      end
  | None => PNull
  end.

Section Pipeline.
Context `{Host}.

(** The equipment name of a row: empty when the row is to be skipped. *)
Definition equipmentName (row : Obj) : Result string :=
  if truthy (get row "MO_key") then
    moKey ← upperOf (get row "MO_key");
    if includes moKey "STS" then Ok (slice0 5 moKey)
    else if includes moKey "SPR" || includes moKey "SPS" then
      if isValidSpreaderNumber moKey then Ok (slice0 6 moKey) else Ok ""
    else Ok ""
  else Ok "".

(** A date cell of a row, parsed unless it is [undefined] or [null]. *)
Definition parseCell (v : Prim) : option JsDate :=
  match v with
  | PUndefined | PNull => None
  | _ => parseFrenchDate v
  end.

(** The object literal the callback returns for a retained row: the row's
    own fields, overridden by the normalised ones. *)
Definition workOrder (row : Obj) (index : nat) (EQ_name equipmentType faultLocation : string)
    (orderDate execDate : option JsDate) : Obj :=
  let n := Z_to_string (280000 + Z.of_nat index) in
  <["Jobexec_dt" := frenchOrNull execDate]> (
  <["Order_date" := frenchOrNull orderDate]> (
  <["Cost_purpose_key" :=
      orElse (get row "Cost_purpose_key") (orElse (get row "cost_purpose")
        (orElse (get row "purpose") (PStr "Corrective")))]> (
  <["Job_type" :=
      orElse (get row "Job_type") (orElse (get row "job_type")
        (orElse (get row "type") (PStr "Repair")))]> (
  <["faultlocation" := PStr faultLocation]> (
  <["EQ_type" := PStr equipmentType]> (
  <["Jobstatus" := orElse (get row "Jobstatus") (PStr "active")]> (
  <["MO_key" :=
      orElse (get row "MO_key") (orElse (get row "mo_key")
        (PStr ("MO" ++ Z_to_string (randomInt index))))]> (
  <["Description" :=
      orElse (get row "Description") (orElse (get row "description")
        (PStr ("Description for WO " ++ n)))]> (
  <["WO_name" :=
      orElse (get row "WO_name") (orElse (get row "wo_name")
        (PStr ("Work Order " ++ n)))]> (
  <["WO_key" :=
      orElse (get row "WO_key") (orElse (get row "wo_key") (PStr ("WO" ++ n)))]> (
  <["EQ_name" := PStr EQ_name]> row))))))))))).

(** The callback of [combinedData.map]: [None] is the [null] of a skipped
    row. *)
Definition normalizeRow (row : Obj) (index : nat) : Result (option Obj) :=
  let orderDate := parseCell (get row "Order_date") in
  let execDate := parseCell (get row "Jobexec_dt") in
  EQ_name ← equipmentName row;
  if String.eqb EQ_name "" then Ok None
  else
    equipmentType ← getEquipmentType (get row "MO_key");
    faultLocation ← getFaultLocation (get row "MO_key");
    Ok (Some (workOrder row index EQ_name equipmentType faultLocation orderDate execDate)).

(** [combinedData.map((row, index) => ..)] from a starting index: the
    first exception, in the order of the rows, ends the loop. *)
Fixpoint mapRows (rows : list Obj) (index : nat) : Result (list (option Obj)) :=
  match rows with
  | [] => Ok []
  | row :: rest =>
      r ← normalizeRow row index;
      rs ← mapRows rest (S index);
      Ok (r :: rs)
  end.

(** [rows.map(row => ({ ...row, Jobstatus: tag }))]. *)
Definition tagRows (tag : string) (rows : list Obj) : list Obj :=
  (fun row => <["Jobstatus" := PStr tag]> row) <$> rows.

(** The rows of the named sheets, or failing them of the first sheet. *)
Definition combineSheets (workbook : Workbook) : list Obj :=
  let active :=
    match Sheets workbook !! "WO active" with
    | Some rows => tagRows "active" rows
    | None => []
    end in
  let combinedData :=
    match Sheets workbook !! "WO history" with
    | Some rows => (active ++ tagRows "history" rows)%list
    | None => active
    end in
  match combinedData, SheetNames workbook with
  | [], firstSheet :: _ => tagRows "active" (default [] (Sheets workbook !! firstSheet))
  | _, _ => combinedData
  end.

(** ** Aggregation: [processData] *)

(** The statement [if (item.Jobstatus) { item = { ...item, .. } }]. *)
Definition attachStatus (item : Obj) : Obj :=
  if truthy (get item "Jobstatus") then
    let status := getJobStatusFullName (get item "Jobstatus") in
    <["JobstatusDescription" := orElse (snd status) (PStr "Unknown")]> (
    <["JobstatusObs" := orElse (fst status) (PStr "Unknown")]> (
    <["JobstatusCode" := get item "Jobstatus"]> item))
  else item.

(** The equipment name [processData] recomputes; it may throw. *)
Definition equipmentNameAgain (item : Obj) : Result string :=
  if truthy (get item "MO_key") then
    moKey ← upperOf (get item "MO_key");
    if includes moKey "STS" then Ok (slice0 5 moKey)
    else if includes moKey "SPR" then Ok (slice0 6 moKey)
    else Ok "Unknown"
  else Ok "Unknown".

(** The body of the per-item [try] of [processData]. *)
Definition enrichItem (item : Obj) : Result Obj :=
  let item := attachStatus item in
  EQ_name ← equipmentNameAgain item;
  let item : Obj := <["EQ_name" := PStr EQ_name]> item in
  let combinedText :=
    toStr (orElse (get item "WO_name") (PStr "")) ++ " "
    ++ toStr (orElse (get item "Description") (PStr "")) in
  Ok (<["failure" := PStr (failureLabel combinedText)]> item).

(** The item the [catch] of that [try] returns.  The only statement that
    can throw comes after the status fields are attached, so the [item]
    the handler spreads already carries them when [Jobstatus] is truthy. *)
Definition enrichFallback (item : Obj) : Obj :=
  let item := attachStatus item in
  <["EQ_name" := PStr "Unknown"]> (
  <["failure" := PStr "Unknown"]> (
  <["JobstatusDescription" := PStr "Unknown"]> (
  <["JobstatusObs" := PStr "Unknown"]> (
  <["JobstatusCode" := get item "Jobstatus"]> item)))).

(** The callback of [data.map]: it never throws. *)
Definition processItem (item : Obj) : Obj :=
  match enrichItem item with
  | Ok item' => item'
  | Throw _ => enrichFallback item
  end.

(** The callback that computes one processing time, in days; [None] is
    the [null] it returns when a date is invalid or when reading
    [getTime] of a [null] parse throws inside its [try]. *)
Definition processingTime (item : Obj) : option Q :=
  let execDate := parseFrenchDate (get item "Jobexec_dt") in
  let orderDate := parseFrenchDate (get item "Order_date") in
  match execDate, orderDate with
  | Some execDate, Some orderDate =>
      match timeValue execDate, timeValue orderDate with
      | Some te, Some to => Some (inject_Z (te - to) / inject_Z msPerDay)%Q
      | _, _ => None
      end
  | _, _ => None
  end.

Definition isClosed (item : Obj) : bool := truthy (get item "Jobexec_dt").

(** [xs.reduce((a, b) => a + b, 0)]. *)
Definition sumQ (xs : list Q) : Q := fold_left Qplus xs 0%Q.

Definition averageProcessingTime (items : list Obj) : Q :=
  let closed_wo := List.filter isClosed items in
  match closed_wo with
  | [] => 0%Q
  | _ =>
      let validProcessingTimes := omap processingTime closed_wo in
      match validProcessingTimes with
      | [] => 0%Q
      | _ => (sumQ validProcessingTimes / inject_Z (Z.of_nat (length validProcessingTimes)))%Q
      end
  end.

(** The objects among the elements of the array. *)
Definition objectsOf (items : list Elem) : list Obj :=
  omap (fun e => match e with EObj o => Some o | EPrim _ => None end) items.

Definition processData (arg : JsArg) : Result ProcessResult :=
  match arg with
  | ArgPrim v =>
      if negb (truthy v) then Throw (Error "No data provided to process")
      else Throw (Error "Data must be an array")
  | ArgObject _ => Throw (Error "Data must be an array")
  | ArgArray [] => Throw (Error "Data array is empty")
  | ArgArray items =>
      rethrow "Failed to process data: " (
        match objectsOf items with
        | [] => Throw (Error "No valid data objects found in array")
        | objs =>
            let data := processItem <$> objs in
            Ok {| data := data;
                  kpis := {| total_wo := length data;
                             avg_processing_time := averageProcessingTime data;
                             closed_count := length (List.filter isClosed data);
                             waiting_count :=
                               length (List.filter (fun item => negb (isClosed item)) data) |} |}
        end)
  end.

(** [processExcelWorkbook(workbook)]; [None] is a missing workbook or one
    without [Sheets].  The call of [updateTimePeriodInfo] on the result
    writes two elements of the page and does not change what is
    returned. *)
Definition processExcelWorkbook (workbook : option Workbook) : Result ProcessResult :=
  match workbook with
  | None => Throw (Error "Invalid workbook format")
  | Some workbook =>
      rethrow "Error processing Excel data: " (
        match combineSheets workbook with
        | [] => Throw (Error "No data found in the Excel file")
        | combinedData =>
            rows ← mapRows combinedData 0;
            match omap id rows with
            | [] => Throw (Error "No valid data rows found after processing")
            | processedData => processData (ArgArray (EObj <$> processedData))
            end
        end)
  end.

End Pipeline.

(** ** Filtering: [applyFilters] *)

(** [s.split(sep)] for a separator string of at least one character;
    [skip] counts the characters of a separator still to be passed. *)
Fixpoint splitStrFrom (sep : string) (skip : nat) (s : string) : list string :=
  match s with
  | EmptyString => [EmptyString]
  | String c r =>
      match skip with
      | S k => splitStrFrom sep k r
      | O =>
          if String.prefix sep s then EmptyString :: splitStrFrom sep (String.length sep - 1) r
          else match splitStrFrom sep 0 r with
               | p :: ps => String c p :: ps
               | [] => [String c EmptyString]
               end
      end
  end.

Definition splitStr (sep s : string) : list string := splitStrFrom sep 0 s.

(** ToNumber of a string, for decimal integers: surrounding white space
    is ignored, the empty string is 0, an optional sign may precede the
    digits.  Numerals in other notations (fractions, exponents, radix
    prefixes), which a week input never holds, read as NaN here. *)
Definition toNumber (s : string) : option Z :=
  let t := trim s in
  match t with
  | EmptyString => Some 0
  | _ =>
      let '(neg, body) :=
        match t with
        | String "-" r => (true, r)
        | String "+" r => (false, r)
        | _ => (false, t)
        end in
      match spanDigits body with
      | (String c ds, EmptyString) =>
          let n := digitsValue 0 (String c ds) in Some (if neg then - n else n)
      | _ => None
      end
  end.

(** The state of the filter form: the values of the four week inputs (the
    empty string when nothing is entered) and the selected options of the
    six lists. *)
Record Criteria : Type := {
  orderStartDate : string;
  orderEndDate : string;
  execStartDate : string;
  execEndDate : string;
  selectedJobTypes : list string;
  selectedStatuses : list string;
  selectedLocations : list string;
  selectedEquipment : list string;
  selectedPurposes : list string;
  selectedFailures : list string
}.

(** [a < b] and [a > b] on Dates compare the time values; a comparison
    with NaN is false. *)
Definition dateLt (a b : JsDate) : bool :=
  match timeValue a, timeValue b with
  | Some x, Some y => x <? y
  | _, _ => false
  end.

Definition dateGt (a b : JsDate) : bool := dateLt b a.

(** [selected.includes(v)] for a list of option values, which are strings. *)
Definition selectionIncludes (selected : list string) (v : Prim) : bool :=
  match v with
  | PStr s => existsb (String.eqb s) selected
  | _ => false
  end.

Section Filtering.
Context `{Host}.

Definition getDay (d : JsDate) : option Z := (WeekDay ∘ LocalTime) <$> timeValue d.

(** [d.setDate(dt)]: the new time value. *)
Definition setDate (d : JsDate) (dt : option Z) : option Z :=
  timeValue (newDate (
    t ← timeValue d; dt ← dt;
    let lt := LocalTime t in
    Some (MakeDay (YearFromTime lt) (MonthFromTime lt) dt * msPerDay
          + TimeWithinDay lt - tzOffset))).

(** [getDateFromISOWeek(isoWeek)]; [None] is [null]. *)
Definition getDateFromISOWeek (isoWeek : string) : option JsDate :=
  if String.eqb isoWeek "" then None
  else
    let parts := splitStr "-W" isoWeek in
    let year := toNumber (List.nth 0 parts "") in
    let week := match parts with
                | _ :: w :: _ => toNumber w
                | _ => None
                end in
    let simple :=
      match year, week with
      | Some y, Some w => newDateLocal y 0 (1 + (w - 1) * 7)
      | _, _ => InvalidDate
      end in
    let day := getDay simple in
    let diff := dt ← getDate simple; dy ← day;
                Some (dt - dy + (if dy =? 0 then -6 else 1)) in
    Some (newDate (setDate simple diff)).

(** [isoWeek ? getDateFromISOWeek(isoWeek) : null]. *)
Definition boundOf (isoWeek : string) : option JsDate :=
  if String.eqb isoWeek "" then None else getDateFromISOWeek isoWeek.

(** [bound && itemDate && itemDate < bound], and the same with [>]. *)
Definition before (bound itemDate : option JsDate) : bool :=
  match bound, itemDate with
  | Some b, Some d => dateLt d b
  | _, _ => false
  end.

Definition after (bound itemDate : option JsDate) : bool :=
  match bound, itemDate with
  | Some b, Some d => dateGt d b
  | _, _ => false
  end.

(** [selected.length > 0 && !selected.includes(v)]. *)
Definition excludedBy (selected : list string) (v : Prim) : bool :=
  (0 <? length selected)%nat && negb (selectionIncludes selected v).

(** The callback of [currentData.data.filter]. *)
Definition keeps (c : Criteria) (item : Obj) : bool :=
  let itemOrderDate := parseFrenchDate (get item "Order_date") in
  let itemExecDate := parseFrenchDate (get item "Jobexec_dt") in
  if before (boundOf (orderStartDate c)) itemOrderDate then false
  else if after (boundOf (orderEndDate c)) itemOrderDate then false
  else if before (boundOf (execStartDate c)) itemExecDate then false
  else if after (boundOf (execEndDate c)) itemExecDate then false
  else if excludedBy (selectedJobTypes c) (get item "Job_type") then false
  else if excludedBy (selectedStatuses c) (get item "JobstatusObs") then false
  else if excludedBy (selectedLocations c) (get item "faultlocation") then false
  else if excludedBy (selectedEquipment c) (get item "EQ_type") then false
  else if excludedBy (selectedPurposes c) (get item "Cost_purpose_key") then false
  else if excludedBy (selectedFailures c) (get item "failure") then false
  else true.

(** [applyFilters()]: the filtered items handed to the charts and to the
    KPI cards; [None] when no data is loaded (the function alerts and
    returns). *)
Definition applyFilters (currentData : option ProcessResult) (c : Criteria)
  : option (list Obj) :=
  match currentData with
  | None => None
  | Some current => Some (List.filter (keeps c) (data current))
  end.

End Filtering.

(** * Vocabulary of the statements *)

(** ** Rules of the failure table *)


(** A label is shadowed when every pattern of every rule that carries it is
    already tested by an earlier rule; [seen] collects the patterns of the
    rules passed so far. *)
Fixpoint shadowedLabel (label : string) (seen : list string)
    (rules : list (list string * string)) : bool :=
  match rules with
  | [] => true
  | rule :: rest =>
      (if String.eqb (snd rule) label
       then forallb (fun p => existsb (String.eqb p) seen) (fst rule)
       else true)
      && shadowedLabel label (seen ++ fst rule)%list rest
  end.

(** ** Rows and workbooks *)

(** A row is retained with a given equipment type: the callback returns a
    work order whose [EQ_type] is that type. *)
Definition retainedAs (r : Result (option Obj)) (equipmentType : string) : Prop :=
  exists item : Obj, r = Ok (Some item) /\ item !! "EQ_type" = Some (PStr equipmentType).

(** The fields [processData] writes into an item. *)
Definition enrichedFields : list string :=
  ["JobstatusCode"; "JobstatusObs"; "JobstatusDescription"; "EQ_name"; "failure"].

(** A workbook for closed examples: one spreader outside the reserved
    band, its key in lower case. *)
Definition sampleWorkbook : Workbook :=
  {| SheetNames := ["WO active"];
     Sheets := {[ "WO active" := [ ({[ "MO_key" := PStr "spr050abc" ]} : Obj) ] ]} |}.


(** A workbook without sheets, and one whose rows are all out of scope. *)
Definition emptyWorkbook : Workbook := {| SheetNames := []; Sheets := ∅ |}.

Definition outOfScopeWorkbook : Workbook :=
  {| SheetNames := ["Sheet1"];
     Sheets := {[ "Sheet1" :=
                    [ ({[ "MO_key" := PStr "SPR150ABC" ]} : Obj);
                      ({[ "MO_key" := PStr "RTG0042" ]} : Obj);
                      ({[ "WO_key" := PStr "WO1" ]} : Obj) ] ]} |}.

(** ** Filter forms *)

(** The filter form with nothing entered and nothing selected. *)
Definition noCriteria : Criteria :=
  {| orderStartDate := ""; orderEndDate := ""; execStartDate := ""; execEndDate := "";
     selectedJobTypes := []; selectedStatuses := []; selectedLocations := [];
     selectedEquipment := []; selectedPurposes := []; selectedFailures := [] |}.

(** The same form with the two bounds of one date field emptied. *)
Definition clearOrderBounds (c : Criteria) : Criteria :=
  {| orderStartDate := ""; orderEndDate := "";
     execStartDate := execStartDate c; execEndDate := execEndDate c;
     selectedJobTypes := selectedJobTypes c; selectedStatuses := selectedStatuses c;
     selectedLocations := selectedLocations c; selectedEquipment := selectedEquipment c;
     selectedPurposes := selectedPurposes c; selectedFailures := selectedFailures c |}.

Definition clearExecBounds (c : Criteria) : Criteria :=
  {| orderStartDate := orderStartDate c; orderEndDate := orderEndDate c;
     execStartDate := ""; execEndDate := "";
     selectedJobTypes := selectedJobTypes c; selectedStatuses := selectedStatuses c;
     selectedLocations := selectedLocations c; selectedEquipment := selectedEquipment c;
     selectedPurposes := selectedPurposes c; selectedFailures := selectedFailures c |}.

(** A date that failed to parse: [parseFrenchDate] gave [null], or a Date
    object that is an Invalid Date. *)
Definition unparsed (d : option JsDate) : bool :=
  match d with
  | None | Some InvalidDate => true
  | Some (DateOf _) => false
  end.

(** A loaded dataset of one pending work order without an order date, and
    a form that sets a lower bound on the order date only. *)
Definition undatedOrder : Obj :=
  {[ "WO_key" := PStr "WO280001"; "Order_date" := PNull; "Jobexec_dt" := PNull ]}.

Definition undatedData : ProcessResult :=
  {| data := [undatedOrder];
     kpis := {| total_wo := 1; avg_processing_time := 0; closed_count := 0;
                waiting_count := 1 |} |}.

Definition fromWeek10 : Criteria :=
  {| orderStartDate := "2024-W10"; orderEndDate := ""; execStartDate := ""; execEndDate := "";
     selectedJobTypes := []; selectedStatuses := []; selectedLocations := [];
     selectedEquipment := []; selectedPurposes := []; selectedFailures := [] |}.

(** ** The mean the design document describes *)

(** The time value of a date field that parsed successfully. *)
Definition parsedTime `{Host} (v : Prim) : option Z :=
  match parseFrenchDate v with
  | Some (DateOf t) => Some t
  | _ => None
  end.

(** The processing time, in days, of an order whose two dates parsed. *)
Definition elapsedDays `{Host} (item : Obj) : option Q :=
  te ← parsedTime (get item "Jobexec_dt");
  to ← parsedTime (get item "Order_date");
  Some (inject_Z (te - to) / inject_Z msPerDay)%Q.

(** The same, kept only when it is not negative. *)
Definition nonNegativeDays `{Host} (item : Obj) : option Q :=
  te ← parsedTime (get item "Jobexec_dt");
  to ← parsedTime (get item "Order_date");
  if to <=? te then Some (inject_Z (te - to) / inject_Z msPerDay)%Q else None.

(** The arithmetic mean; 0 for no value, as the KPI is initialised. *)
Definition meanQ (xs : list Q) : Q :=
  match xs with
  | [] => 0%Q
  | _ => (sumQ xs / inject_Z (Z.of_nat (length xs)))%Q
  end.

(** The mean as the document words it: over the closed orders whose dates
    both parse and whose difference is not negative. *)
Definition documentedAverage `{Host} (items : list Obj) : Q :=
  meanQ (omap nonNegativeDays (List.filter isClosed items)).

(** Two closed orders: one executed four days after it was ordered, one
    recorded as executed two days before. *)
Definition lateOrder : Obj :=
  {[ "Order_date" := PStr "01/01/2024"; "Jobexec_dt" := PStr "05/01/2024" ]}.

Definition backdatedOrder : Obj :=
  {[ "Order_date" := PStr "03/01/2024"; "Jobexec_dt" := PStr "01/01/2024" ]}.

(** The example of the document: processing times of 1, 3 and 5 days, and
    a closed order whose execution date does not parse. *)
Definition oneDay : Obj :=
  {[ "Order_date" := PStr "01/03/2024"; "Jobexec_dt" := PStr "02/03/2024" ]}.
Definition threeDays : Obj :=
  {[ "Order_date" := PStr "01/03/2024"; "Jobexec_dt" := PStr "04/03/2024" ]}.
Definition fiveDays : Obj :=
  {[ "Order_date" := PStr "01/03/2024"; "Jobexec_dt" := PStr "06/03/2024" ]}.
Definition badExecDate : Obj :=
  {[ "Order_date" := PStr "01/03/2024"; "Jobexec_dt" := PStr "tbd" ]}.

(** ** Hosts and days *)

(** A host whose offset from UTC is at most a day, as every real one. *)
Definition plausibleOffset `{Host} : Prop := Z.abs tzOffset <= msPerDay.

(** Day numbers whose local midnight is a representable time value. *)
Definition representableDay (k : Z) : Prop := Z.abs k <= 99999998.

(** ** The display form of a calendar date *)



Definition digitChar (n : Z) : ascii := ascii_of_nat (48 + Z.to_nat n).

Definition twoDigits (n : Z) : string :=
  String (digitChar (n / 10)) (String (digitChar (n mod 10)) EmptyString).

Definition fourDigits (n : Z) : string :=
  String (digitChar (n / 1000)) (String (digitChar (n / 100 mod 10))
    (String (digitChar (n / 10 mod 10)) (String (digitChar (n mod 10)) EmptyString))).

(** DD/MM/YYYY, each part padded with zeros, of (year, month, day). *)
Definition displayDate (ymd : Z * Z * Z) : string :=
  let '(y, m, d) := ymd in twoDigits d ++ "/" ++ twoDigits m ++ "/" ++ fourDigits y.

(** A property checked on [count] consecutive integers from [lo]. *)
Definition checkRange (P : Z -> bool) (lo : Z) (count : nat) : bool :=
  forallb (fun i => P (lo + Z.of_nat i)) (seq 0 count).

(** ** ISO weeks *)

(** The calendar year and month (1..12) of a day number. *)
Definition calendarYear (k : Z) : Z := let '(y, _, _) := civilFromDays k in y.
Definition calendarMonth (k : Z) : Z := let '(_, m, _) := civilFromDays k in m.

(** Weeks counted from Monday 29 December 1969: two days lie in the same
    ISO week exactly when they have the same index. *)
Definition isoWeekIndex (k : Z) : Z := (k + 3) / 7.

(** The Thursday of the ISO week of a day (day 0, 1 January 1970, is one). *)
Definition thursdayOf (k : Z) : Z := 7 * isoWeekIndex k.

(** The ISO week-numbering year of a day: the calendar year of the
    Thursday of its week. *)
Definition isoWeekYear (k : Z) : Z := calendarYear (thursdayOf k).

(** The ISO week number of a day: the rank of its Thursday among the
    Thursdays of that year. *)
Definition isoWeekNumber (k : Z) : Z :=
  ceilDiv (thursdayOf k - daysFromCivil (isoWeekYear k) 1 1 + 1) 7.

(** Monday 30 December 2024 and Sunday 5 January 2025. *)
Definition monday2024 : Z := daysFromCivil 2024 12 30.
Definition sunday2025 : Z := daysFromCivil 2025 1 5.

(** * More of the script

    The functions of the dashboard script around the pipeline: the snag
    and status helpers, the tables the charts are drawn from, the numbers
    of the KPI cards, the equipment statistics and the equipment selector.
    What they write to the page is left out; what they compute is here. *)

(** ** Snag locations *)

(** [determineSnagLocation(fault)]. *)
Definition determineSnagLocation (fault : Prim) : string :=
  if negb (truthy fault) then ""
  else
    let s := toUpperCase (toStr fault) in
    if negb (includes s "SNAG") then ""
    else if includes s "FAULT #0" then "loadCell"
    else if includes s "FAULT #1" && includes s "FAULT #2"
            && includes s "FAULT #3" && includes s "FAULT #4" then "Cylinder 1234"
    else if includes s "FAULT #1" && includes s "FAULT #2" && includes s "FAULT #3"
      then "Cylinder 123"
    else if includes s "FAULT #1" && includes s "FAULT #2" && includes s "FAULT #4"
      then "Cylinder 124"
    else if includes s "FAULT #2" && includes s "FAULT #3" && includes s "FAULT #4"
      then "Cylinder 234"
    else if includes s "FAULT #1" && includes s "FAULT #2" then "Cylinder 12"
    else if includes s "FAULT #1" && includes s "FAULT #3" then "Cylinder 13"
    else if includes s "FAULT #1" && includes s "FAULT #4" then "Cylinder 14"
    else if includes s "FAULT #2" && includes s "FAULT #3" then "Cylinder 23"
    else if includes s "FAULT #2" && includes s "FAULT #4" then "Cylinder 24"
    else if includes s "FAULT #3" && includes s "FAULT #4" then "Cylinder 34"
    else if includes s "FAULT #1" then "Cylinder 1"
    else if includes s "FAULT #2" then "Cylinder 2"
    else if includes s "FAULT #3" then "Cylinder 3"
    else if includes s "FAULT #4" then "Cylinder 4"
    else "".

(** ** Status counts *)

Record StatusCounts : Type := {
  finished : nat;
  waiting : nat;
  total : nat
}.

(** [getStatusCounts(data)]. *)
Definition getStatusCounts (data : list Obj) : StatusCounts :=
  let finishedStatuses := ["FIN"] in
  let waitingStatuses := ["ORD"; "INI"; "LAT"; "RDY"] in
  {| finished :=
       length (List.filter (fun item => selectionIncludes finishedStatuses (get item "JobstatusObs"))
                 data);
     waiting :=
       length (List.filter (fun item => selectionIncludes waitingStatuses (get item "JobstatusObs"))
                 data);
     total := length data |}.

(** ** Objects used as tables of counters

    An object literal inherits the members of [Object.prototype]: reading
    one of these names from an object that has no such property of its own
    yields the inherited member, not [undefined]. *)
Definition inheritedNames : list string :=
  [ "constructor"; "hasOwnProperty"; "isPrototypeOf"; "propertyIsEnumerable";
    "toLocaleString"; "toString"; "valueOf"; "__proto__";
    "__defineGetter__"; "__defineSetter__"; "__lookupGetter__"; "__lookupSetter__" ].

Definition inherited (k : string) : bool := existsb (String.eqb k) inheritedNames.

(** An entry of a table of counters: a count, or the string that [+ 1]
    makes of an inherited member (its text is the engine's). *)
Inductive Cell : Type :=
  | Count (n : Z)
  | Text.

(** [o[key] = (o[key] || 0) + 1].  Under an inherited name the entry
    becomes a string and stays one; under "__proto__" the assignment goes
    to the setter, which ignores a string, and no entry is made. *)
Definition tally (o : gmap string Cell) (key : Prim) : gmap string Cell :=
  let k := toStr key in
  match o !! k with
  | Some (Count n) => <[k := Count (n + 1)]> o
  | Some Text => o
  | None =>
      if String.eqb k "__proto__" then o
      else if inherited k then <[k := Text]> o
      else <[k := Count 1]> o
  end.

(** ** Chart data: [prepareChartData] *)

Record ChartData : Type := {
  wo_created : gmap string Cell;
  wo_closed : gmap string Cell;
  eq_type_dist : gmap string Cell;
  wo_per_location : gmap string Cell;
  wo_per_cause : gmap string Cell;
  status_dist : gmap string Cell
}.

Section Charts.
Context `{Host}.

(** The callback of [data.forEach]. *)
Definition chartStep (acc : ChartData) (item : Obj) : ChartData :=
  {| wo_created :=
       if truthy (get item "Order_date")
       then tally (wo_created acc) (PStr (formatDateForChart (get item "Order_date")))
       else wo_created acc;
     wo_closed :=
       if truthy (get item "Jobexec_dt")
       then tally (wo_closed acc) (PStr (formatDateForChart (get item "Jobexec_dt")))
       else wo_closed acc;
     eq_type_dist := tally (eq_type_dist acc) (orElse (get item "EQ_type") (PStr "Other"));
     wo_per_location :=
       tally (wo_per_location acc) (orElse (get item "faultlocation") (PStr "Other"));
     wo_per_cause := tally (wo_per_cause acc) (orElse (get item "failure") (PStr "Unknown"));
     status_dist := tally (status_dist acc) (orElse (get item "JobstatusObs") (PStr "Unknown")) |}.

Definition prepareChartData (data : list Obj) : ChartData :=
  fold_left chartStep data
    {| wo_created := ∅; wo_closed := ∅; eq_type_dist := ∅; wo_per_location := ∅;
       wo_per_cause := ∅; status_dist := ∅ |}.

End Charts.

(** ** The numbers of the KPI cards

    [renderGeneralKPIs], [renderCorrectiveKPIs] and [renderBreakdownKPIs]
    compute the same four numbers with the same statements (the last two
    call the average [mttr]) before they build their markup, which is left
    out here. *)
Module Cards.

Record Numbers : Type := {
  total : nat;
  closed : nat;
  waiting : nat;
  avgProcessingTime : Q
}.

End Cards.

Section KpiCards.
Context `{Host}.

(** The callback of [closedWOs.map]: the days between the two dates, 0
    when a parse gave [null]; [None] is the NaN of an Invalid Date. *)
Definition cardTime (wo : Obj) : option Q :=
  match parseFrenchDate (get wo "Order_date"), parseFrenchDate (get wo "Jobexec_dt") with
  | Some startDate, Some endDate =>
      match timeValue endDate, timeValue startDate with
      | Some te, Some ts => Some (inject_Z (te - ts) / inject_Z msPerDay)%Q
      | _, _ => None
      end
  | _, _ => Some 0%Q
  end.

(** The test of [.filter(time => time > 0)]; a comparison with NaN is
    false. *)
Definition positiveTime (time : option Q) : option Q :=
  match time with
  | Some q => if Qle_bool q 0 then None else Some q
  | None => None
  end.

Definition renderGeneralKPIs (data : list Obj) : Cards.Numbers :=
  let total := length data in
  let closed := length (List.filter isClosed data) in
  let waiting := (total - closed)%nat in
  let closedWOs := List.filter isClosed data in
  let avgProcessingTime :=
    match closedWOs with
    | [] => 0%Q
    | _ =>
        let processingTimes := omap (fun wo => positiveTime (cardTime wo)) closedWOs in
        match processingTimes with
        | [] => 0%Q
        | _ => (sumQ processingTimes / inject_Z (Z.of_nat (length processingTimes)))%Q
        end
    end in
  {| Cards.total := total; Cards.closed := closed; Cards.waiting := waiting;
     Cards.avgProcessingTime := avgProcessingTime |}.

Definition renderCorrectiveKPIs (data : list Obj) : Cards.Numbers := renderGeneralKPIs data.
Definition renderBreakdownKPIs (data : list Obj) : Cards.Numbers := renderGeneralKPIs data.

End KpiCards.

(** ** Equipment statistics: [getEquipmentDetails] *)

Record EquipmentStats : Type := {
  totalWOs : Z;
  completedWOs : Z;
  avgRepairTime : Q;
  failures : gmap string Cell;
  type : Prim
}.

(** Reading [failures] of an inherited member, which has none, and
    indexing the [undefined] it yields (the text is the engine's, here
    V8's wording). *)
Definition noFailures : Exn := TypeError "Cannot read properties of undefined".

Section Equipment.
Context `{Host}.

(** The statements that update the entry of the equipment of [wo]. *)
Definition recordOrder (stats : EquipmentStats) (wo : Obj) : EquipmentStats :=
  let totalWOs := totalWOs stats + 1 in
  let completedWOs :=
    if truthy (get wo "Jobexec_dt") then completedWOs stats + 1 else completedWOs stats in
  let avgRepairTime :=
    if truthy (get wo "Jobexec_dt") then
      match parseFrenchDate (get wo "Order_date"), parseFrenchDate (get wo "Jobexec_dt") with
      | Some startDate, Some endDate =>
          match timeValue endDate, timeValue startDate with
          | Some te, Some ts =>
              let repairTime := (inject_Z (te - ts) / inject_Z msPerDay)%Q in
              if Qle_bool repairTime 0 then avgRepairTime stats
              else
                let currentTotal := (avgRepairTime stats * inject_Z (completedWOs - 1))%Q in
                ((currentTotal + repairTime) / inject_Z completedWOs)%Q
          | _, _ => avgRepairTime stats
          end
      | _, _ => avgRepairTime stats
      end
    else avgRepairTime stats in
  let failures :=
    if truthy (get wo "failure") then tally (failures stats) (get wo "failure")
    else failures stats in
  {| totalWOs := totalWOs; completedWOs := completedWOs; avgRepairTime := avgRepairTime;
     failures := failures; type := type stats |}.

(** The callback of [data.forEach].  Under an inherited name no entry is
    made (the inherited member is truthy); its counters are then written
    on that member, outside the table, and reading its [failures] throws
    when the order has a failure. *)
Definition equipmentStep (equipmentStats : gmap string EquipmentStats) (wo : Obj)
  : Result (gmap string EquipmentStats) :=
  if truthy (get wo "EQ_name") then
    let name := toStr (get wo "EQ_name") in
    match equipmentStats !! name with
    | Some stats => Ok (<[name := recordOrder stats wo]> equipmentStats)
    | None =>
        if inherited name then
          if truthy (get wo "failure") then Throw noFailures else Ok equipmentStats
        else
          let fresh := {| totalWOs := 0; completedWOs := 0; avgRepairTime := 0;
                          failures := ∅;
                          type := orElse (get wo "EQ_type") (PStr "Unknown") |} in
          Ok (<[name := recordOrder fresh wo]> equipmentStats)
    end
  else Ok equipmentStats.

Fixpoint forEachOrder (data : list Obj) (equipmentStats : gmap string EquipmentStats)
  : Result (gmap string EquipmentStats) :=
  match data with
  | [] => Ok equipmentStats
  | wo :: rest => stats ← equipmentStep equipmentStats wo; forEachOrder rest stats
  end.

Definition getEquipmentDetails (data : list Obj) : Result (gmap string EquipmentStats) :=
  forEachOrder data ∅.

End Equipment.

(** ** The equipment selector *)

(** The callback of the filter in the [change] handler of
    [equipmentSelect]; its result is used as a boolean. *)
Definition equipmentChoice (selectedEquipment : string) (item : Obj) : Result bool :=
  if String.eqb selectedEquipment "STS" then
    if truthy (get item "MO_key") then
      moKey ← upperOf (get item "MO_key");
      Ok (includes moKey "STS")
    else Ok false
  else if String.eqb selectedEquipment "SPR" then
    if truthy (get item "MO_key") then
      moKey ← upperOf (get item "MO_key");
      Ok (negb (String.eqb moKey "") && includes moKey "SPR" && isValidSpreaderNumber moKey)
    else Ok false
  else Ok true.

(** [items.filter(callback)] for a callback that may throw. *)
Fixpoint filterResult (callback : Obj -> Result bool) (items : list Obj) : Result (list Obj) :=
  match items with
  | [] => Ok []
  | item :: rest =>
      keep ← callback item;
      kept ← filterResult callback rest;
      Ok (if (keep : bool) then item :: kept else kept)
  end.

(** The items the handler hands to the charts; [None] when no data is
    loaded (the handler alerts and returns). *)
Definition equipmentSelection (currentData : option ProcessResult) (selectedEquipment : string)
  : option (Result (list Obj)) :=
  match currentData with
  | None => None
  | Some current =>
      Some (if String.eqb selectedEquipment "all" then Ok (data current)
            else filterResult (equipmentChoice selectedEquipment) (data current))
  end.

(** ** Job types *)

(** A value read from a table: a primitive, or a member every object
    inherits. *)
Inductive Value : Type :=
  | Primitive (v : Prim)
  | Builtin (name : string).

(** [jobTypeMap] of the declaration of [getJobTypeFullName] in force (a
    function declared twice in one scope is the later one). *)
Definition jobTypeMap : list (string * string) :=
  [ ("C", "Corrective");
    ("P", "Planning");
    ("CM", "Corrective Maintenance");
    ("PM", "Preventive Maintenance");
    ("OPS", "Operation");
    ("INSP", "Inspection");
    ("BDN", "Breakdown");
    ("SOP", "Standard Operating Procedure");
    ("KPI", "Key Performance Indicator");
    ("Eng", "Engineer");
    ("Sup", "Supervisor");
    ("Tech", "Technician");
    ("S", "Safety");
    ("I", "Inspection");
    ("O", "Accedint");
    ("U", "Unplanned") ].

(** [jobTypeMap[acronym] || acronym]. *)
Definition getJobTypeFullName (acronym : Prim) : Value :=
  match List.find (fun e => String.eqb (fst e) (toStr acronym)) jobTypeMap with
  | Some (_, fullName) => Primitive (PStr fullName)
  | None =>
      if inherited (toStr acronym) then Builtin (toStr acronym) else Primitive acronym
  end.

(** * Vocabulary of the further statements *)

(** The Monday of the week (Monday to Sunday) of a day. *)
Definition mondayOf (k : Z) : Z := thursdayOf k - 3.

(** The first of January of a year. *)
Abbreviation januaryFirst y := (daysFromCivil y 1 1).

(** The value of a week input: YYYY-Www. *)
Definition weekString (y w : Z) : string := fourDigits y ++ "-W" ++ twoDigits w.

(** The day [w - 1] weeks after the first of January. *)
Definition weekAnchor (y w : Z) : Z := januaryFirst y + 7 * (w - 1).

(** The days from 3 January 1900 to 28 December 9999, as day numbers. *)
Definition chartDay (k : Z) : Prop := -25565 <= k <= 2932893.

(** The day of the week of a day number, as [getDay] counts: 0 is
    Sunday, 1 Monday, 4 Thursday. *)
Definition weekdayOf (k : Z) : Z := (k + 4) mod 7.

(** Strings of decimal digits. *)
Fixpoint digitsOnly (s : string) : bool :=
  match s with
  | EmptyString => true
  | String c r => isDigit c && digitsOnly r
  end.

(** The filter form with the two week inputs of the order date filled in
    and nothing else. *)
Definition orderWeeks (first last : string) : Criteria :=
  {| orderStartDate := first; orderEndDate := last; execStartDate := ""; execEndDate := "";
     selectedJobTypes := []; selectedStatuses := []; selectedLocations := [];
     selectedEquipment := []; selectedPurposes := []; selectedFailures := [] |}.

(** The two sheet tags. *)
Definition sheetTag (tag : string) : Prop := tag = "active" \/ tag = "history".

(** A value that is truthy and not a string: a number other than 0, or
    [true]. *)
Definition truthyNonString (v : Prim) : bool :=
  match v with
  | PNum n => negb (n =? 0)
  | PBool b => b
  | _ => false
  end.

(** The cylinders a text reports, among the four: those [n] for which it
    contains "FAULT #n". *)
Definition reportedCylinders (s : string) : list Z :=
  List.filter (fun n => includes s ("FAULT #" ++ Z_to_string n)) [1; 2; 3; 4].

(** "Cylinder " followed by the numbers of the cylinders. *)
Definition cylinderLabel (cylinders : list Z) : string :=
  "Cylinder " ++ String.concat "" (Z_to_string <$> cylinders).

(** The entry that stands for [n] occurrences: none for 0. *)
Definition countOf (n : nat) : option Cell :=
  match n with
  | O => None
  | S _ => Some (Count (Z.of_nat n))
  end.

(** The number of items whose key, as a property name, is [k]. *)
Definition occurrences (key : Obj -> Prim) (k : string) (data : list Obj) : nat :=
  length (List.filter (fun item => String.eqb (toStr (key item)) k) data).

(** The keys of the four distributions by field. *)
Definition typeKey (item : Obj) : Prim := orElse (get item "EQ_type") (PStr "Other").
Definition locationKey (item : Obj) : Prim := orElse (get item "faultlocation") (PStr "Other").
Definition causeKey (item : Obj) : Prim := orElse (get item "failure") (PStr "Unknown").
Definition statusKey (item : Obj) : Prim := orElse (get item "JobstatusObs") (PStr "Unknown").

(** The items that carry a value (truthy) in a date field. *)
Definition dated (field : string) (data : list Obj) : list Obj :=
  List.filter (fun item => truthy (get item field)) data.
(** The bucket of the date in a field of an item. *)
Definition bucketKey `{Host} (field : string) (item : Obj) : Prim :=
  PStr (formatDateForChart (get item field)).

(** An item whose date field holds a value that does not parse. *)
Definition unreadable `{Host} (field : string) (item : Obj) : bool :=
  truthy (get item field)
  && match parseFrenchDate (get item field) with
     | None => true
     | Some _ => false
     end.

(** An order whose processing time, where it has one, is positive. *)
Definition positiveOrUndated `{Host} (item : Obj) : Prop :=
  match elapsedDays item with
  | Some q => (0 < q)%Q
  | None => True
  end.

(** The orders of one equipment: those whose name, as a property name,
    is [name]. *)
Definition ordersOf (name : string) (data : list Obj) : list Obj :=
  List.filter (fun wo => truthy (get wo "EQ_name") && String.eqb (toStr (get wo "EQ_name")) name)
    data.

(** An order whose equipment name is a name of the table's own. *)
Definition ownName (wo : Obj) : bool := negb (inherited (toStr (get wo "EQ_name"))).
(** What the table says of one equipment after the orders [seen]. *)
Definition countsOrders (stats : gmap string EquipmentStats) (name : string) (seen : list Obj)
  : Prop :=
  match stats !! name with
  | None => ordersOf name seen = []
  | Some s =>
      ordersOf name seen <> []
      /\ totalWOs s = Z.of_nat (length (ordersOf name seen))
      /\ completedWOs s = Z.of_nat (length (List.filter isClosed (ordersOf name seen)))
  end.

(** The local midnight of the local day of a time value. *)
Definition startOfDay `{Host} (t : Z) : Z := Day (LocalTime t) * msPerDay - tzOffset.

(** * Properties *)

(** ** The failure-cause rules *)

Section FirstMatch.
Variable d : string.



(** Conversely, a returned label names a rule of the table that matches,
    every rule before it failing. *)
Lemma firstMatch_some_inv (rules : list (list string * string)) (label : string) :
  firstMatch d rules = Some label ->
  exists pre rule post,
    rules = (pre ++ rule :: post)%list /\ snd rule = label /\
    ruleMatches d rule = true /\
    forallb (fun r => negb (ruleMatches d r)) pre = true.
Proof.
  induction rules as [|r rules IH]; simpl; [discriminate|].
  destruct (ruleMatches d r) eqn:Hr.
  - intros [= <-]. now exists [], r, rules.
  - intros Hsome. destruct (IH Hsome) as (pre & rule & post & -> & Hl & Hm & Hpre).
    exists (r :: pre), rule, post. simpl. rewrite Hr. auto.
Qed.
End FirstMatch.


Lemma includes_nil_l (pat : string) : pat <> "" -> includes "" pat = false.
Proof. destruct pat; [congruence | reflexivity]. Qed.



(** The generic hoist rules and the "STUCK" rule do match the text of the
    witness: the label is decided by order alone. *)
Example later_rules_match_too :
  let d := toUpperCase (trim "Hoist emergency brake stuck, hoist motor hot") in
  includes d "HOIST MOTOR" = true /\ includes d "STUCK" = true.
Proof. split; reflexivity. Qed.

Lemma shadowedLabel_sound (d label : string) (rules : list (list string * string)) :
  forall seen : list string,
    shadowedLabel label seen rules = true ->
    (forall p, In p seen -> includes d p = false) ->
    firstMatch d rules <> Some label.
Proof.
  induction rules as [|[pats l] rules IH]; intros seen Hsh Hseen; simpl in *.
  - discriminate.
  - apply andb_prop in Hsh as [Hhere Hrest].
    destruct (ruleMatches d (pats, l)) eqn:Hm.
    + intros [= ->]. rewrite String.eqb_refl in Hhere.
      unfold ruleMatches in Hm. simpl in Hm.
      apply existsb_exists in Hm as (p & Hp & Hinc).
      rewrite forallb_forall in Hhere. specialize (Hhere p Hp).
      apply existsb_exists in Hhere as (q & Hq & Hpq).
      apply String.eqb_eq in Hpq. subst q.
      rewrite (Hseen p Hq) in Hinc. discriminate.
    + apply (IH (seen ++ pats)%list Hrest).
      intros p Hp. apply in_app_or in Hp as [Hp | Hp]; [now apply Hseen|].
      unfold ruleMatches in Hm. simpl in Hm.
      destruct (includes d p) eqn:Hinc; [|reflexivity].
      assert (existsb (includes d) pats = true) as Hex
        by (apply existsb_exists; now exists p).
      rewrite Hex in Hm. discriminate.
Qed.

(** C4. The second "HOIST BRAKE" rule is unreachable: no input makes
    [determineFailure] return its label "Hoist brake", the same test
    ("HOIST BRAKE") being made by an earlier rule. *)
Theorem determineFailure_never_hoist_brake (cause : string) :
  determineFailure cause <> Some "Hoist brake".
Proof.
  unfold determineFailure.
  destruct (String.eqb cause ""); [discriminate|].
  apply (shadowedLabel_sound _ _ _ []); [reflexivity|].
  intros p [].
Qed.

(** The reason, stated on the table: whenever the later rule would match,
    the earlier one matches as well. *)
Lemma hoist_brake_shadowed (d : string) :
  ruleMatches d (["HOIST BRAKE"], "Hoist brake") = true ->
  ruleMatches d (["HOIST BRAKE"; "HOIST SERVICE BRAKE"], "Hoist service brake") = true.
Proof. unfold ruleMatches. simpl. intros Hm. now destruct (includes d "HOIST BRAKE"). Qed.

(** ** Strings: the facts the pipeline needs *)

Lemma toUpperCase_nonempty (s : string) : s <> "" -> toUpperCase s <> "".
Proof. destruct s; [congruence | discriminate]. Qed.


Lemma includes_nonempty (s pat : string) : pat <> "" -> includes s pat = true -> s <> "".
Proof. intros Hpat Hinc ->. rewrite includes_nil_l in Hinc; [discriminate | exact Hpat]. Qed.

Lemma length_slice0 (n : nat) (s : string) :
  String.length (slice0 n s) = Nat.min n (String.length s).
Proof.
  unfold slice0. revert s. induction n as [|n IH]; intros [|c s]; simpl; try reflexivity.
  now rewrite IH.
Qed.

Lemma slice0_nonempty (n : nat) (s : string) : s <> "" -> slice0 (S n) s <> "".
Proof. destruct s; [congruence | discriminate]. Qed.

Lemma upperChar_idem (c : ascii) : upperChar (upperChar c) = upperChar c.
Proof. destruct c as [[] [] [] [] [] [] [] []]; reflexivity. Qed.

(** On an upper-cased string, a match of the case-insensitive expression
    starts with the very characters "SPR". *)
Lemma sprDigitsHere_upper_prefix (s : string) (ds : string) :
  sprDigitsHere (toUpperCase s) = Some ds -> String.prefix "SPR" (toUpperCase s) = true.
Proof.
  destruct s as [|c1 [|c2 [|c3 r]]]; simpl; try discriminate.
  rewrite !upperChar_idem.
  destruct (Ascii.eqb_spec (upperChar c1) "S") as [-> |]; simpl; [|discriminate].
  destruct (Ascii.eqb_spec (upperChar c2) "P") as [-> |]; simpl; [|discriminate].
  destruct (Ascii.eqb_spec (upperChar c3) "R") as [-> |]; simpl; [|discriminate].
  intros _. now destruct (toUpperCase r).
Qed.

Lemma sprMatch_upper_includes (s : string) (ds : string) :
  sprMatch (toUpperCase s) = Some ds -> includes (toUpperCase s) "SPR" = true.
Proof.
  induction s as [|c s IH].
  - discriminate.
  - change (toUpperCase (String c s)) with (String (upperChar c) (toUpperCase s)).
    intros Hm. cbn [sprMatch] in Hm. cbn [includes].
    destruct (sprDigitsHere (String (upperChar c) (toUpperCase s))) as [ds'|] eqn:Hhere.
    + change (String (upperChar c) (toUpperCase s)) with (toUpperCase (String c s)) in Hhere.
      apply sprDigitsHere_upper_prefix in Hhere.
      change (toUpperCase (String c s)) with (String (upperChar c) (toUpperCase s)) in Hhere.
      now rewrite Hhere.
    + rewrite (IH Hm). now destruct (String.prefix "SPR" (String (upperChar c) (toUpperCase s))).
Qed.

Lemma isValidSpreaderNumber_spec (moKey : string) :
  isValidSpreaderNumber moKey
  = match spreaderNumber moKey with
    | Some n => (n <? 100) || (200 <? n)
    | None => false
    end.
Proof.
  unfold isValidSpreaderNumber, spreaderNumber.
  destruct (sprMatch moKey) as [ds|]; simpl; [|reflexivity].
  now destruct (parseInt ds).
Qed.

(** ** Row normalisation *)

Ltac lookup_inserts :=
  repeat first [ rewrite lookup_insert_eq | rewrite lookup_insert_ne by done ].

(** A row without a key is skipped. *)
Lemma normalizeRow_no_key `{Host} (row : Obj) (index : nat) :
  truthy (get row "MO_key") = false -> normalizeRow row index = Ok None.
Proof. intros Hk. unfold normalizeRow, equipmentName. now rewrite Hk. Qed.

Lemma get_singleton (k : string) (v : Prim) : get {[ k := v ]} k = v.
Proof. unfold get. now rewrite lookup_singleton_eq. Qed.

Section RowFacts.
Context `{Host}.
Variables (row : Obj) (index : nat) (key : string).
Hypothesis Hkey : get row "MO_key" = PStr key.

Lemma workOrder_EQ_type (name type loc : string) (od ed : option JsDate) :
  workOrder row index name type loc od ed !! "EQ_type" = Some (PStr type).
Proof. unfold workOrder. now lookup_inserts. Qed.

Lemma workOrder_EQ_name (name type loc : string) (od ed : option JsDate) :
  workOrder row index name type loc od ed !! "EQ_name" = Some (PStr name).
Proof. unfold workOrder. now lookup_inserts. Qed.

Lemma workOrder_faultlocation (name type loc : string) (od ed : option JsDate) :
  workOrder row index name type loc od ed !! "faultlocation" = Some (PStr loc).
Proof. unfold workOrder. now lookup_inserts. Qed.

(** The key of a retained row is its own: the placeholder is not used. *)
Lemma workOrder_MO_key (name type loc : string) (od ed : option JsDate) :
  key <> "" ->
  workOrder row index name type loc od ed !! "MO_key" = Some (PStr key).
Proof.
  intros Hne. unfold workOrder. lookup_inserts. rewrite Hkey. unfold orElse. simpl.
  destruct (String.eqb_spec key ""); [contradiction | reflexivity].
Qed.

Lemma truthy_key : key <> "" -> truthy (get row "MO_key") = true.
Proof.
  intros Hne. rewrite Hkey. simpl. now destruct (String.eqb_spec key "").
Qed.

(** A key with "STS": the row is kept, named by the first five characters. *)
Lemma normalizeRow_sts :
  includes (toUpperCase key) "STS" = true ->
  normalizeRow row index
  = Ok (Some (workOrder row index (slice0 5 (toUpperCase key)) "STS Crane"
                (locationOf (toUpperCase key))
                (parseCell (get row "Order_date")) (parseCell (get row "Jobexec_dt")))).
Proof.
  intros Hsts.
  assert (Hup : toUpperCase key <> "") by (eapply includes_nonempty; [|exact Hsts]; discriminate).
  assert (Hne : key <> "") by (intros ->; now apply Hup).
  unfold normalizeRow, equipmentName, getEquipmentType, getFaultLocation.
  rewrite (truthy_key Hne), Hkey. simpl. rewrite Hsts. simpl.
  destruct (String.eqb_spec (slice0 5 (toUpperCase key)) "") as [He|_]; [|reflexivity].
  now apply slice0_nonempty in He.
Qed.

(** A key without "STS" whose spreader number lies in the reserved band:
    the row is skipped. *)
Lemma normalizeRow_reserved (n : Z) :
  includes (toUpperCase key) "STS" = false ->
  spreaderNumber (toUpperCase key) = Some n -> 100 <= n <= 200 ->
  normalizeRow row index = Ok None.
Proof.
  intros Hsts Hnum Hband.
  assert (Hspr : includes (toUpperCase key) "SPR" = true).
  { unfold spreaderNumber in Hnum. destruct (sprMatch (toUpperCase key)) as [ds|] eqn:Hm;
      [|discriminate]. now apply sprMatch_upper_includes in Hm. }
  assert (Hup : toUpperCase key <> "") by (eapply includes_nonempty; [|exact Hspr]; discriminate).
  assert (Hne : key <> "") by (intros ->; now apply Hup).
  unfold normalizeRow, equipmentName.
  rewrite (truthy_key Hne), Hkey. simpl. rewrite Hsts, Hspr. simpl.
  rewrite isValidSpreaderNumber_spec, Hnum.
  replace (n <? 100) with false by (symmetry; apply Z.ltb_ge; lia).
  replace (200 <? n) with false by (symmetry; apply Z.ltb_ge; lia).
  reflexivity.
Qed.

(** A key without "STS" whose spreader number lies outside the band: the
    row is kept, named by the first six characters. *)
Lemma normalizeRow_spreader (n : Z) :
  includes (toUpperCase key) "STS" = false ->
  spreaderNumber (toUpperCase key) = Some n -> n < 100 \/ 200 < n ->
  normalizeRow row index
  = Ok (Some (workOrder row index (slice0 6 (toUpperCase key)) "Spreader"
                (locationOf (toUpperCase key))
                (parseCell (get row "Order_date")) (parseCell (get row "Jobexec_dt")))).
Proof.
  intros Hsts Hnum Hout.
  assert (Hspr : includes (toUpperCase key) "SPR" = true).
  { unfold spreaderNumber in Hnum. destruct (sprMatch (toUpperCase key)) as [ds|] eqn:Hm;
      [|discriminate]. now apply sprMatch_upper_includes in Hm. }
  assert (Hup : toUpperCase key <> "") by (eapply includes_nonempty; [|exact Hspr]; discriminate).
  assert (Hne : key <> "") by (intros ->; now apply Hup).
  unfold normalizeRow, equipmentName, getEquipmentType, getFaultLocation.
  rewrite (truthy_key Hne), Hkey. simpl. rewrite Hsts, Hspr. simpl.
  rewrite isValidSpreaderNumber_spec, Hnum.
  replace ((n <? 100) || (200 <? n)) with true
    by (symmetry; apply orb_true_iff; destruct Hout; [left; apply Z.ltb_lt | right; apply Z.ltb_lt]; lia).
  simpl.
  destruct (String.eqb_spec (slice0 6 (toUpperCase key)) "") as [He|_].
  - now apply slice0_nonempty in He.
  - rewrite orb_true_r. reflexivity.
Qed.

(** A key that names neither a crane nor a spreader: the row is skipped. *)
Lemma normalizeRow_out_of_scope :
  includes (toUpperCase key) "STS" = false ->
  includes (toUpperCase key) "SPR" = false ->
  includes (toUpperCase key) "SPS" = false ->
  normalizeRow row index = Ok None.
Proof.
  intros Hsts Hspr Hsps. unfold normalizeRow, equipmentName. rewrite Hkey.
  destruct (truthy (PStr key)); [|reflexivity].
  simpl. now rewrite Hsts, Hspr, Hsps.
Qed.

End RowFacts.

(** C5 (amended). For a row whose equipment key is a string: if the
    upper-cased key contains "STS" the row is retained with equipment type
    "STS Crane" (and the key "STSG0001MNH002" also gets fault location
    HOIST); if it does not contain "STS" and the digits following "SPR" form
    a number in 100..200 the row is dropped; if it does not contain "STS"
    and that number is below 100 or above 200 the row is retained with
    equipment type "Spreader". *)
Theorem normalizeRow_classifies `{Host} (row : Obj) (index : nat) (key : string) :
  get row "MO_key" = PStr key ->
  (includes (toUpperCase key) "STS" = true ->
   retainedAs (normalizeRow row index) "STS Crane")
  /\ (includes (toUpperCase key) "STS" = false ->
      forall n, spreaderNumber (toUpperCase key) = Some n -> 100 <= n <= 200 ->
      normalizeRow row index = Ok None)
  /\ (includes (toUpperCase key) "STS" = false ->
      forall n, spreaderNumber (toUpperCase key) = Some n -> n < 100 \/ 200 < n ->
      retainedAs (normalizeRow row index) "Spreader")
  /\ (key = "STSG0001MNH002" ->
      exists item : Obj,
        normalizeRow row index = Ok (Some item)
        /\ item !! "EQ_type" = Some (PStr "STS Crane")
        /\ item !! "faultlocation" = Some (PStr "HOIST")).
Proof.
  intros Hkey. repeat split.
  - intros Hsts. eexists. split; [now apply (normalizeRow_sts row index key)|].
    apply workOrder_EQ_type.
  - intros Hsts n Hnum Hband. now apply (normalizeRow_reserved row index key Hkey n).
  - intros Hsts n Hnum Hout. eexists.
    split; [now apply (normalizeRow_spreader row index key Hkey n)|].
    apply workOrder_EQ_type.
  - intros ->. eexists.
    split; [now apply (normalizeRow_sts row index "STSG0001MNH002")|].
    split; [apply workOrder_EQ_type | apply workOrder_faultlocation].
Qed.

Lemma normalizeRow_classifies_witness :
  retainedAs (normalizeRow (H := utcHost) {[ "MO_key" := PStr "stsg0001mnh002" ]} 0) "STS Crane"
  /\ normalizeRow (H := utcHost) {[ "MO_key" := PStr "SPR150ABC" ]} 1 = Ok None
  /\ retainedAs (normalizeRow (H := utcHost) {[ "MO_key" := PStr "SPR050ABC" ]} 2) "Spreader".
Proof.
  split; [|split].
  - destruct (normalizeRow_classifies (H := utcHost) {[ "MO_key" := PStr "stsg0001mnh002" ]} 0
                "stsg0001mnh002") as (Hsts & _); [apply get_singleton|].
    apply Hsts. reflexivity.
  - destruct (normalizeRow_classifies (H := utcHost) {[ "MO_key" := PStr "SPR150ABC" ]} 1
                "SPR150ABC") as (_ & Hband & _); [apply get_singleton|].
    apply (Hband eq_refl 150); [reflexivity | lia].
  - destruct (normalizeRow_classifies (H := utcHost) {[ "MO_key" := PStr "SPR050ABC" ]} 2
                "SPR050ABC") as (_ & _ & Hout & _); [apply get_singleton|].
    apply (Hout eq_refl 50); [reflexivity | lia].
Defined.

(** The claim without the proviso on "STS" fails: a key that contains both
    "STS" and a spreader number of the reserved band is retained, as an STS
    crane. *)
Lemma normalizeRow_sts_precedes_spreader :
  includes (toUpperCase "STS1SPR150") "SPR" = true
  /\ spreaderNumber (toUpperCase "STS1SPR150") = Some 150
  /\ normalizeRow (H := utcHost) {[ "MO_key" := PStr "STS1SPR150" ]} 0 <> Ok None
  /\ retainedAs (normalizeRow (H := utcHost) {[ "MO_key" := PStr "STS1SPR150" ]} 0) "STS Crane".
Proof.
  split; [reflexivity|]. split; [reflexivity|].
  assert (Hn := normalizeRow_sts (H := utcHost) {[ "MO_key" := PStr "STS1SPR150" ]} 0
                  "STS1SPR150" (get_singleton _ _) eq_refl).
  split.
  - rewrite Hn. discriminate.
  - eexists. split; [exact Hn | apply workOrder_EQ_type].
Qed.

(** ** Enrichment in [processData] *)

Lemma attachStatus_lookup (item : Obj) (k : string) :
  k <> "JobstatusCode" -> k <> "JobstatusObs" -> k <> "JobstatusDescription" ->
  attachStatus item !! k = item !! k.
Proof.
  intros H1 H2 H3. unfold attachStatus.
  destruct (truthy (get item "Jobstatus")); [|reflexivity].
  cbv zeta. now rewrite !lookup_insert_ne by congruence.
Qed.

(** [processData] leaves every field it does not write as it found it. *)
Lemma processItem_lookup (item : Obj) (k : string) :
  ~ In k enrichedFields -> processItem item !! k = item !! k.
Proof.
  intros Hk. unfold enrichedFields in Hk. simpl in Hk.
  assert (k <> "JobstatusCode" /\ k <> "JobstatusObs" /\ k <> "JobstatusDescription"
          /\ k <> "EQ_name" /\ k <> "failure") as (H1 & H2 & H3 & H4 & H5)
    by (repeat split; intros ->; tauto).
  unfold processItem, enrichItem, enrichFallback. cbv zeta.
  destruct (equipmentNameAgain (attachStatus item)) as [name|e]; simpl.
  - rewrite !lookup_insert_ne by congruence. now apply attachStatus_lookup.
  - rewrite !lookup_insert_ne by congruence. now apply attachStatus_lookup.
Qed.

Lemma get_processItem (item : Obj) (k : string) :
  ~ In k enrichedFields -> get (processItem item) k = get item k.
Proof. intros Hk. unfold get. now rewrite processItem_lookup. Qed.


(** ** What [processExcelWorkbook] returns *)

Section WorkbookFacts.
Context `{Host}.

Lemma isValidSpreaderNumber_number (moKey : string) :
  isValidSpreaderNumber moKey = true ->
  exists n, spreaderNumber moKey = Some n /\ (n < 100 \/ 200 < n).
Proof.
  rewrite isValidSpreaderNumber_spec.
  destruct (spreaderNumber moKey) as [n|]; [|discriminate].
  intros Hv. exists n. split; [reflexivity|].
  apply orb_true_iff in Hv as [Hv | Hv]; apply Z.ltb_lt in Hv; lia.
Qed.

(** A retained row has a string key that names an STS crane or a spreader
    outside the reserved band, and the work order is built from it. *)
Lemma normalizeRow_retained (row : Obj) (index : nat) (item : Obj) :
  normalizeRow row index = Ok (Some item) ->
  exists key : string,
    get row "MO_key" = PStr key /\ key <> "" /\
    let K := toUpperCase key in
    let od := parseCell (get row "Order_date") in
    let ed := parseCell (get row "Jobexec_dt") in
    (includes K "STS" = true
     /\ item = workOrder row index (slice0 5 K) "STS Crane" (locationOf K) od ed)
    \/ (includes K "STS" = false /\ includes K "SPR" = true
        /\ isValidSpreaderNumber K = true
        /\ item = workOrder row index (slice0 6 K) "Spreader" (locationOf K) od ed).
Proof.
  unfold normalizeRow, equipmentName, getEquipmentType, getFaultLocation.
  destruct (truthy (get row "MO_key")) eqn:Ht; simpl; [|discriminate].
  destruct (get row "MO_key") as [| |b|n|key] eqn:Hkey; simpl; try discriminate.
  assert (Hne : key <> "") by (intros ->; discriminate Ht).
  intros Hn. exists key. split; [reflexivity|]. split; [exact Hne|]. cbv zeta.
  destruct (includes (toUpperCase key) "STS") eqn:Hsts; simpl in Hn.
  - left. split; [reflexivity|].
    destruct (String.eqb (slice0 5 (toUpperCase key)) ""); [discriminate|].
    now injection Hn as <-.
  - right.
    destruct (includes (toUpperCase key) "SPR" || includes (toUpperCase key) "SPS") eqn:Hor;
      [|discriminate Hn].
    destruct (isValidSpreaderNumber (toUpperCase key)) eqn:Hv; [|discriminate Hn].
    assert (Hspr : includes (toUpperCase key) "SPR" = true).
    { destruct (isValidSpreaderNumber_number _ Hv) as (n & Hnum & _).
      unfold spreaderNumber in Hnum.
      destruct (sprMatch (toUpperCase key)) as [ds|] eqn:Hm; [|discriminate].
      now apply sprMatch_upper_includes in Hm. }
    simpl in Hn. destruct (String.eqb (slice0 6 (toUpperCase key)) ""); [discriminate|].
    rewrite Hspr, orb_true_r in Hn. simpl in Hn.
    injection Hn as <-. now repeat split.
Qed.

Lemma mapRows_elem (rows : list Obj) :
  forall (index : nat) (rs : list (option Obj)) (item : Obj),
    mapRows rows index = Ok rs -> Some item ∈ rs ->
    exists (row : Obj) (j : nat), row ∈ rows /\ normalizeRow row j = Ok (Some item).
Proof.
  induction rows as [|row rows IH]; intros index rs item Hmap Hin; simpl in Hmap.
  - injection Hmap as <-. inversion Hin.
  - destruct (normalizeRow row index) as [r|e] eqn:Hr; simpl in Hmap; [|discriminate].
    destruct (mapRows rows (S index)) as [rs'|e] eqn:Hrs; simpl in Hmap; [|discriminate].
    injection Hmap as <-. apply elem_of_cons in Hin as [<- | Hin].
    + exists row, index. split; [left | exact Hr].
    + destruct (IH _ _ _ Hrs Hin) as (row' & j & Hrow & Hn).
      exists row', j. split; [now right | exact Hn].
Qed.

Lemma objectsOf_objects (objs : list Obj) : objectsOf (EObj <$> objs) = objs.
Proof.
  induction objs as [|o objs IH]; [reflexivity|].
  simpl. f_equal. exact IH.
Qed.

(** [processData] on a non-empty array of objects: the items are the
    enriched objects, in order. *)
Lemma processData_objects (objs : list Obj) (r : ProcessResult) :
  processData (ArgArray (EObj <$> objs)) = Ok r ->
  objs <> [] /\ data r = processItem <$> objs
  /\ avg_processing_time (kpis r) = averageProcessingTime (processItem <$> objs).
Proof.
  destruct objs as [|o objs]; [discriminate|].
  change (EObj <$> o :: objs) with (EObj o :: (EObj <$> objs)).
  unfold processData.
  change (objectsOf (EObj o :: (EObj <$> objs))) with (o :: objectsOf (EObj <$> objs)).
  rewrite objectsOf_objects. simpl. intros [= <-]. simpl.
  split; [discriminate | split; reflexivity].
Qed.

Lemma processExcelWorkbook_ok (wb : Workbook) (r : ProcessResult) :
  processExcelWorkbook (Some wb) = Ok r ->
  exists rs : list (option Obj),
    mapRows (combineSheets wb) 0 = Ok rs /\ omap id rs <> []
    /\ data r = processItem <$> omap id rs.
Proof.
  unfold processExcelWorkbook.
  destruct (combineSheets wb) as [|row rows] eqn:Hc; [discriminate|].
  destruct (mapRows (row :: rows) 0) as [rs|e] eqn:Hmap; cbn [mbind Result_bind rethrow];
    [|discriminate].
  destruct (omap id rs) as [|o objs] eqn:Ho; [discriminate|].
  destruct (processData (ArgArray (EObj <$> o :: objs))) as [r'|e] eqn:Hp;
    cbn [rethrow]; [|discriminate].
  intros [= <-]. apply processData_objects in Hp as (_ & Hd & _).
  exists rs. rewrite Ho. now repeat split.
Qed.

End WorkbookFacts.

(** The key of a one-field row of a sheet, read after tagging. *)
Lemma get_tagged (tag : string) (v : Prim) :
  get (<["Jobstatus" := PStr tag]> ({[ "MO_key" := v ]} : Obj)) "MO_key" = v.
Proof.
  unfold get. rewrite lookup_insert_ne by discriminate.
  now rewrite lookup_singleton_eq.
Qed.

(** A workbook whose sheets yield a single row that is retained. *)
Lemma processExcelWorkbook_single `{Host} (wb : Workbook) (row item0 : Obj) :
  combineSheets wb = [row] -> normalizeRow row 0 = Ok (Some item0) ->
  exists r : ProcessResult,
    processExcelWorkbook (Some wb) = Ok r /\ data r = [processItem item0].
Proof.
  intros Hc Hn. unfold processExcelWorkbook. rewrite Hc. simpl. rewrite Hn. simpl.
  eexists. split; reflexivity.
Qed.




(** ** Empty and invalid input *)

Section EmptyInput.
Context `{Host}.

Lemma mapRows_all_skipped (rows : list Obj) :
  (forall row index, row ∈ rows -> normalizeRow row index = Ok None) ->
  forall index, exists rs, mapRows rows index = Ok rs /\ omap id rs = [].
Proof.
  induction rows as [|row rows IH]; intros Hall index; simpl.
  - now exists [].
  - rewrite (Hall row index) by left. simpl.
    destruct (IH (fun r i Hr => Hall r i (list_elem_of_further _ _ _ Hr)) (S index))
      as (rs & -> & Hrs).
    simpl. exists (None :: rs). split; [reflexivity | exact Hrs].
Qed.

Lemma processData_nonempty (arg : JsArg) (r : ProcessResult) :
  processData arg = Ok r -> data r <> [].
Proof.
  destruct arg as [v | o | items]; simpl.
  - destruct (truthy v); discriminate.
  - discriminate.
  - destruct items as [|e items]; [discriminate|].
    destruct (objectsOf (e :: items)) as [|o objs]; [discriminate|].
    simpl. intros [= <-]. discriminate.
Qed.

End EmptyInput.

(** C9. An empty or invalid input is an error, not an empty result:
    [processData] throws when its argument is missing (or otherwise falsy),
    when it is not an array, and when it is an empty array;
    [processExcelWorkbook] throws when the workbook has no data rows and
    when every row is skipped by the normalisation; and neither ever returns
    a result with an empty data collection. *)
Theorem empty_input_throws `{Host} :
  (forall v, truthy v = false ->
     processData (ArgPrim v) = Throw (Error "No data provided to process"))
  /\ (forall v, truthy v = true ->
       processData (ArgPrim v) = Throw (Error "Data must be an array"))
  /\ (forall o, processData (ArgObject o) = Throw (Error "Data must be an array"))
  /\ processData (ArgArray []) = Throw (Error "Data array is empty")
  /\ (forall wb, combineSheets wb = [] ->
       processExcelWorkbook (Some wb)
       = Throw (Error "Error processing Excel data: No data found in the Excel file"))
  /\ (forall wb, combineSheets wb <> [] ->
       (forall row index, row ∈ combineSheets wb -> normalizeRow row index = Ok None) ->
       processExcelWorkbook (Some wb)
       = Throw (Error "Error processing Excel data: No valid data rows found after processing"))
  /\ (forall arg r, processData arg = Ok r -> data r <> [])
  /\ (forall wb r, processExcelWorkbook wb = Ok r -> data r <> []).
Proof.
  repeat split.
  - intros v Hv. simpl. now rewrite Hv.
  - intros v Hv. simpl. now rewrite Hv.
  - intros wb Hc. unfold processExcelWorkbook. now rewrite Hc.
  - intros wb Hne Hall. unfold processExcelWorkbook.
    destruct (combineSheets wb) as [|row rows] eqn:Hc; [contradiction|].
    destruct (mapRows_all_skipped (row :: rows) Hall 0) as (rs & -> & Hrs).
    cbn [mbind Result_bind]. now rewrite Hrs.
  - intros arg r. apply processData_nonempty.
  - intros [wb|] r; [|discriminate]. intros Hr.
    destruct (processExcelWorkbook_ok wb r Hr) as (rs & _ & Hne & ->).
    destruct (omap id rs); [contradiction | discriminate].
Qed.

Lemma empty_input_throws_witness :
  processData (H := utcHost) (ArgPrim PUndefined) = Throw (Error "No data provided to process")
  /\ processData (H := utcHost) (ArgPrim (PStr "rows")) = Throw (Error "Data must be an array")
  /\ processExcelWorkbook (H := utcHost) (Some emptyWorkbook)
     = Throw (Error "Error processing Excel data: No data found in the Excel file")
  /\ processExcelWorkbook (H := utcHost) (Some outOfScopeWorkbook)
     = Throw (Error "Error processing Excel data: No valid data rows found after processing").
Proof.
  destruct (empty_input_throws (H := utcHost)) as (Hmiss & Hprim & _ & _ & Hnone & Hskip & _).
  split; [apply Hmiss; reflexivity|].
  split; [apply Hprim; reflexivity|].
  split; [apply Hnone; reflexivity|].
  assert (Hc : combineSheets outOfScopeWorkbook
               = [ <["Jobstatus" := PStr "active"]> {[ "MO_key" := PStr "SPR150ABC" ]};
                   <["Jobstatus" := PStr "active"]> {[ "MO_key" := PStr "RTG0042" ]};
                   <["Jobstatus" := PStr "active"]> {[ "WO_key" := PStr "WO1" ]} ])
    by reflexivity.
  apply Hskip; rewrite Hc; [discriminate|].
  intros row index Hrow.
  apply elem_of_cons in Hrow as [-> | Hrow].
  { apply (normalizeRow_reserved _ index "SPR150ABC"
             (get_tagged "active" (PStr "SPR150ABC")) 150);
      [reflexivity | reflexivity | lia]. }
  apply elem_of_cons in Hrow as [-> | Hrow].
  { apply (normalizeRow_out_of_scope _ index "RTG0042"
             (get_tagged "active" (PStr "RTG0042"))); reflexivity. }
  apply elem_of_cons in Hrow as [-> | Hrow]; [|inversion Hrow].
  apply normalizeRow_no_key. unfold get.
  rewrite lookup_insert_ne by discriminate. now rewrite lookup_singleton_ne by discriminate.
Defined.

(** ** Filtering *)

Lemma filter_all_true {A} (f : A -> bool) (l : list A) :
  (forall x, f x = true) -> List.filter f l = l.
Proof.
  intros Hf. induction l as [|x l IH]; simpl; [reflexivity|].
  now rewrite Hf, IH.
Qed.

Section FilterFacts.
Context `{Host}.

Lemma before_unparsed (bound d : option JsDate) : unparsed d = true -> before bound d = false.
Proof.
  destruct d as [[t|]|]; [discriminate| |]; intros _; destruct bound as [[b|]|]; reflexivity.
Qed.

Lemma after_unparsed (bound d : option JsDate) : unparsed d = true -> after bound d = false.
Proof.
  destruct d as [[t|]|]; [discriminate| |]; intros _; destruct bound as [[b|]|]; reflexivity.
Qed.

Lemma keeps_noCriteria (item : Obj) : keeps noCriteria item = true.
Proof. reflexivity. Qed.

End FilterFacts.

(** C6 (amended). In [applyFilters], a work order whose order
    (respectively execution) date failed to parse never satisfies a bound
    comparison, so no bound on that date field excludes it: it is kept or
    dropped exactly as if both bounds of that field were empty, whether or
    not one is active. *)
Theorem unparsed_date_ignores_bounds `{Host} (c : Criteria) (item : Obj) :
  (unparsed (parseFrenchDate (get item "Order_date")) = true ->
   keeps c item = keeps (clearOrderBounds c) item)
  /\ (unparsed (parseFrenchDate (get item "Jobexec_dt")) = true ->
      keeps c item = keeps (clearExecBounds c) item)
  /\ (forall d : option JsDate,
        before (boundOf "") d = false /\ after (boundOf "") d = false).
Proof.
  split; [|split]; [intros Hun; unfold keeps; cbv zeta ..|].
  - rewrite !(before_unparsed _ _ Hun), !(after_unparsed _ _ Hun). reflexivity.
  - rewrite !(before_unparsed _ _ Hun), !(after_unparsed _ _ Hun). reflexivity.
  - intros d. split; reflexivity.
Qed.

Lemma unparsed_date_ignores_bounds_witness :
  keeps (H := utcHost) fromWeek10 undatedOrder
  = keeps (H := utcHost) (clearOrderBounds fromWeek10) undatedOrder
  /\ keeps (H := utcHost) fromWeek10 undatedOrder
     = keeps (H := utcHost) (clearExecBounds fromWeek10) undatedOrder.
Proof.
  split.
  - apply (proj1 (unparsed_date_ignores_bounds (H := utcHost) fromWeek10 undatedOrder)).
    vm_compute. reflexivity.
  - apply (proj1 (proj2 (unparsed_date_ignores_bounds (H := utcHost) fromWeek10 undatedOrder))).
    vm_compute. reflexivity.
Defined.

(** The claim as stated fails: with a lower bound on the order date active,
    a work order whose order date did not parse is still in the result. *)
Lemma unparsed_order_date_kept :
  boundOf (H := utcHost) (orderStartDate fromWeek10) = Some (DateOf 1709510400000)
  /\ parseFrenchDate (H := utcHost) (get undatedOrder "Order_date") = None
  /\ applyFilters (H := utcHost) (Some undatedData) fromWeek10 = Some [undatedOrder].
Proof. repeat split; vm_compute; reflexivity. Qed.

(** C7. With every criterion inactive (the four week inputs empty, the six
    selections empty) [applyFilters] returns the loaded collection itself;
    an empty selection excludes no value of its field. *)
Theorem applyFilters_no_criteria `{Host} (current : ProcessResult) :
  applyFilters (Some current) noCriteria = Some (data current)
  /\ (forall v : Prim, excludedBy [] v = false).
Proof.
  split; [|reflexivity].
  unfold applyFilters. f_equal. apply filter_all_true. intros item. apply keeps_noCriteria.
Qed.

(** ** The average processing time *)

Section AverageFacts.
Context `{Host}.

Lemma isClosed_processItem (item : Obj) : isClosed (processItem item) = isClosed item.
Proof. unfold isClosed. rewrite get_processItem; [reflexivity | simpl; intuition discriminate]. Qed.

Lemma processingTime_processItem (item : Obj) :
  processingTime (processItem item) = processingTime item.
Proof.
  unfold processingTime.
  rewrite !get_processItem by (simpl; intuition discriminate). reflexivity.
Qed.

(** The enrichment of the items does not change the KPI. *)
Lemma averageProcessingTime_processItem (objs : list Obj) :
  averageProcessingTime (processItem <$> objs) = averageProcessingTime objs.
Proof.
  unfold averageProcessingTime.
  assert (Hf : List.filter isClosed (processItem <$> objs)
               = processItem <$> List.filter isClosed objs).
  { induction objs as [|o objs IH]; [reflexivity|].
    change (processItem <$> o :: objs) with (processItem o :: (processItem <$> objs)).
    cbn [List.filter]. rewrite isClosed_processItem, IH. now destruct (isClosed o). }
  rewrite Hf.
  assert (Ho : forall l : list Obj,
             omap processingTime (processItem <$> l) = omap processingTime l).
  { induction l as [|o l IH]; [reflexivity|].
    change (omap processingTime (processItem <$> o :: l))
      with (match processingTime (processItem o) with
            | Some q => q :: omap processingTime (processItem <$> l)
            | None => omap processingTime (processItem <$> l)
            end).
    rewrite IH, processingTime_processItem. reflexivity. }
  rewrite Ho. now destruct (List.filter isClosed objs).
Qed.

(** The callback of the script computes the elapsed days whenever both
    dates parsed, whatever their order. *)
Lemma processingTime_elapsedDays (item : Obj) : processingTime item = elapsedDays item.
Proof.
  unfold processingTime, elapsedDays, parsedTime.
  destruct (parseFrenchDate (get item "Jobexec_dt")) as [[te|]|];
    destruct (parseFrenchDate (get item "Order_date")) as [[to|]|]; reflexivity.
Qed.

(** What [processData] computes: the mean of the elapsed days over the
    closed orders whose two dates parsed, negative values included. *)
Lemma averageProcessingTime_mean (objs : list Obj) :
  averageProcessingTime objs = meanQ (omap elapsedDays (List.filter isClosed objs)).
Proof.
  unfold averageProcessingTime, meanQ.
  assert (Ho : forall l : list Obj, omap processingTime l = omap elapsedDays l).
  { induction l as [|o l IH]; [reflexivity|].
    change (omap processingTime (o :: l))
      with (match processingTime o with
            | Some q => q :: omap processingTime l
            | None => omap processingTime l
            end).
    rewrite IH, processingTime_elapsedDays. reflexivity. }
  rewrite Ho. now destruct (List.filter isClosed objs).
Qed.

Lemma processData_average (objs : list Obj) :
  objs <> [] ->
  exists r : ProcessResult,
    processData (ArgArray (EObj <$> objs)) = Ok r
    /\ avg_processing_time (kpis r) = meanQ (omap elapsedDays (List.filter isClosed objs)).
Proof.
  intros Hne. destruct (processData (ArgArray (EObj <$> objs))) as [r|e] eqn:Hp.
  - exists r. split; [reflexivity|].
    destruct (processData_objects objs r Hp) as (_ & _ & ->).
    now rewrite averageProcessingTime_processItem, averageProcessingTime_mean.
  - exfalso. destruct objs as [|o objs]; [contradiction|].
    unfold processData in Hp.
    change (EObj <$> o :: objs) with (EObj o :: (EObj <$> objs)) in Hp.
    change (objectsOf (EObj o :: (EObj <$> objs))) with (o :: objectsOf (EObj <$> objs)) in Hp.
    discriminate Hp.
Qed.

(** Where no closed order has a negative time, the KPI is the documented
    mean: the two differ on negative times only. *)
Lemma averageProcessingTime_documented (objs : list Obj) :
  (forall item, item ∈ List.filter isClosed objs -> nonNegativeDays item = elapsedDays item) ->
  averageProcessingTime objs = documentedAverage objs.
Proof.
  intros Hnn. rewrite averageProcessingTime_mean. unfold documentedAverage. f_equal.
  induction (List.filter isClosed objs) as [|o l IH]; [reflexivity|].
  change (omap elapsedDays (o :: l))
    with (match elapsedDays o with
          | Some q => q :: omap elapsedDays l
          | None => omap elapsedDays l
          end).
  change (omap nonNegativeDays (o :: l))
    with (match nonNegativeDays o with
          | Some q => q :: omap nonNegativeDays l
          | None => omap nonNegativeDays l
          end).
  rewrite (Hnn o) by left.
  rewrite IH by (intros item Hin; apply Hnn; now right). reflexivity.
Qed.

End AverageFacts.

(** ** Dates: local midnights *)

Section DateFacts.
Context `{Host}.
Hypothesis Htz : plausibleOffset.

Lemma TimeClip_midnight (k : Z) :
  representableDay k -> TimeClip (k * msPerDay - tzOffset) = DateOf (k * msPerDay - tzOffset).
Proof.
  unfold representableDay, plausibleOffset, TimeClip, msPerDay in *. intros Hk.
  destruct (Z.leb_spec (Z.abs (k * 86400000 - tzOffset)) 8640000000000000); [reflexivity | lia].
Qed.

Lemma newDateLocal_midnight (y m d : Z) :
  representableDay (MakeDay (fullYear y) m d) ->
  newDateLocal y m d = DateOf (MakeDay (fullYear y) m d * msPerDay - tzOffset).
Proof. intros Hk. unfold newDateLocal. now apply TimeClip_midnight. Qed.

Lemma Day_midnight (k : Z) : Day (LocalTime (k * msPerDay - tzOffset)) = k.
Proof.
  unfold Day, LocalTime, msPerDay.
  replace (k * 86400000 - tzOffset + tzOffset) with (k * 86400000) by lia.
  now apply Z.div_mul.
Qed.

(** A day-month-year string that is not ISO-prefixed parses to the local
    midnight of that day. *)
Lemma parseFrenchDate_french (s p0 p1 p2 : string) (rest : list string) (d m y : Z) :
  isoPrefix s = false ->
  splitOn isDateSep s = p0 :: p1 :: p2 :: rest ->
  parseInt p0 = Some d -> parseInt p1 = Some m -> parseInt p2 = Some y ->
  representableDay (MakeDay (fullYear y) (m - 1) d) ->
  parseFrenchDate (PStr s)
  = Some (DateOf (MakeDay (fullYear y) (m - 1) d * msPerDay - tzOffset)).
Proof.
  intros Hiso Hsplit H0 H1 H2 Hk.
  assert (Hs : s <> "") by (intros ->; discriminate Hsplit).
  unfold parseFrenchDate. simpl. destruct (String.eqb_spec s ""); [contradiction|]. simpl.
  rewrite Hiso. unfold frenchParts. rewrite Hsplit, H0, H1, H2.
  now rewrite (newDateLocal_midnight _ _ _ Hk).
Qed.

Lemma parsedTime_french (s p0 p1 p2 : string) (rest : list string) (d m y : Z) :
  isoPrefix s = false ->
  splitOn isDateSep s = p0 :: p1 :: p2 :: rest ->
  parseInt p0 = Some d -> parseInt p1 = Some m -> parseInt p2 = Some y ->
  representableDay (MakeDay (fullYear y) (m - 1) d) ->
  parsedTime (PStr s) = Some (MakeDay (fullYear y) (m - 1) d * msPerDay - tzOffset).
Proof.
  intros. unfold parsedTime. now erewrite parseFrenchDate_french by eassumption.
Qed.

End DateFacts.

(** Evaluates [parsedTime] on a literal day/month/year string. *)
Ltac french_time Htz :=
  erewrite (parsedTime_french Htz) by
    first [ reflexivity | unfold representableDay; vm_compute; discriminate ].

(** Replaces the day number of a literal date by its value. *)
Ltac eval_MakeDay :=
  repeat match goal with
         | |- context [MakeDay ?y ?m ?d] =>
             let v := eval vm_compute in (MakeDay y m d) in
             replace (MakeDay y m d) with v by (vm_compute; reflexivity)
         end.

(** Evaluates [elapsedDays] or [nonNegativeDays] on an object whose two
    date fields are literal day/month/year strings. *)
Ltac eval_days Htz exec order :=
  replace (get _ "Jobexec_dt") with (PStr exec) by reflexivity;
  replace (get _ "Order_date") with (PStr order) by reflexivity;
  french_time Htz; french_time Htz; cbn [mbind option_bind].

Section AverageExamples.
Context `{Host}.
Hypothesis Htz : plausibleOffset.

Lemma elapsedDays_lateOrder :
  elapsedDays lateOrder = Some (inject_Z (4 * msPerDay) / inject_Z msPerDay)%Q.
Proof.
  unfold elapsedDays. eval_days Htz "05/01/2024" "01/01/2024".
  do 3 f_equal. eval_MakeDay. lia.
Qed.

Lemma elapsedDays_backdatedOrder :
  elapsedDays backdatedOrder = Some (inject_Z (-2 * msPerDay) / inject_Z msPerDay)%Q.
Proof.
  unfold elapsedDays. eval_days Htz "01/01/2024" "03/01/2024".
  do 3 f_equal. eval_MakeDay. lia.
Qed.

Lemma nonNegativeDays_lateOrder :
  nonNegativeDays lateOrder = Some (inject_Z (4 * msPerDay) / inject_Z msPerDay)%Q.
Proof.
  unfold nonNegativeDays. eval_days Htz "05/01/2024" "01/01/2024". eval_MakeDay.
  destruct (Z.leb_spec (19723 * msPerDay - tzOffset) (19727 * msPerDay - tzOffset)) as [_|Hlt];
    [|unfold msPerDay in Hlt; lia].
  do 3 f_equal. lia.
Qed.

Lemma nonNegativeDays_backdatedOrder : nonNegativeDays backdatedOrder = None.
Proof.
  unfold nonNegativeDays. eval_days Htz "01/01/2024" "03/01/2024". eval_MakeDay.
  destruct (Z.leb_spec (19725 * msPerDay - tzOffset) (19723 * msPerDay - tzOffset)) as [Hle|_];
    [unfold msPerDay in Hle; lia | reflexivity].
Qed.

End AverageExamples.

Section DocumentExample.
Context `{Host}.
Hypothesis Htz : plausibleOffset.
Hypothesis Htbd : DateParse "tbd" = None.

Lemma parsedTime_tbd : parsedTime (PStr "tbd") = None.
Proof.
  unfold parsedTime, parseFrenchDate, fallbackDate, newDateOf.
  cbn [truthy negb String.eqb Ascii.eqb Bool.eqb isoPrefix toStr frenchParts].
  replace (frenchParts "tbd") with (@None JsDate) by reflexivity.
  now rewrite Htbd.
Qed.

Lemma elapsedDays_badExecDate : elapsedDays badExecDate = None.
Proof.
  unfold elapsedDays.
  replace (get badExecDate "Jobexec_dt") with (PStr "tbd") by reflexivity.
  now rewrite parsedTime_tbd.
Qed.

(** The example of the document holds of the code: the order whose
    execution date does not parse is left out, not counted as zero. *)
Lemma average_of_document_example :
  exists r : ProcessResult,
    processData (ArgArray [EObj oneDay; EObj threeDays; EObj fiveDays; EObj badExecDate]) = Ok r
    /\ (avg_processing_time (kpis r) == 3)%Q.
Proof.
  destruct (processData_average [oneDay; threeDays; fiveDays; badExecDate])
    as (r & Hr & Havg); [discriminate|].
  exists r. split; [exact Hr|]. rewrite Havg.
  replace (List.filter isClosed [oneDay; threeDays; fiveDays; badExecDate])
    with [oneDay; threeDays; fiveDays; badExecDate] by reflexivity.
  cbn [omap list_omap]. rewrite elapsedDays_badExecDate.
  assert (H1 : elapsedDays oneDay = Some (inject_Z (1 * msPerDay) / inject_Z msPerDay)%Q).
  { unfold elapsedDays. eval_days Htz "02/03/2024" "01/03/2024".
    do 3 f_equal. eval_MakeDay. lia. }
  assert (H3 : elapsedDays threeDays = Some (inject_Z (3 * msPerDay) / inject_Z msPerDay)%Q).
  { unfold elapsedDays. eval_days Htz "04/03/2024" "01/03/2024".
    do 3 f_equal. eval_MakeDay. lia. }
  assert (H5 : elapsedDays fiveDays = Some (inject_Z (5 * msPerDay) / inject_Z msPerDay)%Q).
  { unfold elapsedDays. eval_days Htz "06/03/2024" "01/03/2024".
    do 3 f_equal. eval_MakeDay. lia. }
  rewrite H1, H3, H5. vm_compute. reflexivity.
Qed.

End DocumentExample.

(** C1 (the code departs from the claim). Two closed orders, one taking
    four days and one recorded as executed two days before it was ordered:
    [processData] reports an average of 1 day, the negative time counted
    in, where the mean over the non-negative times is 4 days. *)
Theorem negative_time_enters_average `{Host} :
  plausibleOffset ->
  exists r : ProcessResult,
    processData (ArgArray [EObj lateOrder; EObj backdatedOrder]) = Ok r
    /\ (avg_processing_time (kpis r) == 1)%Q
    /\ (documentedAverage [lateOrder; backdatedOrder] == 4)%Q.
Proof.
  intros Htz.
  destruct (processData_average [lateOrder; backdatedOrder]) as (r & Hr & Havg); [discriminate|].
  exists r. split; [exact Hr|]. split.
  - rewrite Havg.
    replace (List.filter isClosed [lateOrder; backdatedOrder])
      with [lateOrder; backdatedOrder] by reflexivity.
    cbn [omap list_omap].
    rewrite (elapsedDays_lateOrder Htz), (elapsedDays_backdatedOrder Htz).
    vm_compute. reflexivity.
  - unfold documentedAverage.
    replace (List.filter isClosed [lateOrder; backdatedOrder])
      with [lateOrder; backdatedOrder] by reflexivity.
    cbn [omap list_omap].
    rewrite (nonNegativeDays_lateOrder Htz), (nonNegativeDays_backdatedOrder Htz).
    vm_compute. reflexivity.
Qed.

Lemma negative_time_enters_average_witness :
  exists r : ProcessResult,
    processData (H := casaHost) (ArgArray [EObj lateOrder; EObj backdatedOrder]) = Ok r
    /\ (avg_processing_time (kpis r) == 1)%Q
    /\ (documentedAverage (H := casaHost) [lateOrder; backdatedOrder] == 4)%Q.
Proof.
  apply (negative_time_enters_average (H := casaHost)).
  unfold plausibleOffset. vm_compute. discriminate.
Defined.

(** ** The calendar *)

Ltac div_lia := Z.to_euclidean_division_equations; lia.

(** Months and days of the conversion are in range. *)
Lemma civilFromDays_bounds (z : Z) :
  let '(y, m, d) := civilFromDays z in 1 <= m <= 12 /\ 1 <= d <= 31.
Proof.
  unfold civilFromDays. cbv zeta.
  set (z' := z + 719468). set (era := z' / 146097). set (doe := z' - era * 146097).
  assert (Hdoe : 0 <= doe <= 146096) by (subst doe era; div_lia).
  clearbody doe. clear era z' z.
  set (yoe := (doe - doe / 1460 + doe / 36524 - doe / 146096) / 365).
  assert (Hyoe : 0 <= yoe <= 399) by (subst yoe; div_lia).
  set (doy := doe - (365 * yoe + yoe / 4 - yoe / 100)).
  assert (Hdoy : 0 <= doy <= 365) by (subst doy yoe; div_lia).
  clearbody doy.
  set (mp := (5 * doy + 2) / 153).
  assert (Hmp : 0 <= mp <= 11) by (subst mp; div_lia).
  destruct (mp <? 10) eqn:E; [apply Z.ltb_lt in E | apply Z.ltb_ge in E];
    (split; [lia | subst mp; div_lia]).
Qed.

(** The two conversions agree: the date of a day number has that day
    number. *)
Lemma daysFromCivil_civilFromDays (z : Z) :
  let '(y, m, d) := civilFromDays z in daysFromCivil y m d = z.
Proof.
  unfold civilFromDays. cbv zeta.
  set (z' := z + 719468). set (era := z' / 146097). set (doe := z' - era * 146097).
  assert (Hdoe : 0 <= doe <= 146096) by (subst doe era; div_lia).
  assert (Hz : z = era * 146097 + doe - 719468) by (subst doe z'; lia).
  clearbody doe era. clear z'. subst z.
  set (yoe := (doe - doe / 1460 + doe / 36524 - doe / 146096) / 365).
  assert (Hyoe : 0 <= yoe <= 399) by (subst yoe; div_lia).
  set (doy := doe - (365 * yoe + yoe / 4 - yoe / 100)).
  assert (Hdoy : 0 <= doy <= 365) by (subst doy yoe; div_lia).
  assert (Hd : doe = yoe * 365 + yoe / 4 - yoe / 100 + doy) by (subst doy; lia).
  clearbody doy yoe. subst doe.
  set (mp := (5 * doy + 2) / 153).
  assert (Hmp : 0 <= mp <= 11) by (subst mp; div_lia).
  set (d := doy - (153 * mp + 2) / 5 + 1).
  assert (Hdd : doy = (153 * mp + 2) / 5 + d - 1) by (subst d; lia).
  clearbody d mp. unfold daysFromCivil.
  destruct (mp <? 10) eqn:E; [apply Z.ltb_lt in E | apply Z.ltb_ge in E].
  - replace (mp + 3 <=? 2) with false by (symmetry; apply Z.leb_gt; lia).
    replace (2 <? mp + 3) with true by (symmetry; apply Z.ltb_lt; lia).
    replace (mp + 3 - 3) with mp by lia.
    replace ((yoe + era * 400) / 400) with era by div_lia.
    replace (yoe + era * 400 - era * 400) with yoe by lia. lia.
  - replace (mp - 9 <=? 2) with true by (symmetry; apply Z.leb_le; lia).
    replace (2 <? mp - 9) with false by (symmetry; apply Z.ltb_ge; lia).
    replace (mp - 9 + 9) with mp by lia.
    replace (yoe + era * 400 + 1 - 1) with (yoe + era * 400) by lia.
    replace ((yoe + era * 400) / 400) with era by div_lia.
    replace (yoe + era * 400 - era * 400) with yoe by lia. lia.
Qed.

(** From 31 December 1899 to 31 December 9999 the year has four digits. *)
Lemma civilFromDays_year_bounds (z : Z) :
  -25568 <= z <= 2932896 ->
  let '(y, m, d) := civilFromDays z in 1899 <= y <= 9999.
Proof.
  intros Hz. unfold civilFromDays. cbv zeta.
  set (z' := z + 719468). set (era := z' / 146097). set (doe := z' - era * 146097).
  assert (Hdoe : 0 <= doe <= 146096) by (subst doe era; div_lia).
  assert (Hera : 4 <= era <= 24) by (subst era z'; div_lia).
  set (yoe := (doe - doe / 1460 + doe / 36524 - doe / 146096) / 365).
  assert (Hyoe : 0 <= yoe <= 399) by (subst yoe; div_lia).
  set (doy := doe - (365 * yoe + yoe / 4 - yoe / 100)).
  assert (Hdoy : 0 <= doy <= 365) by (subst doy yoe; div_lia).
  set (mp := (5 * doy + 2) / 153).
  assert (Hmp : 0 <= mp <= 11) by (subst mp; div_lia).
  assert (Hlow : era = 4 -> 299 <= yoe).
  { intros He. assert (693900 <= z') by (subst z'; lia).
    assert (109512 <= doe) by (subst doe; lia).
    subst yoe; div_lia. }
  assert (Hhigh : era = 24 -> yoe = 399 -> mp <= 9).
  { intros He Hy. assert (z' <= 3652364) by (subst z'; lia).
    assert (doe <= 146036) by (subst doe; lia).
    subst mp doy. rewrite Hy. clearbody yoe. div_lia. }
  destruct (mp <? 10) eqn:E; [apply Z.ltb_lt in E | apply Z.ltb_ge in E].
  - replace (mp + 3 <=? 2) with false by (symmetry; apply Z.leb_gt; lia). lia.
  - replace (mp - 9 <=? 2) with true by (symmetry; apply Z.leb_le; lia). lia.
Qed.

(** ** Decimal digits *)

Lemma checkRange_sound (P : Z -> bool) (lo : Z) (count : nat) :
  checkRange P lo count = true ->
  forall n, lo <= n < lo + Z.of_nat count -> P n = true.
Proof.
  unfold checkRange. intros Hall n Hn. rewrite forallb_forall in Hall.
  replace n with (lo + Z.of_nat (Z.to_nat (n - lo))) by lia.
  apply Hall. apply in_seq. lia.
Qed.

Lemma padStart2_twoDigits (n : Z) :
  0 <= n <= 99 -> padStart2 (Z_to_string n) = twoDigits n.
Proof.
  intros Hn. apply String.eqb_eq.
  apply (checkRange_sound (fun k => String.eqb (padStart2 (Z_to_string k)) (twoDigits k)) 0 100);
    [vm_compute; reflexivity | lia].
Qed.

Lemma Z_to_string_fourDigits (n : Z) :
  1000 <= n <= 9999 -> Z_to_string n = fourDigits n.
Proof.
  intros Hn. apply String.eqb_eq.
  apply (checkRange_sound (fun k => String.eqb (Z_to_string k) (fourDigits k)) 1000
           (Z.to_nat 9000));
    [vm_compute; reflexivity | lia].
Qed.

(** ** Serial dates *)

Section SerialDates.
Context `{Host}.
Hypothesis Htz : plausibleOffset.


(** The display string of a local midnight is that of its calendar date. *)
Lemma formatToFrenchDate_midnight (k : Z) :
  -25568 <= k <= 2932896 ->
  formatToFrenchDate (Some (DateOf (k * msPerDay - tzOffset)))
  = Some (displayDate (civilFromDays k)).
Proof.
  intros Hk. unfold formatToFrenchDate, getDate, getMonth, getFullYear.
  cbn [timeValue fmap option_fmap option_map numToString].
  unfold compose, DateFromTime, MonthFromTime, YearFromTime.
  rewrite (Day_midnight k).
  pose proof (civilFromDays_bounds k) as Hb.
  pose proof (civilFromDays_year_bounds k Hk) as Hy.
  destruct (civilFromDays k) as [[y m] d]. unfold displayDate.
  replace (m - 1 + 1) with m by lia.
  rewrite (padStart2_twoDigits d), (padStart2_twoDigits m), (Z_to_string_fourDigits y) by lia.
  reflexivity.
Qed.

End SerialDates.



(** The serial 0 is not a date for the script: the number 0 is falsy. *)
Lemma parseFrenchDate_zero `{Host} : parseFrenchDate (PNum 0) = None.
Proof. reflexivity. Qed.

(** ** Week numbers *)

Lemma MakeDay_civil (y m d d' : Z) :
  1 <= m <= 12 -> MakeDay y (m - 1) d' = daysFromCivil y m d + (d' - d).
Proof.
  intros Hm. unfold MakeDay.
  replace ((m - 1) / 12) with 0 by div_lia.
  replace ((m - 1) mod 12 + 1) with m by div_lia.
  replace (y + 0) with y by lia. unfold daysFromCivil. lia.
Qed.

Lemma fullYear_modern (y : Z) : 1899 <= y -> fullYear y = y.
Proof.
  intros Hy. unfold fullYear.
  replace (y <=? 99) with false by (symmetry; apply Z.leb_gt; lia).
  now rewrite andb_false_r.
Qed.

Lemma daysFromCivil_january (y : Z) :
  1899 <= y <= 9999 -> representableDay (daysFromCivil y 1 1).
Proof. intros Hy. unfold representableDay, daysFromCivil. simpl. div_lia. Qed.

Lemma TimeClip_utc_midnight (k : Z) :
  representableDay k -> TimeClip (k * msPerDay) = DateOf (k * msPerDay).
Proof.
  unfold representableDay, TimeClip, msPerDay. intros Hk.
  destruct (Z.leb_spec (Z.abs (k * 86400000)) 8640000000000000); [reflexivity | lia].
Qed.

Lemma Day_utc_midnight (k : Z) : Day (k * msPerDay) = k.
Proof. unfold Day, msPerDay. now apply Z.div_mul. Qed.

Lemma ceilDiv_days (a : Z) : ceilDiv (a * msPerDay) (7 * msPerDay) = ceilDiv a 7.
Proof.
  unfold ceilDiv, msPerDay. f_equal.
  replace (- (a * 86400000)) with ((- a) * 86400000) by lia.
  now rewrite Z.div_mul_cancel_r.
Qed.

Lemma thursdayOf_spec (k : Z) :
  thursdayOf k
  = k + 4 - match (k + 4) mod 7 with
            | 0 => 7
            | n => n
            end.
Proof.
  unfold thursdayOf, isoWeekIndex.
  assert (Hr : 0 <= (k + 4) mod 7 < 7) by (apply Z.mod_pos_bound; lia).
  destruct ((k + 4) mod 7) eqn:Hm; div_lia.
Qed.

Lemma thursdayOf_near (k : Z) : k - 3 <= thursdayOf k <= k + 3.
Proof. unfold thursdayOf, isoWeekIndex. div_lia. Qed.

(** Across a week boundary inside one week-numbering year the week
    number goes up by one. *)
Lemma isoWeekNumber_next_week (k : Z) :
  isoWeekIndex (k + 1) = isoWeekIndex k + 1 ->
  isoWeekYear (k + 1) = isoWeekYear k ->
  isoWeekNumber (k + 1) = isoWeekNumber k + 1.
Proof.
  intros Hw Hy. unfold isoWeekNumber. rewrite Hy. unfold thursdayOf. rewrite Hw.
  unfold ceilDiv. div_lia.
Qed.

Section WeekFacts.
Context `{Host}.

Lemma local_fields (k : Z) :
  let '(y, m, d) := civilFromDays k in
  getFullYear (DateOf (k * msPerDay - tzOffset)) = Some y
  /\ getMonth (DateOf (k * msPerDay - tzOffset)) = Some (m - 1)
  /\ getDate (DateOf (k * msPerDay - tzOffset)) = Some d.
Proof.
  unfold getFullYear, getMonth, getDate.
  cbn [timeValue fmap option_fmap option_map].
  unfold compose, DateFromTime, MonthFromTime, YearFromTime.
  rewrite (Day_midnight k). now destruct (civilFromDays k) as [[y m] d].
Qed.

(** Step 1: the UTC midnight of the local calendar date. *)
Lemma utcMidnight_of_local (k : Z) :
  -25568 <= k <= 2932896 ->
  newDate (y ← getFullYear (DateOf (k * msPerDay - tzOffset));
           m ← getMonth (DateOf (k * msPerDay - tzOffset));
           dt ← getDate (DateOf (k * msPerDay - tzOffset));
           DateUTC y m dt)
  = DateOf (k * msPerDay).
Proof.
  intros Hk.
  pose proof (local_fields k) as Hf.
  pose proof (civilFromDays_bounds k) as Hb.
  pose proof (civilFromDays_year_bounds k Hk) as Hy.
  pose proof (daysFromCivil_civilFromDays k) as Hrt.
  destruct (civilFromDays k) as [[y m] d].
  destruct Hf as (Hfy & Hfm & Hfd). rewrite Hfy, Hfm, Hfd.
  unfold mbind, option_bind, DateUTC.
  rewrite (fullYear_modern y) by lia.
  rewrite (MakeDay_civil y m d d) by lia. rewrite Hrt.
  replace (k + (d - d)) with k by lia.
  rewrite (TimeClip_utc_midnight k) by (unfold representableDay; lia).
  unfold timeValue, newDate.
  apply TimeClip_utc_midnight. unfold representableDay; lia.
Qed.

(** Step 2: moving to the Thursday of the week. *)
Lemma setUTCDate_thursday (k : Z) :
  -25565 <= k <= 2932893 ->
  setUTCDate (DateOf (k * msPerDay))
    ((fun dt => dt + 4 - match getUTCDay (DateOf (k * msPerDay)) with
                         | Some 0 | None => 7
                         | Some n => n
                         end) <$> getUTCDate (DateOf (k * msPerDay)))
  = DateOf (thursdayOf k * msPerDay).
Proof.
  intros Hk.
  pose proof (civilFromDays_bounds k) as Hb.
  pose proof (daysFromCivil_civilFromDays k) as Hrt.
  pose proof (thursdayOf_spec k) as Hth. pose proof (thursdayOf_near k) as Hnear.
  unfold setUTCDate, getUTCDay, getUTCDate, timeValue, fmap, option_fmap, option_map,
    mbind, option_bind, newDate.
  unfold WeekDay, DateFromTime, YearFromTime, MonthFromTime, TimeWithinDay.
  rewrite (Day_utc_midnight k).
  destruct (civilFromDays k) as [[y m] d].
  rewrite (MakeDay_civil y m d) by lia. rewrite Hrt.
  replace ((k * msPerDay) mod msPerDay) with 0
    by (symmetry; apply Z.mod_mul; unfold msPerDay; lia).
  rewrite <- (TimeClip_utc_midnight (thursdayOf k)) by (unfold representableDay; lia).
  f_equal. rewrite Hth. destruct ((k + 4) mod 7); lia.
Qed.

(** Step 3: the first of January of the Thursday's year. *)
Lemma yearStart_of_thursday (t : Z) :
  -25568 <= t <= 2932896 ->
  newDate (y ← getUTCFullYear (DateOf (t * msPerDay)); DateUTC y 0 1)
  = DateOf (daysFromCivil (calendarYear t) 1 1 * msPerDay).
Proof.
  intros Ht. unfold calendarYear.
  pose proof (civilFromDays_year_bounds t Ht) as Hty.
  unfold getUTCFullYear, timeValue, fmap, option_fmap, option_map, mbind, option_bind,
    YearFromTime, DateUTC.
  rewrite (Day_utc_midnight t).
  destruct (civilFromDays t) as [[ty tm] td].
  rewrite (fullYear_modern ty) by lia.
  replace (MakeDay ty 0 1) with (daysFromCivil ty 1 1)
    by (rewrite <- (Z.add_0_r (daysFromCivil ty 1 1)); symmetry;
        apply (MakeDay_civil ty 1 1 1); lia).
  rewrite (TimeClip_utc_midnight (daysFromCivil ty 1 1)) by (now apply daysFromCivil_january).
  unfold newDate. apply TimeClip_utc_midnight. now apply daysFromCivil_january.
Qed.

Lemma getWeekNumber_midnight (k : Z) :
  -25565 <= k <= 2932893 ->
  getWeekNumber (DateOf (k * msPerDay - tzOffset)) = Some (isoWeekNumber k).
Proof.
  intros Hk. unfold getWeekNumber.
  rewrite (utcMidnight_of_local k) by lia.
  rewrite (setUTCDate_thursday k Hk).
  pose proof (thursdayOf_near k) as Hnear.
  rewrite (yearStart_of_thursday (thursdayOf k)) by lia.
  unfold timeValue, mbind, option_bind. f_equal.
  unfold isoWeekNumber, isoWeekYear, calendarYear.
  rewrite <- ceilDiv_days. f_equal. lia.
Qed.

(** The week number depends on the ISO week alone. *)
Lemma getWeekNumber_same_week (k1 k2 : Z) :
  -25565 <= k1 <= 2932893 -> -25565 <= k2 <= 2932893 ->
  isoWeekIndex k1 = isoWeekIndex k2 ->
  getWeekNumber (DateOf (k1 * msPerDay - tzOffset))
  = getWeekNumber (DateOf (k2 * msPerDay - tzOffset)).
Proof.
  intros H1 H2 Hw. rewrite !getWeekNumber_midnight by assumption.
  unfold isoWeekNumber, isoWeekYear, thursdayOf. now rewrite Hw.
Qed.

(** The bucket of a date that parsed to a local midnight: the calendar
    year of the date itself, then the week number. *)
Lemma formatDateForChart_midnight (v : Prim) (k : Z) :
  -25565 <= k <= 2932893 ->
  parseFrenchDate v = Some (DateOf (k * msPerDay - tzOffset)) ->
  formatDateForChart v
  = Z_to_string (calendarYear k) ++ "-W" ++ padStart2 (Z_to_string (isoWeekNumber k)).
Proof.
  intros Hk Hp. unfold formatDateForChart. rewrite Hp, (getWeekNumber_midnight k Hk).
  pose proof (local_fields k) as Hf. unfold calendarYear.
  destruct (civilFromDays k) as [[y m] d].
  destruct Hf as (-> & _). reflexivity.
Qed.

(** The copy without the ISO branch parses such strings alike. *)
Lemma Standalone_parseFrenchDate_eq (s : string) :
  isoPrefix s = false ->
  Standalone.parseFrenchDate (PStr s) = parseFrenchDate (PStr s).
Proof.
  intros Hiso. unfold Standalone.parseFrenchDate, parseFrenchDate.
  destruct (negb (truthy (PStr s))); [reflexivity|]. now rewrite Hiso.
Qed.

Lemma Standalone_formatDateForChart_midnight (s : string) (k : Z) :
  -25565 <= k <= 2932893 -> isoPrefix s = false ->
  parseFrenchDate (PStr s) = Some (DateOf (k * msPerDay - tzOffset)) ->
  Standalone.formatDateForChart (PStr s)
  = Z_to_string (calendarYear k) ++ "-" ++ padStart2 (Z_to_string (calendarMonth k))
    ++ "-W" ++ padStart2 (Z_to_string (isoWeekNumber k)).
Proof.
  intros Hk Hiso Hp. unfold Standalone.formatDateForChart.
  rewrite (Standalone_parseFrenchDate_eq s Hiso), Hp, (getWeekNumber_midnight k Hk).
  pose proof (local_fields k) as Hf. unfold calendarYear, calendarMonth.
  destruct (civilFromDays k) as [[y m] d].
  destruct Hf as (-> & -> & _). cbn [fmap option_fmap option_map numToString].
  replace (m - 1 + 1) with m by lia. reflexivity.
Qed.

(** Two dates of one ISO week and one calendar year do share a bucket. *)
Lemma formatDateForChart_same_week (v1 v2 : Prim) (k1 k2 : Z) :
  -25565 <= k1 <= 2932893 -> -25565 <= k2 <= 2932893 ->
  parseFrenchDate v1 = Some (DateOf (k1 * msPerDay - tzOffset)) ->
  parseFrenchDate v2 = Some (DateOf (k2 * msPerDay - tzOffset)) ->
  isoWeekIndex k1 = isoWeekIndex k2 -> calendarYear k1 = calendarYear k2 ->
  formatDateForChart v1 = formatDateForChart v2.
Proof.
  intros H1 H2 Hp1 Hp2 Hw Hy.
  rewrite (formatDateForChart_midnight v1 k1 H1 Hp1), (formatDateForChart_midnight v2 k2 H2 Hp2).
  rewrite Hy. unfold isoWeekNumber, isoWeekYear, thursdayOf. now rewrite Hw.
Qed.

End WeekFacts.

(** Evaluates [parseFrenchDate] on a literal day/month/year string. *)
Ltac french_date Htz :=
  erewrite (parseFrenchDate_french Htz) by
    first [ reflexivity | unfold representableDay; vm_compute; discriminate ].

(** C2 (the code departs from the claim). Monday 30 December 2024 and
    Sunday 5 January 2025 lie in the same ISO week, week 1 of 2025, yet
    [formatDateForChart] puts them in two buckets, "2024-W01" and
    "2025-W01": the week number is that of the Thursday's year, the year
    printed is the date's own.  The copy with the month in the bucket splits
    them likewise. *)
Theorem week_bucket_splits_at_new_year `{Host} :
  plausibleOffset ->
  isoWeekIndex monday2024 = isoWeekIndex sunday2025
  /\ isoWeekYear monday2024 = 2025 /\ isoWeekNumber monday2024 = 1
  /\ formatDateForChart (PStr "30/12/2024") = "2024-W01"
  /\ formatDateForChart (PStr "05/01/2025") = "2025-W01"
  /\ Standalone.formatDateForChart (PStr "30/12/2024") = "2024-12-W01"
  /\ Standalone.formatDateForChart (PStr "05/01/2025") = "2025-01-W01".
Proof.
  intros Htz.
  assert (Hm : parseFrenchDate (PStr "30/12/2024")
               = Some (DateOf (monday2024 * msPerDay - tzOffset))).
  { french_date Htz. eval_MakeDay. reflexivity. }
  assert (Hs : parseFrenchDate (PStr "05/01/2025")
               = Some (DateOf (sunday2025 * msPerDay - tzOffset))).
  { french_date Htz. eval_MakeDay. reflexivity. }
  assert (Hkm : -25565 <= monday2024 <= 2932893) by (vm_compute; split; discriminate).
  assert (Hks : -25565 <= sunday2025 <= 2932893) by (vm_compute; split; discriminate).
  split; [reflexivity|]. split; [reflexivity|]. split; [reflexivity|].
  split; [|split; [|split]].
  - rewrite (formatDateForChart_midnight _ _ Hkm Hm). vm_compute. reflexivity.
  - rewrite (formatDateForChart_midnight _ _ Hks Hs). vm_compute. reflexivity.
  - rewrite (Standalone_formatDateForChart_midnight "30/12/2024" _ Hkm eq_refl Hm).
    vm_compute. reflexivity.
  - rewrite (Standalone_formatDateForChart_midnight "05/01/2025" _ Hks eq_refl Hs).
    vm_compute. reflexivity.
Qed.

Lemma week_bucket_splits_at_new_year_witness :
  formatDateForChart (H := casaHost) (PStr "30/12/2024") = "2024-W01"
  /\ formatDateForChart (H := casaHost) (PStr "05/01/2025") = "2025-W01".
Proof.
  destruct (week_bucket_splits_at_new_year (H := casaHost)) as (_ & _ & _ & Hm & Hs & _).
  - unfold plausibleOffset. vm_compute. discriminate.
  - split; [exact Hm | exact Hs].
Defined.

(** * Further properties *)

Lemma januaryFirst_formula (y : Z) :
  januaryFirst y
  = 365 * (y - 1970) + (y - 1) / 4 - (y - 1) / 100 + (y - 1) / 400 - 477.
Proof.
  unfold daysFromCivil.
  change (1 <=? 2) with true. change (2 <? 1) with false. cbv iota.
  change ((153 * (1 + 9) + 2) / 5) with 306. div_lia.
Qed.

Lemma januaryFirst_step (y : Z) :
  365 <= januaryFirst (y + 1) - januaryFirst y <= 366.
Proof.
  rewrite !januaryFirst_formula. replace (y + 1 - 1) with y by lia. div_lia.
Qed.

Lemma januaryFirst_mono (y n : Z) :
  0 <= n -> januaryFirst y + 365 * n <= januaryFirst (y + n).
Proof.
  intros Hn. revert n Hn. apply natlike_ind.
  - replace (y + 0) with y by lia. lia.
  - intros n Hn IH. pose proof (januaryFirst_step (y + n)) as Hs.
    replace (y + Z.succ n) with (y + n + 1) by lia. lia.
Qed.

Lemma daysFromCivil_in_year (y m d : Z) :
  1 <= m <= 12 -> 1 <= d <= 31 ->
  januaryFirst y <= daysFromCivil y m d < januaryFirst (y + 1).
Proof.
  intros Hm Hd. rewrite !januaryFirst_formula. replace (y + 1 - 1) with y by lia.
  assert (Hc : m = 1 \/ m = 2 \/ m = 3 \/ m = 4 \/ m = 5 \/ m = 6 \/ m = 7 \/ m = 8
               \/ m = 9 \/ m = 10 \/ m = 11 \/ m = 12) by lia.
  unfold daysFromCivil.
  repeat (destruct Hc as [-> | Hc]; [cbn [Z.leb Z.ltb Z.compare Pos.compare Pos.compare_cont]; div_lia|]).
  subst m. cbn [Z.leb Z.ltb Z.compare Pos.compare Pos.compare_cont]. div_lia.
Qed.

(** A day lies in its calendar year. *)
Lemma calendarYear_bounds (z : Z) :
  januaryFirst (calendarYear z) <= z < januaryFirst (calendarYear z + 1).
Proof.
  unfold calendarYear.
  pose proof (civilFromDays_bounds z) as Hb.
  pose proof (daysFromCivil_civilFromDays z) as Hrt.
  destruct (civilFromDays z) as [[y m] d]. destruct Hb as [Hm Hd].
  rewrite <- Hrt. now apply daysFromCivil_in_year.
Qed.

Lemma calendarYear_unique (y z : Z) :
  januaryFirst y <= z < januaryFirst (y + 1) -> calendarYear z = y.
Proof.
  intros Hz. pose proof (calendarYear_bounds z) as Hc.
  set (y' := calendarYear z) in *.
  destruct (Z.lt_trichotomy y' y) as [Hlt | [Heq | Hgt]]; [exfalso | exact Heq | exfalso].
  - pose proof (januaryFirst_mono (y' + 1) (y - (y' + 1)) ltac:(lia)) as Hmono.
    replace (y' + 1 + (y - (y' + 1))) with y in Hmono by lia. lia.
  - pose proof (januaryFirst_mono (y + 1) (y' - (y + 1)) ltac:(lia)) as Hmono.
    replace (y + 1 + (y' - (y + 1))) with y' in Hmono by lia. lia.
Qed.

Lemma weekOfYear_bounds (t j j' : Z) :
  j <= t < j' -> 365 <= j' - j <= 366 ->
  1 <= ceilDiv (t - j + 1) 7 <= 53
  /\ j + 7 * (ceilDiv (t - j + 1) 7 - 1) <= t < j + 7 * ceilDiv (t - j + 1) 7.
Proof. intros Hb Hs. unfold ceilDiv. div_lia. Qed.

(** The Thursday of a week is the [w]-th Thursday of its year, [w] being
    the week number: it lies in the [w]-th run of seven days of that
    year. *)
Lemma isoWeekNumber_spec (k : Z) :
  1 <= isoWeekNumber k <= 53
  /\ januaryFirst (isoWeekYear k) + 7 * (isoWeekNumber k - 1) <= thursdayOf k
     < januaryFirst (isoWeekYear k) + 7 * isoWeekNumber k.
Proof.
  unfold isoWeekNumber.
  exact (weekOfYear_bounds (thursdayOf k) (januaryFirst (isoWeekYear k))
           (januaryFirst (isoWeekYear k + 1))
           (calendarYear_bounds (thursdayOf k))
           (januaryFirst_step (isoWeekYear k))).
Qed.

Section DateWeek.
Context `{Host}.

(** The calendar fields of a Date are those of its local day. *)
Lemma date_fields (t : Z) :
  let '(y, m, d) := civilFromDays (Day (LocalTime t)) in
  getFullYear (DateOf t) = Some y
  /\ getMonth (DateOf t) = Some (m - 1)
  /\ getDate (DateOf t) = Some d.
Proof.
  unfold getFullYear, getMonth, getDate.
  cbn [timeValue fmap option_fmap option_map].
  unfold compose, DateFromTime, MonthFromTime, YearFromTime.
  now destruct (civilFromDays (Day (LocalTime t))) as [[y m] d].
Qed.

Lemma utcMidnight_of_date (t : Z) :
  -25568 <= Day (LocalTime t) <= 2932896 ->
  newDate (y ← getFullYear (DateOf t); m ← getMonth (DateOf t); dt ← getDate (DateOf t);
           DateUTC y m dt)
  = DateOf (Day (LocalTime t) * msPerDay).
Proof.
  intros Hk.
  pose proof (date_fields t) as Hf.
  set (k := Day (LocalTime t)) in *.
  pose proof (civilFromDays_bounds k) as Hb.
  pose proof (civilFromDays_year_bounds k Hk) as Hy.
  pose proof (daysFromCivil_civilFromDays k) as Hrt.
  destruct (civilFromDays k) as [[y m] d].
  destruct Hf as (Hfy & Hfm & Hfd). rewrite Hfy, Hfm, Hfd.
  unfold mbind, option_bind, DateUTC.
  rewrite (fullYear_modern y) by lia.
  rewrite (MakeDay_civil y m d d) by lia. rewrite Hrt.
  replace (k + (d - d)) with k by lia.
  rewrite (TimeClip_utc_midnight k) by (unfold representableDay; lia).
  unfold timeValue, newDate.
  apply TimeClip_utc_midnight. unfold representableDay; lia.
Qed.

(** [getWeekNumber] of any Date of the years 1900 to 9999: the ISO week
    number of its local day. *)
Lemma getWeekNumber_date (t : Z) :
  chartDay (Day (LocalTime t)) ->
  getWeekNumber (DateOf t) = Some (isoWeekNumber (Day (LocalTime t))).
Proof.
  unfold chartDay. intros Hk. unfold getWeekNumber.
  rewrite (utcMidnight_of_date t) by lia.
  set (k := Day (LocalTime t)) in *.
  rewrite (setUTCDate_thursday k Hk).
  pose proof (thursdayOf_near k) as Hnear.
  rewrite (yearStart_of_thursday (thursdayOf k)) by lia.
  unfold timeValue, mbind, option_bind. f_equal.
  unfold isoWeekNumber, isoWeekYear, calendarYear.
  rewrite <- ceilDiv_days. f_equal. lia.
Qed.

Lemma getFullYear_date (t : Z) : getFullYear (DateOf t) = Some (calendarYear (Day (LocalTime t))).
Proof.
  pose proof (date_fields t) as Hf. unfold calendarYear.
  destruct (civilFromDays (Day (LocalTime t))) as [[y m] d]. now destruct Hf.
Qed.

Lemma calendarYear_chartDay (k : Z) : chartDay k -> 1900 <= calendarYear k <= 9999.
Proof.
  unfold chartDay. intros Hk.
  destruct (Z.le_gt_cases (calendarYear k) 1899) as [Hle|Hgt].
  - pose proof (calendarYear_bounds k) as Hb.
    pose proof (januaryFirst_mono (calendarYear k + 1) (1900 - (calendarYear k + 1)) ltac:(lia)) as Hm.
    replace (calendarYear k + 1 + (1900 - (calendarYear k + 1))) with 1900 in Hm by lia.
    replace (januaryFirst 1900) with (-25567) in Hm by (vm_compute; reflexivity). lia.
  - split; [lia|].
    pose proof (civilFromDays_year_bounds k ltac:(lia)) as Hy. unfold calendarYear.
    destruct (civilFromDays k) as [[y m] d]. lia.
Qed.

End DateWeek.

(** ** Digits *)

Lemma isDigit_not_sep (c : ascii) : isDigit c = true -> isDateSep c = false.
Proof. destruct c as [[] [] [] [] [] [] [] []]; intros Hd; try reflexivity; discriminate Hd. Qed.

Lemma isDigit_digitChar (d : Z) : 0 <= d <= 9 -> isDigit (digitChar d) = true.
Proof.
  intros Hd.
  assert (Hc : d = 0 \/ d = 1 \/ d = 2 \/ d = 3 \/ d = 4 \/ d = 5 \/ d = 6 \/ d = 7
               \/ d = 8 \/ d = 9) by lia.
  repeat (destruct Hc as [-> | Hc]; [reflexivity|]). now subst.
Qed.

Lemma digitsOnly_fourDigits (n : Z) : 0 <= n <= 9999 -> digitsOnly (fourDigits n) = true.
Proof.
  intros Hn. unfold fourDigits. cbn [digitsOnly].
  rewrite !isDigit_digitChar by div_lia. reflexivity.
Qed.

Lemma digitsOnly_twoDigits (n : Z) : 0 <= n <= 99 -> digitsOnly (twoDigits n) = true.
Proof.
  intros Hn. unfold twoDigits. cbn [digitsOnly].
  rewrite !isDigit_digitChar by div_lia. reflexivity.
Qed.

Lemma parseInt_fourDigits (n : Z) : 0 <= n <= 9999 -> parseInt (fourDigits n) = Some n.
Proof.
  intros Hn.
  assert (Hc : match parseInt (fourDigits n) with Some v => v =? n | None => false end = true).
  { apply (checkRange_sound
             (fun k => match parseInt (fourDigits k) with Some v => v =? k | None => false end)
             0 (Z.to_nat 10000)); [vm_compute; reflexivity | lia]. }
  destruct (parseInt (fourDigits n)) as [v|]; [|discriminate].
  apply Z.eqb_eq in Hc. now subst.
Qed.

Lemma parseInt_twoDigits (n : Z) : 0 <= n <= 99 -> parseInt (twoDigits n) = Some n.
Proof.
  intros Hn.
  assert (Hc : match parseInt (twoDigits n) with Some v => v =? n | None => false end = true).
  { apply (checkRange_sound
             (fun k => match parseInt (twoDigits k) with Some v => v =? k | None => false end)
             0 100); [vm_compute; reflexivity | lia]. }
  destruct (parseInt (twoDigits n)) as [v|]; [|discriminate].
  apply Z.eqb_eq in Hc. now subst.
Qed.

Lemma toNumber_fourDigits (n : Z) : 0 <= n <= 9999 -> toNumber (fourDigits n) = Some n.
Proof.
  intros Hn.
  assert (Hc : match toNumber (fourDigits n) with Some v => v =? n | None => false end = true).
  { apply (checkRange_sound
             (fun k => match toNumber (fourDigits k) with Some v => v =? k | None => false end)
             0 (Z.to_nat 10000)); [vm_compute; reflexivity | lia]. }
  destruct (toNumber (fourDigits n)) as [v|]; [|discriminate].
  apply Z.eqb_eq in Hc. now subst.
Qed.

Lemma toNumber_twoDigits (n : Z) : 0 <= n <= 99 -> toNumber (twoDigits n) = Some n.
Proof.
  intros Hn.
  assert (Hc : match toNumber (twoDigits n) with Some v => v =? n | None => false end = true).
  { apply (checkRange_sound
             (fun k => match toNumber (twoDigits k) with Some v => v =? k | None => false end)
             0 100); [vm_compute; reflexivity | lia]. }
  destruct (toNumber (twoDigits n)) as [v|]; [|discriminate].
  apply Z.eqb_eq in Hc. now subst.
Qed.

(** ** Week strings *)

Lemma prefix_dash_digit (c : ascii) (r : string) :
  isDigit c = true -> String.prefix "-W" (String c r) = false.
Proof.
  intros Hd. cbn [String.prefix].
  destruct (ascii_dec "-" c) as [<-|_]; [discriminate Hd | reflexivity].
Qed.

Lemma splitStrFrom_digits_end (b : string) :
  digitsOnly b = true -> splitStrFrom "-W" 0 b = [b].
Proof.
  induction b as [|c b IH]; [reflexivity|].
  cbn [digitsOnly]. intros Hd. apply andb_prop in Hd as [Hc Hb].
  cbn [splitStrFrom]. rewrite (prefix_dash_digit c b Hc), (IH Hb). reflexivity.
Qed.

Lemma splitStrFrom_digits (a b : string) :
  digitsOnly a = true ->
  splitStrFrom "-W" 0 (a ++ "-W" ++ b) = a :: splitStrFrom "-W" 0 b.
Proof.
  induction a as [|c a IH].
  - intros _. destruct b; reflexivity.
  - cbn [digitsOnly]. intros Hd. apply andb_prop in Hd as [Hc Ha].
    change (String c a ++ "-W" ++ b) with (String c (a ++ "-W" ++ b)).
    cbn [splitStrFrom]. rewrite (prefix_dash_digit c _ Hc), (IH Ha). reflexivity.
Qed.

Lemma splitStr_weekString (y w : Z) :
  0 <= y <= 9999 -> 0 <= w <= 99 ->
  splitStr "-W" (weekString y w) = [fourDigits y; twoDigits w].
Proof.
  intros Hy Hw. unfold splitStr, weekString.
  rewrite splitStrFrom_digits by now apply digitsOnly_fourDigits.
  rewrite splitStrFrom_digits_end by now apply digitsOnly_twoDigits. reflexivity.
Qed.

(** ** The Monday a week string stands for *)

Lemma mondayOf_weekday (j : Z) :
  mondayOf j = j - weekdayOf j + (if weekdayOf j =? 0 then -6 else 1).
Proof.
  unfold mondayOf, thursdayOf, isoWeekIndex, weekdayOf.
  destruct (Z.eqb_spec ((j + 4) mod 7) 0); div_lia.
Qed.

Lemma fullYear_late (y : Z) : 100 <= y -> fullYear y = y.
Proof.
  intros Hy. unfold fullYear.
  replace (y <=? 99) with false by (symmetry; apply Z.leb_gt; lia).
  now rewrite andb_false_r.
Qed.

Lemma weekAnchor_range (y w : Z) :
  1000 <= y <= 9999 -> 1 <= w <= 53 -> -354285 <= weekAnchor y w <= 2932896.
Proof.
  intros Hy Hw. unfold weekAnchor. rewrite januaryFirst_formula. div_lia.
Qed.

Section WeekStart.
Context `{Host}.
Hypothesis Htz : plausibleOffset.

Lemma getDay_midnight (k : Z) : getDay (DateOf (k * msPerDay - tzOffset)) = Some (weekdayOf k).
Proof.
  unfold getDay, weekdayOf. cbn [timeValue fmap option_fmap option_map].
  unfold compose, WeekDay. now rewrite Day_midnight.
Qed.

(** Setting the day of the month of a local midnight moves it by whole
    days. *)
Lemma setDate_midnight (k dt : Z) :
  representableDay k ->
  let '(y, m, d) := civilFromDays k in
  representableDay (k + (dt - d)) ->
  setDate (DateOf (k * msPerDay - tzOffset)) (Some dt)
  = Some ((k + (dt - d)) * msPerDay - tzOffset).
Proof.
  intros Hk.
  pose proof (civilFromDays_bounds k) as Hb.
  pose proof (daysFromCivil_civilFromDays k) as Hrt.
  unfold setDate. cbn [timeValue mbind option_bind].
  unfold YearFromTime, MonthFromTime, TimeWithinDay.
  rewrite (Day_midnight k).
  destruct (civilFromDays k) as [[y m] d]. intros Hk'.
  rewrite (MakeDay_civil y m d dt) by lia. rewrite Hrt.
  replace (LocalTime (k * msPerDay - tzOffset)) with (k * msPerDay)
    by (unfold LocalTime; lia).
  replace ((k * msPerDay) mod msPerDay) with 0
    by (symmetry; apply Z.mod_mul; unfold msPerDay; lia).
  replace ((k + (dt - d)) * msPerDay + 0 - tzOffset)
    with ((k + (dt - d)) * msPerDay - tzOffset) by lia.
  unfold newDate. now rewrite (TimeClip_midnight Htz _ Hk').
Qed.

(** [getDateFromISOWeek] of a well-formed week string: the local midnight
    of the Monday on or before the first of January plus [w - 1] weeks. *)
Lemma getDateFromISOWeek_weekString (y w : Z) :
  1000 <= y <= 9999 -> 1 <= w <= 53 ->
  getDateFromISOWeek (weekString y w)
  = Some (DateOf (mondayOf (weekAnchor y w) * msPerDay - tzOffset)).
Proof.
  intros Hy Hw. unfold getDateFromISOWeek.
  replace (String.eqb (weekString y w) "") with false by reflexivity.
  rewrite (splitStr_weekString y w) by lia.
  cbn [List.nth]. rewrite (toNumber_fourDigits y), (toNumber_twoDigits w) by lia.
  pose proof (weekAnchor_range y w Hy Hw) as Hr.
  assert (Hj : MakeDay (fullYear y) 0 (1 + (w - 1) * 7) = weekAnchor y w).
  { rewrite (fullYear_late y) by lia. unfold weekAnchor.
    pose proof (MakeDay_civil y 1 1 (1 + (w - 1) * 7) ltac:(lia)) as HM.
    change (1 - 1) with 0 in HM. rewrite HM. lia. }
  rewrite (newDateLocal_midnight Htz), Hj by (rewrite Hj; unfold representableDay; lia).
  set (j := weekAnchor y w) in *.
  rewrite (getDay_midnight j).
  pose proof (local_fields j) as Hf.
  pose proof (setDate_midnight j) as Hset.
  destruct (civilFromDays j) as [[y' m'] d']. destruct Hf as (_ & _ & ->).
  cbn [mbind option_bind].
  pose proof (mondayOf_weekday j) as Hm.
  assert (Hw7 : 0 <= weekdayOf j < 7) by (unfold weekdayOf; apply Z.mod_pos_bound; lia).
  rewrite (Hset (d' - weekdayOf j + (if weekdayOf j =? 0 then -6 else 1)))
    by (unfold representableDay; destruct (weekdayOf j =? 0); lia).
  replace (j + (d' - weekdayOf j + (if weekdayOf j =? 0 then -6 else 1) - d'))
    with (mondayOf j) by (rewrite Hm; lia).
  unfold newDate. rewrite (TimeClip_midnight Htz); [reflexivity|].
  unfold representableDay. rewrite Hm. destruct (weekdayOf j =? 0); lia.
Qed.

End WeekStart.

(** ** Week numbers and week strings: the statements *)

(** X1. [getWeekNumber] returns the ISO 8601 week number of the local
    day of a Date (from 3 January 1900 to 28 December 9999): a number
    from 1 to 53, the
    Thursday of the date's week (Monday to Sunday) being the Thursday of
    that rank in its calendar year, in the [w]-th run of seven days from
    the first of January. *)
Theorem getWeekNumber_iso `{Host} (t : Z) :
  chartDay (Day (LocalTime t)) ->
  exists w thursday : Z,
    getWeekNumber (DateOf t) = Some w
    /\ weekdayOf thursday = 4
    /\ thursday - 3 <= Day (LocalTime t) <= thursday + 3
    /\ 1 <= w <= 53
    /\ daysFromCivil (calendarYear thursday) 1 1 + 7 * (w - 1) <= thursday
       < daysFromCivil (calendarYear thursday) 1 1 + 7 * w.
Proof.
  intros Hk. exists (isoWeekNumber (Day (LocalTime t))), (thursdayOf (Day (LocalTime t))).
  split; [now apply getWeekNumber_date|].
  split; [unfold weekdayOf, thursdayOf, isoWeekIndex; div_lia|].
  split; [pose proof (thursdayOf_near (Day (LocalTime t))); lia|].
  exact (isoWeekNumber_spec (Day (LocalTime t))).
Qed.

Lemma getWeekNumber_iso_witness :
  exists w thursday : Z,
    getWeekNumber (H := casaHost) (DateOf 1709725500000) = Some w
    /\ weekdayOf thursday = 4
    /\ thursday - 3 <= Day (LocalTime (H := casaHost) 1709725500000) <= thursday + 3
    /\ 1 <= w <= 53
    /\ daysFromCivil (calendarYear thursday) 1 1 + 7 * (w - 1) <= thursday
       < daysFromCivil (calendarYear thursday) 1 1 + 7 * w.
Proof.
  apply (getWeekNumber_iso (H := casaHost) 1709725500000).
  unfold chartDay. vm_compute. split; discriminate.
Defined.

Section BucketFacts.
Context `{Host}.

Lemma formatDateForChart_date (v : Prim) (t : Z) :
  parseFrenchDate v = Some (DateOf t) -> chartDay (Day (LocalTime t)) ->
  formatDateForChart v
  = weekString (calendarYear (Day (LocalTime t))) (isoWeekNumber (Day (LocalTime t))).
Proof.
  intros Hp Hk. unfold formatDateForChart.
  rewrite Hp, (getWeekNumber_date t Hk), (getFullYear_date t).
  cbn [numToString]. unfold weekString.
  pose proof (calendarYear_chartDay _ Hk) as Hy.
  pose proof (isoWeekNumber_spec (Day (LocalTime t))) as (Hw & _).
  rewrite Z_to_string_fourDigits, padStart2_twoDigits by lia.
  reflexivity.
Qed.

End BucketFacts.

(** X2. The bucket [formatDateForChart] returns is "Unknown" for a value
    that does not parse, and for a date from 3 January 1900 to 28 December
    9999 a string of the form YYYY-Www, eight characters long, made of the
    date's own calendar year and a week number from 1 to 53: the form a
    week input takes. *)
Theorem formatDateForChart_shape `{Host} (v : Prim) :
  (parseFrenchDate v = None -> formatDateForChart v = "Unknown")
  /\ (forall t, parseFrenchDate v = Some (DateOf t) -> chartDay (Day (LocalTime t)) ->
      exists y w : Z,
        formatDateForChart v = weekString y w
        /\ y = calendarYear (Day (LocalTime t)) /\ 1900 <= y <= 9999 /\ 1 <= w <= 53
        /\ String.length (formatDateForChart v) = 8%nat).
Proof.
  split.
  - intros Hp. unfold formatDateForChart. now rewrite Hp.
  - intros t Hp Hk.
    exists (calendarYear (Day (LocalTime t))), (isoWeekNumber (Day (LocalTime t))).
    rewrite (formatDateForChart_date v t Hp Hk).
    split; [reflexivity|]. split; [reflexivity|].
    split; [now apply calendarYear_chartDay|].
    split; [apply isoWeekNumber_spec | reflexivity].
Qed.

Lemma formatDateForChart_shape_witness :
  exists y w : Z,
    formatDateForChart (H := casaHost) (PNum 45357) = weekString y w
    /\ y = calendarYear (Day (LocalTime (H := casaHost) 1709679600000))
    /\ 1900 <= y <= 9999 /\ 1 <= w <= 53
    /\ String.length (formatDateForChart (H := casaHost) (PNum 45357)) = 8%nat.
Proof.
  apply (proj2 (formatDateForChart_shape (H := casaHost) (PNum 45357)) 1709679600000).
  - vm_compute. reflexivity.
  - unfold chartDay. vm_compute. split; discriminate.
Defined.

(** X3. For a week string YYYY-Www (year 1000 to 9999, week 1 to 53)
    [getDateFromISOWeek] returns the local midnight of a Monday: the Monday
    on or before the day that lies [ww - 1] weeks after the first of
    January of that year. *)
Theorem getDateFromISOWeek_monday `{Host} (y w : Z) :
  plausibleOffset -> 1000 <= y <= 9999 -> 1 <= w <= 53 ->
  exists k : Z,
    getDateFromISOWeek (weekString y w) = Some (DateOf (k * msPerDay - tzOffset))
    /\ getDay (DateOf (k * msPerDay - tzOffset)) = Some 1
    /\ daysFromCivil y 1 1 + 7 * (w - 1) - 6 <= k <= daysFromCivil y 1 1 + 7 * (w - 1).
Proof.
  intros Htz Hy Hw. exists (mondayOf (weekAnchor y w)).
  split; [now apply getDateFromISOWeek_weekString|].
  split.
  - rewrite getDay_midnight. f_equal.
    unfold weekdayOf, mondayOf, thursdayOf, isoWeekIndex. div_lia.
  - unfold mondayOf, thursdayOf, isoWeekIndex, weekAnchor. div_lia.
Qed.

Lemma getDateFromISOWeek_monday_witness :
  exists k : Z,
    getDateFromISOWeek (H := casaHost) "2021-W01" = Some (DateOf (k * msPerDay - 3600000))
    /\ getDay (H := casaHost) (DateOf (k * msPerDay - 3600000)) = Some 1
    /\ daysFromCivil 2021 1 1 + 7 * (1 - 1) - 6 <= k <= daysFromCivil 2021 1 1 + 7 * (1 - 1).
Proof.
  apply (getDateFromISOWeek_monday (H := casaHost) 2021 1).
  - unfold plausibleOffset. vm_compute. discriminate.
  - lia.
  - lia.
Defined.

Section RoundTrip.
Context `{Host}.
Hypothesis Htz : plausibleOffset.

Lemma thursdayOf_mondayOf (j : Z) : thursdayOf (mondayOf j) = thursdayOf j.
Proof. unfold mondayOf, thursdayOf, isoWeekIndex. div_lia. Qed.

Lemma isoWeekNumber_mondayOf (j : Z) : isoWeekNumber (mondayOf j) = isoWeekNumber j.
Proof. unfold isoWeekNumber, isoWeekYear. now rewrite thursdayOf_mondayOf. Qed.

(** The week number of the anchor's week, by the weekday of the first of
    January. *)
Lemma isoWeekNumber_weekAnchor (y w : Z) :
  let wd := weekdayOf (daysFromCivil y 1 1) in
  (1 <= wd <= 4 -> 1 <= w <= 52 -> isoWeekNumber (weekAnchor y w) = w)
  /\ (wd = 0 \/ 5 <= wd -> 2 <= w <= 53 -> isoWeekNumber (weekAnchor y w) = w - 1).
Proof.
  cbv zeta.
  pose proof (januaryFirst_step y) as Hs.
  assert (Hyear : forall t, daysFromCivil y 1 1 <= t <= daysFromCivil y 1 1 + 364 ->
                            calendarYear t = y)
    by (intros t Ht; apply calendarYear_unique; lia).
  unfold isoWeekNumber, isoWeekYear.
  split; intros Hwd Hw.
  - rewrite (Hyear (thursdayOf (weekAnchor y w)))
      by (unfold thursdayOf, isoWeekIndex, weekAnchor, weekdayOf in *; div_lia).
    unfold ceilDiv, thursdayOf, isoWeekIndex, weekAnchor, weekdayOf in *. div_lia.
  - rewrite (Hyear (thursdayOf (weekAnchor y w)))
      by (unfold thursdayOf, isoWeekIndex, weekAnchor, weekdayOf in *; div_lia).
    unfold ceilDiv, thursdayOf, isoWeekIndex, weekAnchor, weekdayOf in *. div_lia.
Qed.

Lemma mondayOf_weekAnchor_chartDay (y w : Z) :
  1901 <= y <= 9999 -> 1 <= w <= 53 -> chartDay (mondayOf (weekAnchor y w)).
Proof.
  intros Hy Hw. unfold chartDay, mondayOf, thursdayOf, isoWeekIndex, weekAnchor.
  rewrite januaryFirst_formula. div_lia.
Qed.

End RoundTrip.

(** X4. [getWeekNumber] of the Monday that [getDateFromISOWeek] gives for
    YYYY-Www (year 1901 to 9999) is [ww] when the first of January of that year falls on a
    Monday to Thursday (and [ww] is at most 52), and [ww - 1] when it falls
    on a Friday, Saturday or Sunday (and [ww] is at least 2): in such years
    the date stands one ISO week early. *)
Theorem week_number_of_week_start `{Host} (y w : Z) :
  plausibleOffset -> 1901 <= y <= 9999 -> 1 <= w <= 53 ->
  exists monday : JsDate,
    getDateFromISOWeek (weekString y w) = Some monday
    /\ (1 <= weekdayOf (daysFromCivil y 1 1) <= 4 -> w <= 52 ->
        getWeekNumber monday = Some w)
    /\ (weekdayOf (daysFromCivil y 1 1) = 0 \/ 5 <= weekdayOf (daysFromCivil y 1 1) ->
        2 <= w -> getWeekNumber monday = Some (w - 1)).
Proof.
  intros Htz Hy Hw.
  exists (DateOf (mondayOf (weekAnchor y w) * msPerDay - tzOffset)).
  split; [apply (getDateFromISOWeek_weekString Htz); lia|].
  pose proof (mondayOf_weekAnchor_chartDay y w Hy Hw) as Hc.
  rewrite (getWeekNumber_midnight _ Hc), isoWeekNumber_mondayOf.
  pose proof (isoWeekNumber_weekAnchor y w) as (Hgood & Hbad).
  split.
  - intros Hwd Hw52. f_equal. apply Hgood; lia.
  - intros Hwd Hw2. f_equal. apply Hbad; lia.
Qed.

Lemma week_number_of_week_start_witness :
  exists monday : JsDate,
    getDateFromISOWeek (H := casaHost) "2021-W10" = Some monday
    /\ getWeekNumber (H := casaHost) monday = Some 9.
Proof.
  destruct (week_number_of_week_start (H := casaHost) 2021 10) as (monday & Hd & _ & Hw).
  - unfold plausibleOffset. vm_compute. discriminate.
  - lia.
  - lia.
  - exists monday. split; [exact Hd|].
    apply Hw; [right; vm_compute; discriminate | lia].
Defined.

(** ** Week bounds in the filter *)

Section BoundFacts.
Context `{Host}.
Hypothesis Htz : plausibleOffset.

Lemma boundOf_weekString (y w : Z) :
  1000 <= y <= 9999 -> 1 <= w <= 53 ->
  boundOf (weekString y w) = Some (DateOf (mondayOf (weekAnchor y w) * msPerDay - tzOffset)).
Proof.
  intros Hy Hw. unfold boundOf.
  replace (String.eqb (weekString y w) "") with false by reflexivity.
  now apply getDateFromISOWeek_weekString.
Qed.

Lemma dateLt_midnights (a b : Z) :
  dateLt (DateOf (a * msPerDay - tzOffset)) (DateOf (b * msPerDay - tzOffset)) = (a <? b).
Proof.
  unfold dateLt. cbn [timeValue]. unfold msPerDay.
  destruct (Z.ltb_spec a b), (Z.ltb_spec (a * 86400000 - tzOffset) (b * 86400000 - tzOffset));
    reflexivity || lia.
Qed.

(** With only the order weeks filled in, an item is kept exactly when no
    order bound excludes it. *)
Lemma keeps_orderWeeks (first last : string) (item : Obj) :
  keeps (orderWeeks first last) item
  = negb (before (boundOf first) (parseFrenchDate (get item "Order_date")))
    && negb (after (boundOf last) (parseFrenchDate (get item "Order_date"))).
Proof.
  unfold keeps, orderWeeks. cbn [orderStartDate orderEndDate execStartDate execEndDate
    selectedJobTypes selectedStatuses selectedLocations selectedEquipment selectedPurposes
    selectedFailures].
  replace (boundOf "") with (@None JsDate) by reflexivity.
  destruct (before (boundOf first) _); [reflexivity|].
  destruct (after (boundOf last) _); reflexivity.
Qed.

End BoundFacts.

(** X5. With the two week inputs of the order date filled in and nothing
    else, [applyFilters] keeps an order whose order date parsed to a local
    midnight exactly when its day lies between the Monday of the first week
    string and the Monday of the last one, both included (the Mondays that
    [getDateFromISOWeek] gives, years 1000 to 9999): the other days of the
    last week are out. *)
Theorem order_weeks_range `{Host} (item : Obj) (k y1 w1 y2 w2 : Z) :
  plausibleOffset ->
  parseFrenchDate (get item "Order_date") = Some (DateOf (k * msPerDay - tzOffset)) ->
  1000 <= y1 <= 9999 -> 1 <= w1 <= 53 -> 1000 <= y2 <= 9999 -> 1 <= w2 <= 53 ->
  keeps (orderWeeks (weekString y1 w1) (weekString y2 w2)) item
  = (mondayOf (daysFromCivil y1 1 1 + 7 * (w1 - 1)) <=? k)
    && (k <=? mondayOf (daysFromCivil y2 1 1 + 7 * (w2 - 1))).
Proof.
  intros Htz Hp Hy1 Hw1 Hy2 Hw2.
  rewrite keeps_orderWeeks, Hp, !(boundOf_weekString Htz) by lia.
  unfold before, after, dateGt. rewrite !dateLt_midnights. unfold weekAnchor.
  rewrite Z.leb_antisym. f_equal. now rewrite Z.leb_antisym.
Qed.

Lemma order_weeks_range_witness :
  keeps (H := casaHost) (orderWeeks "2024-W09" "2024-W10")
    {[ "Order_date" := PStr "06/03/2024" ]} = false.
Proof.
  rewrite (order_weeks_range (H := casaHost) {[ "Order_date" := PStr "06/03/2024" ]}
             19788 2024 9 2024 10).
  - vm_compute. reflexivity.
  - unfold plausibleOffset. vm_compute. discriminate.
  - vm_compute. reflexivity.
  - lia.
  - lia.
  - lia.
  - lia.
Defined.

Lemma mondayOf_anchor_le (k j w : Z) :
  j + 7 * (w - 1) <= thursdayOf k ->
  mondayOf (j + 7 * (w - 1)) <= k
  /\ (weekdayOf k <> 1 -> mondayOf (j + 7 * (w - 1)) < k).
Proof. unfold weekdayOf, mondayOf, thursdayOf, isoWeekIndex. intros Hth. split; div_lia. Qed.

(** X6. The bucket of a date used as a bound (for a date from 3 January
    1900 to 28 December 9999 whose ISO week year is its calendar year): as the first week it keeps the order of
    that date; as the last week it drops that order unless the date is a
    Monday. *)
Theorem own_week_as_bound `{Host} (item : Obj) (k : Z) :
  plausibleOffset -> chartDay k ->
  parseFrenchDate (get item "Order_date") = Some (DateOf (k * msPerDay - tzOffset)) ->
  calendarYear k = isoWeekYear k ->
  keeps (orderWeeks (formatDateForChart (get item "Order_date")) "") item = true
  /\ (weekdayOf k <> 1 ->
      keeps (orderWeeks "" (formatDateForChart (get item "Order_date"))) item = false).
Proof.
  intros Htz Hk Hp Hyear.
  assert (Hday : Day (LocalTime (k * msPerDay - tzOffset)) = k) by apply Day_midnight.
  assert (Hfmt : formatDateForChart (get item "Order_date")
                 = weekString (calendarYear k) (isoWeekNumber k)).
  { rewrite (formatDateForChart_date _ _ Hp) by (now rewrite Hday). now rewrite Hday. }
  pose proof (calendarYear_chartDay k Hk) as Hy.
  pose proof (isoWeekNumber_spec k) as (Hw & Hth & _).
  rewrite <- Hyear in Hth.
  destruct (mondayOf_anchor_le k _ _ Hth) as (Hle & Hlt).
  rewrite Hfmt, !keeps_orderWeeks, Hp, (boundOf_weekString Htz) by lia.
  replace (boundOf "") with (@None JsDate) by reflexivity.
  unfold before, after, dateGt, weekAnchor. rewrite !dateLt_midnights.
  split.
  - rewrite andb_true_r. apply negb_true_iff, Z.ltb_ge. exact Hle.
  - intros Hwd. cbn [negb andb]. apply negb_false_iff, Z.ltb_lt. exact (Hlt Hwd).
Qed.

Lemma own_week_as_bound_witness :
  keeps (H := casaHost) (orderWeeks "2024-W10" "") {[ "Order_date" := PStr "06/03/2024" ]} = true
  /\ keeps (H := casaHost) (orderWeeks "" "2024-W10") {[ "Order_date" := PStr "06/03/2024" ]}
     = false.
Proof.
  destruct (own_week_as_bound (H := casaHost) {[ "Order_date" := PStr "06/03/2024" ]} 19788)
    as (Hfirst & Hlast).
  - unfold plausibleOffset. vm_compute. discriminate.
  - unfold chartDay. lia.
  - vm_compute. reflexivity.
  - vm_compute. reflexivity.
  - replace (formatDateForChart (H := casaHost)
               (get ({[ "Order_date" := PStr "06/03/2024" ]} : Obj) "Order_date"))
      with "2024-W10" in * by (vm_compute; reflexivity).
    split; [exact Hfirst | apply Hlast; vm_compute; discriminate].
Defined.

(** ** Day-month-year strings *)

Lemma splitOn_digits_end (a : string) :
  digitsOnly a = true -> splitOn isDateSep a = [a].
Proof.
  induction a as [|c a IH]; [reflexivity|].
  cbn [digitsOnly]. intros Hd. apply andb_prop in Hd as [Hc Ha].
  cbn [splitOn]. rewrite (isDigit_not_sep c Hc), (IH Ha). reflexivity.
Qed.

Lemma splitOn_digits (a b : string) (c : ascii) :
  digitsOnly a = true -> isDateSep c = true ->
  splitOn isDateSep (a ++ String c b) = a :: splitOn isDateSep b.
Proof.
  intros Ha Hc. induction a as [|x a IH].
  - change ("" ++ String c b) with (String c b). cbn [splitOn]. now rewrite Hc.
  - cbn [digitsOnly] in Ha. apply andb_prop in Ha as [Hx Ha].
    change (String x a ++ String c b) with (String x (a ++ String c b)).
    cbn [splitOn]. rewrite (isDigit_not_sep x Hx), (IH Ha). reflexivity.
Qed.

(** A string whose third character is not a digit does not look like an
    ISO date. *)
Lemma isoPrefix_third (a b c : ascii) (r : string) :
  isDigit c = false -> isoPrefix (String a (String b (String c r))) = false.
Proof.
  intros Hc. unfold isoPrefix.
  destruct r as [|y4 [|c5 [|m1 [|m2 [|c8 [|d1 [|d2 r]]]]]]]; try reflexivity;
    (destruct c5 as [[] [] [] [] [] [] [] []]; try reflexivity);
    (destruct c8 as [[] [] [] [] [] [] [] []]; try reflexivity).
  rewrite Hc. now rewrite !andb_false_r.
Qed.

Lemma isDateSep_not_digit (c : ascii) : isDateSep c = true -> isDigit c = false.
Proof.
  intros Hs. destruct (isDigit c) eqn:Hd; [|reflexivity].
  rewrite (isDigit_not_sep c Hd) in Hs. discriminate.
Qed.

Lemma append_nil_r (s : string) : s ++ "" = s.
Proof.
  induction s as [|x s IH]; [reflexivity|].
  change (String x s ++ "") with (String x (s ++ "")). now rewrite IH.
Qed.

Section FrenchStrings.
Context `{Host}.
Hypothesis Htz : plausibleOffset.

(** The parts of day, month and year digits joined by separators, with
    or without more text after a further separator. *)
Lemma splitOn_french (d m : Z) (ys : string) (c1 c2 : ascii) (tail : string) :
  0 <= d <= 99 -> 0 <= m <= 99 -> digitsOnly ys = true ->
  isDateSep c1 = true -> isDateSep c2 = true ->
  (tail = "" \/ exists c3 r, tail = String c3 r /\ isDateSep c3 = true) ->
  exists rest,
    splitOn isDateSep (twoDigits d ++ String c1 (twoDigits m ++ String c2 (ys ++ tail)))
    = twoDigits d :: twoDigits m :: ys :: rest.
Proof.
  intros Hd Hm Hy H1 H2 Htail.
  rewrite (splitOn_digits _ _ c1) by (try apply digitsOnly_twoDigits; assumption).
  rewrite (splitOn_digits _ _ c2) by (try apply digitsOnly_twoDigits; assumption).
  destruct Htail as [-> | (c3 & r & -> & H3)].
  - rewrite append_nil_r, (splitOn_digits_end ys Hy). now exists [].
  - rewrite (splitOn_digits ys r c3 Hy H3). now eexists.
Qed.

Lemma isoPrefix_french (d m : Z) (c1 : ascii) (r : string) :
  isDateSep c1 = true -> isoPrefix (twoDigits d ++ String c1 r) = false.
Proof.
  intros H1.
  change (isoPrefix (String (digitChar (d / 10)) (String (digitChar (d mod 10)) (String c1 r)))
          = false).
  apply isoPrefix_third. now apply isDateSep_not_digit.
Qed.

Lemma parseFrenchDate_digits (d m y : Z) (ys : string) (c1 c2 : ascii) (tail : string) :
  0 <= d <= 99 -> 0 <= m <= 99 -> digitsOnly ys = true -> parseInt ys = Some y ->
  0 <= y <= 9999 ->
  isDateSep c1 = true -> isDateSep c2 = true ->
  (tail = "" \/ exists c3 r, tail = String c3 r /\ isDateSep c3 = true) ->
  parseFrenchDate (PStr (twoDigits d ++ String c1 (twoDigits m ++ String c2 (ys ++ tail))))
  = Some (DateOf (MakeDay (fullYear y) (m - 1) d * msPerDay - tzOffset)).
Proof.
  intros Hd Hm Hys Hy Hyr H1 H2 Htail.
  destruct (splitOn_french d m ys c1 c2 tail Hd Hm Hys H1 H2 Htail) as (rest & Hsplit).
  apply (parseFrenchDate_french Htz _ (twoDigits d) (twoDigits m) ys rest d m y).
  - now apply isoPrefix_french.
  - exact Hsplit.
  - now apply parseInt_twoDigits.
  - now apply parseInt_twoDigits.
  - exact Hy.
  - unfold representableDay, fullYear, MakeDay, daysFromCivil.
    destruct ((0 <=? y) && (y <=? 99)); destruct (m - 1 <=? 2), (2 <? m - 1);
      destruct ((m - 1) mod 12 + 1 <=? 2), (2 <? (m - 1) mod 12 + 1); div_lia.
Qed.

End FrenchStrings.

Section DisplayStrings.
Context `{Host}.
Hypothesis Htz : plausibleOffset.

Lemma parseFrenchDate_display (d m y : Z) :
  0 <= d <= 99 -> 0 <= m <= 99 -> 0 <= y <= 9999 ->
  parseFrenchDate (PStr (displayDate (y, m, d)))
  = Some (DateOf (MakeDay (fullYear y) (m - 1) d * msPerDay - tzOffset)).
Proof.
  intros Hd Hm Hy.
  replace (displayDate (y, m, d))
    with (twoDigits d ++ String "/" (twoDigits m ++ String "/" (fourDigits y ++ "")))
    by (now rewrite append_nil_r).
  apply (parseFrenchDate_digits Htz); try assumption; try reflexivity.
  - now apply digitsOnly_fourDigits.
  - now apply parseInt_fourDigits.
  - now left.
Qed.

Lemma parseFrenchDate_short_year (d m yy : Z) :
  0 <= d <= 99 -> 0 <= m <= 99 -> 0 <= yy <= 99 ->
  parseFrenchDate (PStr (twoDigits d ++ "/" ++ twoDigits m ++ "/" ++ twoDigits yy))
  = Some (DateOf (MakeDay (1900 + yy) (m - 1) d * msPerDay - tzOffset)).
Proof.
  intros Hd Hm Hy.
  replace (twoDigits d ++ "/" ++ twoDigits m ++ "/" ++ twoDigits yy)
    with (twoDigits d ++ String "/" (twoDigits m ++ String "/" (twoDigits yy ++ "")))
    by (now rewrite append_nil_r).
  rewrite (parseFrenchDate_digits Htz d m yy); try assumption; try reflexivity.
  - unfold fullYear.
    replace ((0 <=? yy) && (yy <=? 99)) with true; [reflexivity|].
    symmetry. apply andb_true_iff. split; apply Z.leb_le; lia.
  - now apply digitsOnly_twoDigits.
  - now apply parseInt_twoDigits.
  - lia.
  - now left.
Qed.

End DisplayStrings.

(** X7. [parseFrenchDate] inverts [formatToFrenchDate]: for every local
    midnight from 31 December 1899 to 31 December 9999 the display string
    has ten characters and parses back to the same Date. *)
Theorem french_date_round_trip `{Host} (k : Z) :
  plausibleOffset -> -25568 <= k <= 2932896 ->
  exists s : string,
    formatToFrenchDate (Some (DateOf (k * msPerDay - tzOffset))) = Some s
    /\ String.length s = 10%nat
    /\ parseFrenchDate (PStr s) = Some (DateOf (k * msPerDay - tzOffset)).
Proof.
  intros Htz Hk. exists (displayDate (civilFromDays k)).
  split; [now apply formatToFrenchDate_midnight|].
  pose proof (civilFromDays_bounds k) as Hb.
  pose proof (civilFromDays_year_bounds k Hk) as Hy.
  pose proof (daysFromCivil_civilFromDays k) as Hrt.
  destruct (civilFromDays k) as [[y m] d].
  split; [reflexivity|].
  rewrite (parseFrenchDate_display Htz) by lia.
  rewrite (fullYear_modern y) by lia.
  rewrite (MakeDay_civil y m d d) by lia. rewrite Hrt.
  now replace (k + (d - d)) with k by lia.
Qed.

Lemma french_date_round_trip_witness :
  exists s : string,
    formatToFrenchDate (H := casaHost) (Some (DateOf (19788 * msPerDay - 3600000))) = Some s
    /\ String.length s = 10%nat
    /\ parseFrenchDate (H := casaHost) (PStr s) = Some (DateOf (19788 * msPerDay - 3600000)).
Proof.
  apply (french_date_round_trip (H := casaHost) 19788).
  - unfold plausibleOffset. vm_compute. discriminate.
  - lia.
Defined.



(** X9. A two-digit year is read as a year of the 1900s: DD/MM/YY parses
    to the local midnight of that day in the year 1900 + YY. *)
Theorem two_digit_year_is_1900s `{Host} (d m yy : Z) :
  plausibleOffset -> 1 <= d <= 31 -> 1 <= m <= 12 -> 0 <= yy <= 99 ->
  exists date : JsDate,
    parseFrenchDate (PStr (twoDigits d ++ "/" ++ twoDigits m ++ "/" ++ twoDigits yy))
    = Some date
    /\ timeValue date = Some (MakeDay (1900 + yy) (m - 1) d * msPerDay - tzOffset)
    /\ getFullYear date = Some (1900 + yy).
Proof.
  intros Htz Hd Hm Hy. eexists.
  split; [apply (parseFrenchDate_short_year Htz); lia|].
  split; [reflexivity|].
  rewrite getFullYear_date, Day_midnight. f_equal.
  apply calendarYear_unique.
  rewrite (MakeDay_civil (1900 + yy) m d d) by lia.
  replace (daysFromCivil (1900 + yy) m d + (d - d)) with (daysFromCivil (1900 + yy) m d) by lia.
  now apply daysFromCivil_in_year.
Qed.

Lemma two_digit_year_is_1900s_witness :
  exists date : JsDate,
    parseFrenchDate (H := casaHost) (PStr "05/03/24") = Some date
    /\ timeValue date = Some (MakeDay (1900 + 24) (3 - 1) 5 * msPerDay - 3600000)
    /\ getFullYear (H := casaHost) date = Some (1900 + 24).
Proof.
  apply (two_digit_year_is_1900s (H := casaHost) 5 3 24).
  - unfold plausibleOffset. vm_compute. discriminate.
  - lia.
  - lia.
  - lia.
Defined.

(** X10. The separators '/', '-' and white space are interchangeable in
    a day-month-year string, and whatever follows the year after one more
    separator (a time of day) is ignored. *)
Theorem separators_and_time_ignored `{Host} (d m y : Z) (c1 c2 c3 : ascii) (rest : string) :
  plausibleOffset -> 0 <= d <= 99 -> 0 <= m <= 99 -> 0 <= y <= 9999 ->
  isDateSep c1 = true -> isDateSep c2 = true -> isDateSep c3 = true ->
  parseFrenchDate (PStr (twoDigits d ++ String c1 (twoDigits m ++ String c2 (fourDigits y))))
  = parseFrenchDate (PStr (displayDate (y, m, d)))
  /\ parseFrenchDate
       (PStr (twoDigits d ++ String c1 (twoDigits m ++ String c2 (fourDigits y ++ String c3 rest))))
     = parseFrenchDate (PStr (displayDate (y, m, d))).
Proof.
  intros Htz Hd Hm Hy H1 H2 H3.
  rewrite (parseFrenchDate_display Htz) by lia.
  split.
  - rewrite <- (append_nil_r (fourDigits y)) at 1.
    apply (parseFrenchDate_digits Htz); try assumption.
    + now apply digitsOnly_fourDigits.
    + now apply parseInt_fourDigits.
    + now left.
  - apply (parseFrenchDate_digits Htz); try assumption.
    + now apply digitsOnly_fourDigits.
    + now apply parseInt_fourDigits.
    + right. now exists c3, rest.
Qed.

Lemma separators_and_time_ignored_witness :
  parseFrenchDate (H := casaHost) (PStr "06-03-2024")
  = parseFrenchDate (H := casaHost) (PStr "06/03/2024")
  /\ parseFrenchDate (H := casaHost) (PStr "06-03-2024 14:30")
     = parseFrenchDate (H := casaHost) (PStr "06/03/2024").
Proof.
  apply (separators_and_time_ignored (H := casaHost) 6 3 2024 "-" "-" " " "14:30").
  - unfold plausibleOffset. vm_compute. discriminate.
  - lia.
  - lia.
  - lia.
  - reflexivity.
  - reflexivity.
  - reflexivity.
Defined.

(** ** The copy without the ISO branch *)

Lemma isoPrefix_iso (y m d : Z) :
  0 <= y <= 9999 -> 0 <= m <= 99 -> 0 <= d <= 99 ->
  isoPrefix (fourDigits y ++ "-" ++ twoDigits m ++ "-" ++ twoDigits d) = true.
Proof.
  intros Hy Hm Hd.
  change (fourDigits y ++ "-" ++ twoDigits m ++ "-" ++ twoDigits d)
    with (String (digitChar (y / 1000)) (String (digitChar (y / 100 mod 10))
           (String (digitChar (y / 10 mod 10)) (String (digitChar (y mod 10))
             (String "-" (String (digitChar (m / 10)) (String (digitChar (m mod 10))
               (String "-" (String (digitChar (d / 10))
                 (String (digitChar (d mod 10)) EmptyString)))))))))).
  unfold isoPrefix. rewrite !isDigit_digitChar by div_lia. reflexivity.
Qed.

(** X11. The two copies of [parseFrenchDate] differ on an ISO date
    YYYY-MM-DD: the copy without the ISO branch reads it day first, as day
    YYYY of month MM of the year 1900 + DD (2024-03-05 becomes 14/09/1910),
    where the copy of the dashboard returns the Date the parser of the
    engine gives. *)
Theorem Standalone_reads_iso_day_first `{Host} (y m d : Z) :
  plausibleOffset -> 0 <= y <= 9999 -> 0 <= m <= 99 -> 0 <= d <= 99 ->
  Standalone.parseFrenchDate (PStr (fourDigits y ++ "-" ++ twoDigits m ++ "-" ++ twoDigits d))
  = Some (DateOf (MakeDay (1900 + d) (m - 1) y * msPerDay - tzOffset))
  /\ (forall t, DateParse (fourDigits y ++ "-" ++ twoDigits m ++ "-" ++ twoDigits d) = Some t ->
      Z.abs t <= 8640000000000000 ->
      parseFrenchDate (PStr (fourDigits y ++ "-" ++ twoDigits m ++ "-" ++ twoDigits d))
      = Some (DateOf t)).
Proof.
  intros Htz Hy Hm Hd. split.
  - unfold Standalone.parseFrenchDate.
    replace (truthy (PStr (fourDigits y ++ "-" ++ twoDigits m ++ "-" ++ twoDigits d)))
      with true by reflexivity.
    cbn [negb toStr]. unfold frenchParts.
    change (fourDigits y ++ "-" ++ twoDigits m ++ "-" ++ twoDigits d)
      with (fourDigits y ++ String "-" (twoDigits m ++ String "-" (twoDigits d))).
    rewrite (splitOn_digits (fourDigits y) _ "-" (digitsOnly_fourDigits y Hy) eq_refl).
    rewrite (splitOn_digits (twoDigits m) _ "-" (digitsOnly_twoDigits m Hm) eq_refl).
    rewrite (splitOn_digits_end (twoDigits d) (digitsOnly_twoDigits d Hd)).
    rewrite (parseInt_fourDigits y), !parseInt_twoDigits by lia.
    assert (Hfull : fullYear d = 1900 + d).
    { unfold fullYear. replace ((0 <=? d) && (d <=? 99)) with true; [reflexivity|].
      symmetry. apply andb_true_iff. split; apply Z.leb_le; lia. }
    rewrite (newDateLocal_midnight Htz), Hfull; [reflexivity|].
    rewrite Hfull. unfold representableDay, MakeDay, daysFromCivil.
    destruct (Z.leb_spec ((m - 1) mod 12 + 1) 2), (Z.ltb_spec 2 ((m - 1) mod 12 + 1)); div_lia.
  - intros t Ht Hclip. unfold parseFrenchDate.
    replace (truthy (PStr (fourDigits y ++ "-" ++ twoDigits m ++ "-" ++ twoDigits d)))
      with true by reflexivity.
    cbn [negb]. rewrite (isoPrefix_iso y m d Hy Hm Hd), Ht.
    unfold newDate, TimeClip.
    destruct (Z.leb_spec (Z.abs t) 8640000000000000); [reflexivity | lia].
Qed.

Lemma Standalone_reads_iso_day_first_witness :
  Standalone.parseFrenchDate (H := casaHost) (PStr "2024-03-05")
  = Some (DateOf (MakeDay 1905 2 2024 * msPerDay - 3600000))
  /\ formatToFrenchDate (H := casaHost)
       (Standalone.parseFrenchDate (H := casaHost) (PStr "2024-03-05"))
     = Some "14/09/1910".
Proof.
  destruct (Standalone_reads_iso_day_first (H := casaHost) 2024 3 5) as (Hp & _).
  - unfold plausibleOffset. vm_compute. discriminate.
  - lia.
  - lia.
  - lia.
  - split; [exact Hp|]. vm_compute. reflexivity.
Defined.

(** ** The KPI counters *)

(** The shape of a result of [processData]. *)
Lemma processData_ok `{Host} (arg : JsArg) (r : ProcessResult) :
  processData arg = Ok r ->
  exists (items : list Elem) (objs : list Obj),
    arg = ArgArray items /\ objectsOf items = objs /\ objs <> []
    /\ r = {| data := processItem <$> objs;
              kpis := {| total_wo := length (processItem <$> objs);
                         avg_processing_time := averageProcessingTime (processItem <$> objs);
                         closed_count := length (List.filter isClosed (processItem <$> objs));
                         waiting_count :=
                           length (List.filter (fun item => negb (isClosed item))
                                     (processItem <$> objs)) |} |}.
Proof.
  destruct arg as [v | o | items]; unfold processData.
  - destruct (negb (truthy v)); discriminate.
  - discriminate.
  - destruct items as [|e items]; [discriminate|].
    destruct (objectsOf (e :: items)) as [|o objs] eqn:Hobjs; [discriminate|].
    cbn [rethrow]. intros Hr. exists (e :: items), (o :: objs).
    split; [reflexivity|]. split; [exact Hobjs|]. split; [discriminate|]. congruence.
Qed.

(** X12. In a result of [processData], [total_wo] is the number of
    items, which is the number of objects in the array; [closed_count] and
    [waiting_count] add up to it; and with no closed order the average
    processing time is 0. *)
Theorem processData_kpi_counts `{Host} (arg : JsArg) (r : ProcessResult) :
  processData arg = Ok r ->
  (exists items, arg = ArgArray items /\ length (data r) = length (objectsOf items))
  /\ total_wo (kpis r) = length (data r)
  /\ (closed_count (kpis r) + waiting_count (kpis r))%nat = total_wo (kpis r)
  /\ (closed_count (kpis r) = 0%nat -> avg_processing_time (kpis r) = 0%Q).
Proof.
  intros Hr. destruct (processData_ok arg r Hr) as (items & objs & -> & Hobjs & Hne & ->).
  cbn [data kpis total_wo closed_count waiting_count avg_processing_time].
  split; [exists items; split; [reflexivity|]; now rewrite Hobjs, length_fmap|].
  split; [reflexivity|]. split; [apply List.filter_length|].
  intros Hclosed. unfold averageProcessingTime.
  destruct (List.filter isClosed (processItem <$> objs)); [reflexivity | discriminate].
Qed.

Lemma processData_kpi_counts_witness :
  exists r : ProcessResult,
    processData (H := utcHost) (ArgArray [EObj lateOrder; EPrim PNull; EObj undatedOrder]) = Ok r
    /\ total_wo (kpis r) = 2%nat
    /\ (closed_count (kpis r) + waiting_count (kpis r))%nat = total_wo (kpis r).
Proof.
  destruct (processData (H := utcHost) (ArgArray [EObj lateOrder; EPrim PNull; EObj undatedOrder]))
    as [r|e] eqn:Hr; [|discriminate Hr].
  exists r. split; [reflexivity|].
  destruct (processData_kpi_counts (H := utcHost) _ r Hr) as ((items & Hitems & Hlen) & Ht & Hc & _).
  split; [|exact Hc]. rewrite Ht, Hlen. injection Hitems as <-. reflexivity.
Defined.

(** ** The status of an imported order *)

Section ImportFacts.
Context `{Host}.

Lemma tagRows_elem (tag : string) (rows : list Obj) (row : Obj) :
  row ∈ tagRows tag rows -> get row "Jobstatus" = PStr tag.
Proof.
  unfold tagRows. intros Hin. apply list_elem_of_fmap in Hin as (row0 & -> & _).
  unfold get. now rewrite lookup_insert_eq.
Qed.

Lemma combineSheets_tagged (wb : Workbook) (row : Obj) :
  row ∈ combineSheets wb -> exists tag, sheetTag tag /\ get row "Jobstatus" = PStr tag.
Proof.
  unfold combineSheets, sheetTag.
  set (active := match Sheets wb !! "WO active" with
                 | Some rows => tagRows "active" rows
                 | None => []
                 end).
  assert (Hact : forall r, r ∈ active -> get r "Jobstatus" = PStr "active").
  { intros r Hr. subst active. destruct (Sheets wb !! "WO active") as [rows|].
    - now apply tagRows_elem in Hr.
    - inversion Hr. }
  set (combined := match Sheets wb !! "WO history" with
                   | Some rows => (active ++ tagRows "history" rows)%list
                   | None => active
                   end).
  assert (Hcomb : forall r, r ∈ combined ->
                    exists tag, (tag = "active" \/ tag = "history") /\ get r "Jobstatus" = PStr tag).
  { intros r Hr. subst combined. destruct (Sheets wb !! "WO history") as [rows|].
    - apply elem_of_app in Hr as [Hr | Hr].
      + exists "active". split; [now left | now apply Hact].
      + exists "history". split; [now right | now apply tagRows_elem in Hr].
    - exists "active". split; [now left | now apply Hact]. }
  clearbody combined. intros Hin.
  destruct combined as [|c cs]; [|now apply Hcomb].
  destruct (SheetNames wb) as [|firstSheet names]; [inversion Hin|].
  exists "active". split; [now left | now apply tagRows_elem in Hin].
Qed.

Lemma workOrder_Jobstatus (row : Obj) (index : nat) (name type loc : string)
    (od ed : option JsDate) (tag : string) :
  get row "Jobstatus" = PStr tag -> tag <> "" ->
  workOrder row index name type loc od ed !! "Jobstatus" = Some (PStr tag).
Proof.
  intros Htag Hne. unfold workOrder. lookup_inserts. rewrite Htag. unfold orElse. simpl.
  destruct (String.eqb_spec tag ""); [contradiction | reflexivity].
Qed.

End ImportFacts.

(** What [processData] makes of an item whose key is a string. *)
Lemma processItem_string_key (item : Obj) (key : string) :
  get item "MO_key" = PStr key -> key <> "" ->
  exists name label : string,
    processItem item
    = <["failure" := PStr label]> (<["EQ_name" := PStr name]> (attachStatus item)).
Proof.
  intros Hkey Hne.
  assert (Hk' : get (attachStatus item) "MO_key" = PStr key).
  { unfold get. rewrite attachStatus_lookup by discriminate. exact Hkey. }
  unfold processItem, enrichItem, equipmentNameAgain. cbv zeta.
  rewrite Hk'. simpl. destruct (String.eqb_spec key ""); [contradiction|]. simpl.
  destruct (includes (toUpperCase key) "STS"); [|destruct (includes (toUpperCase key) "SPR")];
    simpl; eexists; eexists; reflexivity.
Qed.

Lemma attachStatus_tag (item : Obj) (tag : string) :
  sheetTag tag -> get item "Jobstatus" = PStr tag ->
  attachStatus item
  = <["JobstatusDescription" := PStr tag]> (<["JobstatusObs" := PStr tag]>
      (<["JobstatusCode" := PStr tag]> item)).
Proof.
  intros [-> | ->] Htag; unfold attachStatus; rewrite Htag; reflexivity.
Qed.

(** The status fields of an order of the result. *)
Lemma processExcelWorkbook_status `{Host} (wb : Workbook) (r : ProcessResult) (item : Obj) :
  processExcelWorkbook (Some wb) = Ok r -> item ∈ data r ->
  exists tag : string,
    sheetTag tag
    /\ item !! "Jobstatus" = Some (PStr tag)
    /\ item !! "JobstatusCode" = Some (PStr tag)
    /\ item !! "JobstatusObs" = Some (PStr tag)
    /\ item !! "JobstatusDescription" = Some (PStr tag).
Proof.
  intros Hr Hin.
  destruct (processExcelWorkbook_ok wb r Hr) as (rs & Hmap & _ & Hdata).
  rewrite Hdata in Hin. apply list_elem_of_fmap in Hin as (item0 & -> & Hin0).
  apply list_elem_of_omap in Hin0 as (o & Ho & Hid). simpl in Hid. subst o.
  destruct (mapRows_elem _ _ _ _ Hmap Ho) as (row & j & Hrow & Hn).
  destruct (combineSheets_tagged wb row Hrow) as (tag & Htag & Hstatus).
  assert (Hne : tag <> "") by (destruct Htag as [-> | ->]; discriminate).
  destruct (normalizeRow_retained row j item0 Hn) as (key & Hkey & Hkne & Hcases).
  cbv zeta in Hcases.
  assert (Hs0 : item0 !! "Jobstatus" = Some (PStr tag))
    by (destruct Hcases as [(_ & ->) | (_ & _ & _ & ->)]; now apply workOrder_Jobstatus).
  assert (Hk0 : get item0 "MO_key" = PStr key).
  { unfold get. destruct Hcases as [(_ & ->) | (_ & _ & _ & ->)];
      now rewrite (workOrder_MO_key row j key Hkey). }
  destruct (processItem_string_key item0 key Hk0 Hkne) as (name & label & ->).
  rewrite (attachStatus_tag item0 tag Htag) by (unfold get; now rewrite Hs0).
  exists tag. split; [exact Htag|].
  repeat split; lookup_inserts; try reflexivity. exact Hs0.
Qed.

(** X13. The status of an imported order is the sheet it came from: in
    every item [processExcelWorkbook] returns, [Jobstatus],
    [JobstatusCode], [JobstatusObs] and [JobstatusDescription] are all
    "active" or all "history", whatever the row held as its status. *)
Theorem imported_status_is_sheet `{Host} (wb : Workbook) (r : ProcessResult) (item : Obj) :
  processExcelWorkbook (Some wb) = Ok r -> item ∈ data r ->
  exists tag : string,
    sheetTag tag
    /\ item !! "Jobstatus" = Some (PStr tag)
    /\ item !! "JobstatusCode" = Some (PStr tag)
    /\ item !! "JobstatusObs" = Some (PStr tag)
    /\ item !! "JobstatusDescription" = Some (PStr tag).
Proof. apply processExcelWorkbook_status. Qed.

Lemma imported_status_is_sheet_witness :
  exists (r : ProcessResult) (item : Obj) (tag : string),
    processExcelWorkbook (H := utcHost) (Some sampleWorkbook) = Ok r
    /\ item ∈ data r
    /\ sheetTag tag
    /\ item !! "Jobstatus" = Some (PStr tag)
    /\ item !! "JobstatusCode" = Some (PStr tag)
    /\ item !! "JobstatusObs" = Some (PStr tag)
    /\ item !! "JobstatusDescription" = Some (PStr tag).
Proof.
  destruct (processExcelWorkbook_single (H := utcHost) sampleWorkbook
              (<["Jobstatus" := PStr "active"]> {[ "MO_key" := PStr "spr050abc" ]}) _
              eq_refl
              (normalizeRow_spreader (H := utcHost) _ 0 "spr050abc"
                 (get_tagged "active" (PStr "spr050abc")) 50
                 eq_refl eq_refl (or_introl eq_refl)))
    as (r & Hr & Hdata).
  assert (Hin : processItem
                  (workOrder (H := utcHost)
                     (<["Jobstatus" := PStr "active"]> {[ "MO_key" := PStr "spr050abc" ]}) 0
                     (slice0 6 (toUpperCase "spr050abc")) "Spreader"
                     (locationOf (toUpperCase "spr050abc")) None None) ∈ data r)
    by (rewrite Hdata; apply list_elem_of_here).
  destruct (imported_status_is_sheet (H := utcHost) sampleWorkbook r _ Hr Hin)
    as (tag & Htag).
  exists r. eexists. exists tag. split; [exact Hr|]. split; [exact Hin | exact Htag].
Defined.

(** ** Keys that are not strings *)

Lemma upperOf_truthyNonString (v : Prim) :
  truthyNonString v = true -> truthy v = true /\ upperOf v = Throw notAFunction.
Proof. destruct v as [| |b|n|s]; try discriminate; intros Hv; split; try reflexivity; exact Hv. Qed.

Section BadKeys.
Context `{Host}.



End BadKeys.



(** X15. [processData] does not throw on such a key: the item stays in
    the result with [EQ_name], [failure], [JobstatusObs] and
    [JobstatusDescription] all "Unknown" (whatever its status and its
    description say), [JobstatusCode] its [Jobstatus], and every other
    field as it was. *)
Theorem non_string_key_labelled_unknown `{Host} (objs : list Obj) (item : Obj) :
  item ∈ objs -> truthyNonString (get item "MO_key") = true ->
  exists r : ProcessResult,
    processData (ArgArray (EObj <$> objs)) = Ok r
    /\ processItem item ∈ data r
    /\ processItem item !! "EQ_name" = Some (PStr "Unknown")
    /\ processItem item !! "failure" = Some (PStr "Unknown")
    /\ processItem item !! "JobstatusObs" = Some (PStr "Unknown")
    /\ processItem item !! "JobstatusDescription" = Some (PStr "Unknown")
    /\ processItem item !! "JobstatusCode" = Some (get item "Jobstatus")
    /\ (forall k, ~ In k enrichedFields -> processItem item !! k = item !! k).
Proof.
  intros Hin Hv.
  assert (Hne : objs <> []) by (intros ->; inversion Hin).
  destruct (processData_average objs Hne) as (r & Hr & _).
  destruct (processData_objects objs r Hr) as (_ & Hdata & _).
  exists r. split; [exact Hr|].
  split; [rewrite Hdata; apply list_elem_of_fmap; now exists item|].
  assert (Hk : get (attachStatus item) "MO_key" = get item "MO_key")
    by (unfold get; now rewrite attachStatus_lookup by discriminate).
  assert (Hj : get (attachStatus item) "Jobstatus" = get item "Jobstatus")
    by (unfold get; now rewrite attachStatus_lookup by discriminate).
  destruct (upperOf_truthyNonString _ Hv) as (Ht & Hup).
  assert (Hfall : processItem item = enrichFallback item).
  { unfold processItem, enrichItem, equipmentNameAgain. cbv zeta. now rewrite Hk, Ht, Hup. }
  split; [|split; [|split; [|split; [|split]]]].
  6: intros k; apply processItem_lookup.
  all: rewrite Hfall; unfold enrichFallback; cbv zeta; lookup_inserts; try reflexivity.
  now rewrite Hj.
Qed.

Lemma non_string_key_labelled_unknown_witness :
  exists r : ProcessResult,
    processData (H := utcHost)
      (ArgArray [EObj {[ "MO_key" := PNum 4711; "Jobstatus" := PNum 10;
                         "Description" := PStr "hoist motor noise" ]}]) = Ok r
    /\ exists item : Obj,
         data r = [item] /\ item !! "failure" = Some (PStr "Unknown")
         /\ item !! "JobstatusObs" = Some (PStr "Unknown")
         /\ item !! "JobstatusCode" = Some (PNum 10).
Proof.
  destruct (non_string_key_labelled_unknown (H := utcHost)
              [ ({[ "MO_key" := PNum 4711; "Jobstatus" := PNum 10;
                    "Description" := PStr "hoist motor noise" ]} : Obj) ]
              {[ "MO_key" := PNum 4711; "Jobstatus" := PNum 10;
                 "Description" := PStr "hoist motor noise" ]})
    as (r & Hr & _ & _ & Hf & Ho & _ & Hc & _).
  - apply list_elem_of_here.
  - reflexivity.
  - exists r. split; [exact Hr|]. eexists.
    split; [exact (proj1 (proj2 (processData_objects _ r Hr)))|].
    split; [exact Hf|]. split; [exact Ho | exact Hc].
Defined.

(** ** Spreaders without a number *)

(** X16. A row whose key has no "STS" and no digits right after an "SPR"
    is dropped by the import; so is every key with "SPS" only, which
    [getEquipmentType] calls a spreader. *)
Theorem spreader_without_number_dropped `{Host} (row : Obj) (index : nat) (key : string) :
  get row "MO_key" = PStr key ->
  includes (toUpperCase key) "STS" = false ->
  spreaderNumber (toUpperCase key) = None ->
  normalizeRow row index = Ok None.
Proof.
  intros Hkey Hsts Hnum. unfold normalizeRow, equipmentName. rewrite Hkey.
  destruct (truthy (PStr key)); [|reflexivity].
  cbn [upperOf mbind Result_bind]. rewrite Hsts, isValidSpreaderNumber_spec, Hnum.
  now destruct (includes (toUpperCase key) "SPR" || includes (toUpperCase key) "SPS").
Qed.

Lemma spreader_without_number_dropped_witness :
  normalizeRow (H := utcHost) {[ "MO_key" := PStr "SPS0042" ]} 0 = Ok None
  /\ normalizeRow (H := utcHost) {[ "MO_key" := PStr "SPR-050" ]} 1 = Ok None
  /\ getEquipmentType (PStr "SPS0042") = Ok "Spreader".
Proof.
  split; [|split; [|reflexivity]].
  - apply (spreader_without_number_dropped (H := utcHost) _ 0 "SPS0042");
      [apply get_singleton | reflexivity | reflexivity].
  - apply (spreader_without_number_dropped (H := utcHost) _ 1 "SPR-050");
      [apply get_singleton | reflexivity | reflexivity].
Defined.

(** ** Generated order keys *)

Lemma Z_to_string_inj (a b : Z) : Z_to_string a = Z_to_string b -> a = b.
Proof.
  unfold Z_to_string. intros Heq.
  assert (Hi : Some (Z.to_int a) = Some (Z.to_int b))
    by (rewrite <- !NilEmpty.isi; now rewrite Heq).
  injection Hi as Hi. rewrite <- (DecimalZ.of_to a), <- (DecimalZ.of_to b). now rewrite Hi.
Qed.

Lemma workOrder_WO_key `{Host} (row : Obj) (index : nat) (name type loc : string)
    (od ed : option JsDate) :
  truthy (get row "WO_key") = false -> truthy (get row "wo_key") = false ->
  workOrder row index name type loc od ed !! "WO_key"
  = Some (PStr ("WO" ++ Z_to_string (280000 + Z.of_nat index))).
Proof.
  intros H1 H2. unfold workOrder. cbv zeta. lookup_inserts. unfold orElse. now rewrite H1, H2.
Qed.

(** X17. Two retained rows that bring no order key of their own get
    distinct generated keys: "WO" followed by 280000 plus the index of the
    row. *)
Theorem generated_keys_distinct `{Host} (row1 row2 item1 item2 : Obj) (i j : nat) :
  truthy (get row1 "WO_key") = false -> truthy (get row1 "wo_key") = false ->
  truthy (get row2 "WO_key") = false -> truthy (get row2 "wo_key") = false ->
  normalizeRow row1 i = Ok (Some item1) -> normalizeRow row2 j = Ok (Some item2) ->
  i <> j ->
  item1 !! "WO_key" = Some (PStr ("WO" ++ Z_to_string (280000 + Z.of_nat i)))
  /\ item1 !! "WO_key" <> item2 !! "WO_key".
Proof.
  intros Ha1 Ha2 Hb1 Hb2 Hn1 Hn2 Hij.
  destruct (normalizeRow_retained row1 i item1 Hn1) as (k1 & _ & _ & Hc1).
  destruct (normalizeRow_retained row2 j item2 Hn2) as (k2 & _ & _ & Hc2).
  cbv zeta in Hc1, Hc2.
  assert (H1 : item1 !! "WO_key" = Some (PStr ("WO" ++ Z_to_string (280000 + Z.of_nat i))))
    by (destruct Hc1 as [(_ & ->) | (_ & _ & _ & ->)]; now apply workOrder_WO_key).
  assert (H2 : item2 !! "WO_key" = Some (PStr ("WO" ++ Z_to_string (280000 + Z.of_nat j))))
    by (destruct Hc2 as [(_ & ->) | (_ & _ & _ & ->)]; now apply workOrder_WO_key).
  split; [exact H1|]. rewrite H1, H2. intros [= Heq].
  apply Z_to_string_inj in Heq. lia.
Qed.

Lemma generated_keys_distinct_witness :
  exists item1 item2 : Obj,
    normalizeRow (H := utcHost) {[ "MO_key" := PStr "STS01" ]} 0 = Ok (Some item1)
    /\ normalizeRow (H := utcHost) {[ "MO_key" := PStr "STS01" ]} 1 = Ok (Some item2)
    /\ item1 !! "WO_key" = Some (PStr "WO280000")
    /\ item1 !! "WO_key" <> item2 !! "WO_key".
Proof.
  pose proof (normalizeRow_sts (H := utcHost) {[ "MO_key" := PStr "STS01" ]} 0 "STS01"
                (get_singleton _ _) eq_refl) as H0.
  pose proof (normalizeRow_sts (H := utcHost) {[ "MO_key" := PStr "STS01" ]} 1 "STS01"
                (get_singleton _ _) eq_refl) as H1.
  eexists. eexists. split; [exact H0|]. split; [exact H1|].
  apply (generated_keys_distinct (H := utcHost) {[ "MO_key" := PStr "STS01" ]}
           {[ "MO_key" := PStr "STS01" ]} _ _ 0 1); try reflexivity; try assumption.
  discriminate.
Defined.

(** ** Status codes *)

Lemma statusMap_entries (e : string * (string * string)) :
  In e statusMap ->
  getJobStatusFullName (PStr (fst (snd e))) = (PStr (fst (snd e)), PStr (snd (snd e))).
Proof.
  unfold statusMap. simpl.
  intros Hin. repeat (destruct Hin as [<- | Hin]; [reflexivity|]). contradiction.
Qed.

(** X18. The abbreviation [getJobStatusFullName] returns names the same
    status: looked up in its turn it gives the same abbreviation and
    description, for a known code, a known abbreviation and an unknown
    value alike. *)
Theorem getJobStatusFullName_canonical (code : Prim) :
  getJobStatusFullName (fst (getJobStatusFullName code)) = getJobStatusFullName code.
Proof.
  unfold getJobStatusFullName at 2 3.
  destruct (List.find (fun e => String.eqb (fst e) (toStr code)) statusMap)
    as [[k [obs desc]]|] eqn:Hkey.
  - apply List.find_some in Hkey as (Hin & _). exact (statusMap_entries _ Hin).
  - destruct code as [| |b|n|c]; try (cbn [fst]; unfold getJobStatusFullName; now rewrite Hkey).
    destruct (List.find (fun e => String.eqb (fst (snd e)) c) statusMap)
      as [[k [obs desc]]|] eqn:Hobs.
    + apply List.find_some in Hobs as (Hin & _). exact (statusMap_entries _ Hin).
    + cbn [fst]. unfold getJobStatusFullName. now rewrite Hkey, Hobs.
Qed.

(** ** Snag locations *)

(** X19. For a text with "SNAG" and without "FAULT #0",
    [determineSnagLocation] names the cylinders among 1 to 4 whose fault
    the text reports, in ascending order, with one exception: for the
    cylinders 1, 3 and 4 together it answers "Cylinder 13", the chain having
    no line for that combination; with no cylinder reported it answers the
    empty string. *)
Theorem determineSnagLocation_cylinders (fault : Prim) :
  truthy fault = true ->
  includes (toUpperCase (toStr fault)) "SNAG" = true ->
  includes (toUpperCase (toStr fault)) "FAULT #0" = false ->
  determineSnagLocation fault
  = let cylinders := reportedCylinders (toUpperCase (toStr fault)) in
    if bool_decide (cylinders = []) then ""
    else if bool_decide (cylinders = [1; 3; 4]) then "Cylinder 13"
    else cylinderLabel cylinders.
Proof.
  intros Ht Hsnag H0. unfold determineSnagLocation, reportedCylinders. cbv zeta.
  rewrite Ht, Hsnag, H0. cbn [negb List.filter].
  change ("FAULT #" ++ Z_to_string 1) with "FAULT #1".
  change ("FAULT #" ++ Z_to_string 2) with "FAULT #2".
  change ("FAULT #" ++ Z_to_string 3) with "FAULT #3".
  change ("FAULT #" ++ Z_to_string 4) with "FAULT #4".
  destruct (includes (toUpperCase (toStr fault)) "FAULT #1"),
    (includes (toUpperCase (toStr fault)) "FAULT #2"),
    (includes (toUpperCase (toStr fault)) "FAULT #3"),
    (includes (toUpperCase (toStr fault)) "FAULT #4"); reflexivity.
Qed.

Lemma determineSnagLocation_cylinders_witness :
  determineSnagLocation (PStr "Snag: fault #1, fault #3 and fault #4") = "Cylinder 13"
  /\ determineSnagLocation (PStr "snag fault #2 fault #4") = "Cylinder 24".
Proof.
  split.
  - rewrite (determineSnagLocation_cylinders (PStr "Snag: fault #1, fault #3 and fault #4"));
      reflexivity.
  - rewrite (determineSnagLocation_cylinders (PStr "snag fault #2 fault #4")); reflexivity.
Defined.

(** ** Status counts *)

Lemma filter_disjoint_length {A} (f g : A -> bool) (l : list A) :
  (forall x, f x = true -> g x = false) ->
  (length (List.filter f l) + length (List.filter g l) <= length l)%nat.
Proof.
  intros Hfg. induction l as [|x l IH]; [reflexivity|].
  cbn [List.filter]. destruct (f x) eqn:Hf.
  - rewrite (Hfg x Hf). cbn [length]. lia.
  - destruct (g x); cbn [length]; lia.
Qed.

Lemma filter_none {A} (f : A -> bool) (l : list A) :
  (forall x, x ∈ l -> f x = false) -> List.filter f l = [].
Proof.
  induction l as [|x l IH]; intros Hf; [reflexivity|].
  cbn [List.filter]. rewrite (Hf x) by left. apply IH. intros y Hy. apply Hf. now right.
Qed.

(** What [processExcelWorkbook] returns is what [processData] returns
    for the retained rows. *)
Lemma processExcelWorkbook_processData `{Host} (wb : Workbook) (r : ProcessResult) :
  processExcelWorkbook (Some wb) = Ok r ->
  exists objs : list Obj, processData (ArgArray (EObj <$> objs)) = Ok r.
Proof.
  unfold processExcelWorkbook.
  destruct (combineSheets wb) as [|row rows] eqn:Hc; [discriminate|].
  destruct (mapRows (row :: rows) 0) as [rs|e] eqn:Hmap; cbn [mbind Result_bind rethrow];
    [|discriminate].
  destruct (omap id rs) as [|o objs] eqn:Ho; [discriminate|].
  destruct (processData (ArgArray (EObj <$> o :: objs))) as [r'|e] eqn:Hp;
    cbn [rethrow]; [|discriminate].
  intros [= <-]. now exists (o :: objs).
Qed.

(** X20. In [getStatusCounts] the finished and the waiting orders
    together never exceed the total; and on the data of an imported
    workbook both counts are 0, the status abbreviations being "active" and
    "history" there. *)
Theorem getStatusCounts_bounds `{Host} :
  (forall data : list Obj,
     (finished (getStatusCounts data) + waiting (getStatusCounts data)
      <= total (getStatusCounts data))%nat)
  /\ (forall (wb : Workbook) (r : ProcessResult),
        processExcelWorkbook (Some wb) = Ok r ->
        getStatusCounts (data r)
        = {| finished := 0; waiting := 0; total := total_wo (kpis r) |}).
Proof.
  split.
  - intros data. unfold getStatusCounts. cbn [finished waiting total].
    apply filter_disjoint_length. intros item. unfold selectionIncludes.
    destruct (get item "JobstatusObs") as [| |b|n|s]; try discriminate.
    cbn [existsb]. rewrite !orb_false_r. intros Hfin. apply String.eqb_eq in Hfin. now subst s.
  - intros wb r Hr. unfold getStatusCounts.
    assert (Hobs : forall item, item ∈ data r ->
                     get item "JobstatusObs" = PStr "active"
                     \/ get item "JobstatusObs" = PStr "history").
    { intros item Hin.
      destruct (processExcelWorkbook_status wb r item Hr Hin) as (tag & Htag & _ & _ & Ho & _).
      unfold get. rewrite Ho. destruct Htag as [-> | ->]; [now left | now right]. }
    rewrite !filter_none by (intros item Hin; destruct (Hobs item Hin) as [-> | ->]; reflexivity).
    destruct (processExcelWorkbook_processData wb r Hr) as (objs & Hp).
    destruct (processData_ok _ r Hp) as (items & objs' & _ & _ & _ & ->). reflexivity.
Qed.

Lemma getStatusCounts_bounds_witness :
  exists r : ProcessResult,
    processExcelWorkbook (H := utcHost) (Some sampleWorkbook) = Ok r
    /\ getStatusCounts (data r) = {| finished := 0; waiting := 0; total := total_wo (kpis r) |}.
Proof.
  destruct (processExcelWorkbook_single (H := utcHost) sampleWorkbook
              (<["Jobstatus" := PStr "active"]> {[ "MO_key" := PStr "spr050abc" ]}) _
              eq_refl
              (normalizeRow_spreader (H := utcHost) _ 0 "spr050abc"
                 (get_tagged "active" (PStr "spr050abc")) 50
                 eq_refl eq_refl (or_introl eq_refl)))
    as (r & Hr & _).
  exists r. split; [exact Hr|].
  exact (proj2 (getStatusCounts_bounds (H := utcHost)) sampleWorkbook r Hr).
Defined.

(** ** Tables of counters *)

Lemma countOf_succ (n : nat) :
  countOf (S n) = Some (Count (match countOf n with Some (Count c) => c + 1 | _ => 1 end)).
Proof. destruct n as [|n]; [reflexivity|]. unfold countOf. f_equal. f_equal. lia. Qed.

(** One more occurrence of a key that is not inherited. *)
Lemma tally_same (o : gmap string Cell) (key : Prim) (n : nat) :
  inherited (toStr key) = false -> o !! toStr key = countOf n ->
  tally o key !! toStr key = countOf (S n).
Proof.
  intros Hk Ho. unfold tally. cbv zeta. rewrite Ho, countOf_succ.
  destruct n as [|n]; cbn [countOf].
  - replace (String.eqb (toStr key) "__proto__") with false.
    + rewrite Hk. now rewrite lookup_insert_eq.
    + symmetry. apply String.eqb_neq. intros Heq. rewrite Heq in Hk. discriminate.
  - now rewrite lookup_insert_eq.
Qed.

(** Counting under another key leaves the entry alone. *)
Lemma tally_other (o : gmap string Cell) (key : Prim) (k : string) :
  toStr key <> k -> tally o key !! k = o !! k.
Proof.
  intros Hne. unfold tally. cbv zeta.
  destruct (o !! toStr key) as [[n|]|].
  - now rewrite lookup_insert_ne.
  - reflexivity.
  - destruct (String.eqb (toStr key) "__proto__"); [reflexivity|].
    destruct (inherited (toStr key)); now rewrite lookup_insert_ne.
Qed.

(** A table built by counting the keys of the items one after another. *)
Lemma tally_fold (key : Obj -> Prim) (k : string) (data : list Obj) :
  inherited k = false ->
  forall (o : gmap string Cell) (n : nat),
    o !! k = countOf n ->
    fold_left (fun acc item => tally acc (key item)) data o !! k
    = countOf (n + occurrences key k data).
Proof.
  intros Hk. induction data as [|item data IH]; intros o n Ho.
  - unfold occurrences. cbn [fold_left List.filter length]. now rewrite Nat.add_0_r.
  - cbn [fold_left]. unfold occurrences. cbn [List.filter].
    destruct (String.eqb_spec (toStr (key item)) k) as [Heq | Hne].
    + rewrite (IH (tally o (key item)) (S n)).
      * unfold occurrences. cbn [length]. f_equal. lia.
      * rewrite <- Heq. apply tally_same; rewrite Heq; assumption.
    + rewrite (IH (tally o (key item)) n); [reflexivity|].
      now rewrite tally_other.
Qed.

Lemma tally_fold_absent (key : Obj -> Prim) (k : string) (data : list Obj) :
  (forall item, item ∈ data -> toStr (key item) <> k) ->
  forall o : gmap string Cell,
    fold_left (fun acc item => tally acc (key item)) data o !! k = o !! k.
Proof.
  induction data as [|item data IH]; intros Hne o; [reflexivity|].
  cbn [fold_left]. rewrite IH by (intros i Hi; apply Hne; now right).
  apply tally_other, Hne. left.
Qed.

Lemma occurrences_absent (key : Obj -> Prim) (k : string) (data : list Obj) :
  (forall item, item ∈ data -> toStr (key item) <> k) -> occurrences key k data = 0%nat.
Proof.
  intros Hne. unfold occurrences. rewrite filter_none; [reflexivity|].
  intros item Hin. apply String.eqb_neq. now apply Hne.
Qed.

(** ** The distributions of [prepareChartData] *)

Section ChartFacts.
Context `{Host}.

Lemma fold_chartStep_fields (data : list Obj) :
  forall acc : ChartData,
    eq_type_dist (fold_left chartStep data acc)
    = fold_left (fun o item => tally o (typeKey item)) data (eq_type_dist acc)
    /\ wo_per_location (fold_left chartStep data acc)
       = fold_left (fun o item => tally o (locationKey item)) data (wo_per_location acc)
    /\ wo_per_cause (fold_left chartStep data acc)
       = fold_left (fun o item => tally o (causeKey item)) data (wo_per_cause acc)
    /\ status_dist (fold_left chartStep data acc)
       = fold_left (fun o item => tally o (statusKey item)) data (status_dist acc).
Proof.
  induction data as [|item data IH]; intros acc; [now repeat split|].
  cbn [fold_left]. destruct (IH (chartStep acc item)) as (-> & -> & -> & ->).
  now repeat split.
Qed.

Lemma fold_chartStep_dates (data : list Obj) :
  forall acc : ChartData,
    wo_created (fold_left chartStep data acc)
    = fold_left (fun o item => tally o (bucketKey "Order_date" item))
        (dated "Order_date" data) (wo_created acc)
    /\ wo_closed (fold_left chartStep data acc)
       = fold_left (fun o item => tally o (bucketKey "Jobexec_dt" item))
           (dated "Jobexec_dt" data) (wo_closed acc).
Proof.
  induction data as [|item data IH]; intros acc; [now split|].
  cbn [fold_left]. destruct (IH (chartStep acc item)) as (-> & ->).
  unfold dated. cbn [List.filter chartStep wo_created wo_closed].
  split.
  - now destruct (truthy (get item "Order_date")).
  - now destruct (truthy (get item "Jobexec_dt")).
Qed.

End ChartFacts.

(** X21. In the four distributions by field of [prepareChartData] the
    entry under a key (any but a name that objects inherit) is the number
    of items with that key, and there is no entry when there is none. *)
Theorem prepareChartData_counts `{Host} (data : list Obj) (k : string) :
  inherited k = false ->
  eq_type_dist (prepareChartData data) !! k = countOf (occurrences typeKey k data)
  /\ wo_per_location (prepareChartData data) !! k = countOf (occurrences locationKey k data)
  /\ wo_per_cause (prepareChartData data) !! k = countOf (occurrences causeKey k data)
  /\ status_dist (prepareChartData data) !! k = countOf (occurrences statusKey k data).
Proof.
  intros Hk. unfold prepareChartData.
  destruct (fold_chartStep_fields data
              {| wo_created := ∅; wo_closed := ∅; eq_type_dist := ∅; wo_per_location := ∅;
                 wo_per_cause := ∅; status_dist := ∅ |}) as (-> & -> & -> & ->).
  cbn [eq_type_dist wo_per_location wo_per_cause status_dist].
  repeat split; apply (tally_fold _ k data Hk ∅ 0); apply lookup_empty.
Qed.

Lemma prepareChartData_counts_witness :
  eq_type_dist
    (prepareChartData (H := utcHost)
       [ {[ "EQ_type" := PStr "STS Crane" ]}; {[ "EQ_type" := PStr "Spreader" ]};
         {[ "EQ_type" := PStr "STS Crane" ]}; {[ "EQ_type" := PStr "toString" ]} ])
  !! "STS Crane" = Some (Count 2).
Proof.
  destruct (prepareChartData_counts (H := utcHost)
              [ {[ "EQ_type" := PStr "STS Crane" ]}; {[ "EQ_type" := PStr "Spreader" ]};
                {[ "EQ_type" := PStr "STS Crane" ]}; {[ "EQ_type" := PStr "toString" ]} ]
              "STS Crane") as (Htype & _).
  - reflexivity.
  - rewrite Htype. reflexivity.
Defined.

(** ** The week distributions *)

Lemma includes_app (a p b : string) : includes (a ++ p ++ b) p = true.
Proof.
  assert (Hp : String.prefix p (p ++ b) = true).
  { induction p as [|c p IH]; [now destruct b|].
    change (String c p ++ b) with (String c (p ++ b)). cbn [String.prefix].
    destruct (ascii_dec c c); [exact IH | contradiction]. }
  induction a as [|c a IH].
  - change ("" ++ p ++ b) with (p ++ b). destruct (p ++ b); cbn [includes]; now rewrite Hp.
  - change (String c a ++ p ++ b) with (String c (a ++ p ++ b)). cbn [includes].
    rewrite IH. now destruct (String.prefix p (String c (a ++ p ++ b))).
Qed.

Lemma inherited_no_week (k : string) : inherited k = true -> includes k "-W" = false.
Proof.
  unfold inherited, inheritedNames. cbn [existsb]. intros Hk.
  repeat (apply orb_true_iff in Hk as [Hk | Hk];
          [apply String.eqb_eq in Hk; subst k; reflexivity|]).
  discriminate.
Qed.

Section BucketKeys.
Context `{Host}.

(** A bucket is "Unknown" or holds "-W". *)
Lemma formatDateForChart_cases (v : Prim) :
  (parseFrenchDate v = None /\ formatDateForChart v = "Unknown")
  \/ (parseFrenchDate v <> None /\ includes (formatDateForChart v) "-W" = true).
Proof.
  unfold formatDateForChart. destruct (parseFrenchDate v) as [date|].
  - right. split; [discriminate | apply includes_app].
  - left. now split.
Qed.

Lemma formatDateForChart_not_inherited (v : Prim) : inherited (formatDateForChart v) = false.
Proof.
  destruct (inherited (formatDateForChart v)) eqn:Hi; [|reflexivity].
  pose proof (inherited_no_week _ Hi) as Hw.
  destruct (formatDateForChart_cases v) as [(_ & Hu) | (_ & Hin)].
  - rewrite Hu in Hi. discriminate Hi.
  - rewrite Hin in Hw. discriminate Hw.
Qed.

Lemma bucket_fold (field : string) (k : string) (data : list Obj) :
  fold_left (fun o item => tally o (bucketKey field item)) data ∅ !! k
  = countOf (occurrences (bucketKey field) k data).
Proof.
  destruct (inherited k) eqn:Hk.
  - assert (Hne : forall item, item ∈ data -> toStr (bucketKey field item) <> k).
    { intros item _ Heq. unfold bucketKey in Heq. cbn [toStr] in Heq.
      rewrite <- Heq, formatDateForChart_not_inherited in Hk. discriminate. }
    rewrite (tally_fold_absent _ k data Hne), (occurrences_absent _ k data Hne).
    apply lookup_empty.
  - apply (tally_fold _ k data Hk ∅ 0). apply lookup_empty.
Qed.

Lemma unknown_bucket (v : Prim) :
  String.eqb (formatDateForChart v) "Unknown"
  = match parseFrenchDate v with
    | None => true
    | Some _ => false
    end.
Proof.
  destruct (formatDateForChart_cases v) as [(Hp & Hu) | (Hp & Hin)].
  - now rewrite Hp, Hu.
  - destruct (parseFrenchDate v) as [date|]; [|contradiction].
    destruct (String.eqb_spec (formatDateForChart v) "Unknown") as [Heq|_]; [|reflexivity].
    rewrite Heq in Hin. discriminate Hin.
Qed.

Lemma occurrences_unknown (field : string) (data : list Obj) :
  occurrences (bucketKey field) "Unknown" (dated field data)
  = length (List.filter (unreadable field) data).
Proof.
  unfold occurrences. f_equal.
  induction data as [|item data IH]; [reflexivity|].
  unfold dated in *. cbn [List.filter]. unfold unreadable at 1.
  destruct (truthy (get item field)); cbn [andb List.filter]; [|exact IH].
  unfold bucketKey at 1. cbn [toStr]. rewrite unknown_bucket.
  destruct (parseFrenchDate (get item field)); [exact IH | now rewrite IH].
Qed.

End BucketKeys.

(** X22. In the two distributions by week of [prepareChartData] the
    entry under a bucket is the number of items that carry a date value
    with that bucket; an item whose date value does not parse is counted
    under "Unknown", an item without a date value is not counted. *)
Theorem prepareChartData_weeks `{Host} (data : list Obj) (k : string) :
  wo_created (prepareChartData data) !! k
  = countOf (occurrences (bucketKey "Order_date") k (dated "Order_date" data))
  /\ wo_closed (prepareChartData data) !! k
     = countOf (occurrences (bucketKey "Jobexec_dt") k (dated "Jobexec_dt" data))
  /\ wo_created (prepareChartData data) !! "Unknown"
     = countOf (length (List.filter (unreadable "Order_date") data))
  /\ wo_closed (prepareChartData data) !! "Unknown"
     = countOf (length (List.filter (unreadable "Jobexec_dt") data)).
Proof.
  unfold prepareChartData.
  destruct (fold_chartStep_dates data
              {| wo_created := ∅; wo_closed := ∅; eq_type_dist := ∅; wo_per_location := ∅;
                 wo_per_cause := ∅; status_dist := ∅ |}) as (-> & ->).
  cbn [wo_created wo_closed]. rewrite !bucket_fold, !occurrences_unknown. now repeat split.
Qed.

(** ** The KPI cards against the KPIs of [processData] *)

Section CardFacts.
Context `{Host}.

Lemma positiveTime_cardTime (item : Obj) :
  positiveOrUndated item -> positiveTime (cardTime item) = processingTime item.
Proof.
  unfold positiveOrUndated. rewrite <- processingTime_elapsedDays.
  unfold cardTime, processingTime.
  destruct (parseFrenchDate (get item "Order_date")) as [[ts|]|];
    destruct (parseFrenchDate (get item "Jobexec_dt")) as [[te|]|]; cbn [timeValue positiveTime];
    try reflexivity.
  intros Hpos. destruct (Qle_bool _ 0) eqn:Hle; [|reflexivity].
  apply Qle_bool_iff in Hle. exfalso. exact (Qlt_not_le _ _ Hpos Hle).
Qed.

Lemma cardTime_processItem (item : Obj) : cardTime (processItem item) = cardTime item.
Proof.
  unfold cardTime. rewrite !get_processItem by (simpl; intuition discriminate). reflexivity.
Qed.

Lemma omap_ext_in {A B} (f g : A -> option B) (l : list A) :
  (forall x, x ∈ l -> f x = g x) -> omap f l = omap g l.
Proof.
  induction l as [|x l IH]; intros Hfg; [reflexivity|].
  change (omap f (x :: l)) with (match f x with Some y => y :: omap f l | None => omap f l end).
  change (omap g (x :: l)) with (match g x with Some y => y :: omap g l | None => omap g l end).
  rewrite (Hfg x) by left. rewrite IH by (intros y Hy; apply Hfg; now right). reflexivity.
Qed.

Lemma filter_isClosed_processItem (objs : list Obj) :
  List.filter isClosed (processItem <$> objs) = processItem <$> List.filter isClosed objs.
Proof.
  induction objs as [|o objs IH]; [reflexivity|].
  change (processItem <$> o :: objs) with (processItem o :: (processItem <$> objs)).
  cbn [List.filter]. rewrite isClosed_processItem, IH. now destruct (isClosed o).
Qed.

End CardFacts.

(** X23. The KPI cards computed from the data of a result show its KPIs:
    the same total, closed and waiting counts, and the same average when no
    closed order has a processing time of zero or less (the cards leave
    those out, [processData] counts them in). *)
Theorem cards_agree_with_kpis `{Host} (objs : list Obj) (r : ProcessResult) :
  processData (ArgArray (EObj <$> objs)) = Ok r ->
  Cards.total (renderGeneralKPIs (data r)) = total_wo (kpis r)
  /\ Cards.closed (renderGeneralKPIs (data r)) = closed_count (kpis r)
  /\ Cards.waiting (renderGeneralKPIs (data r)) = waiting_count (kpis r)
  /\ ((forall item, item ∈ List.filter isClosed objs -> positiveOrUndated item) ->
      Cards.avgProcessingTime (renderGeneralKPIs (data r)) = avg_processing_time (kpis r)).
Proof.
  intros Hr. destruct (processData_ok _ r Hr) as (items & objs' & Harg & Hobjs & Hne & ->).
  injection Harg as <-. rewrite objectsOf_objects in Hobjs. subst objs'.
  cbn [data kpis total_wo closed_count waiting_count avg_processing_time].
  unfold renderGeneralKPIs. cbv zeta.
  cbn [Cards.total Cards.closed Cards.waiting Cards.avgProcessingTime].
  split; [reflexivity|]. split; [reflexivity|]. split.
  - pose proof (List.filter_length isClosed (processItem <$> objs)) as Hlen. lia.
  - intros Hpos. unfold averageProcessingTime.
    rewrite filter_isClosed_processItem.
    assert (Ho : omap (fun wo => positiveTime (cardTime wo))
                   (processItem <$> List.filter isClosed objs)
                 = omap processingTime (processItem <$> List.filter isClosed objs)).
    { apply omap_ext_in. intros x Hx. apply list_elem_of_fmap in Hx as (item & -> & Hin).
      rewrite cardTime_processItem, processingTime_processItem.
      apply positiveTime_cardTime. now apply Hpos. }
    now rewrite Ho.
Qed.

Lemma cards_agree_with_kpis_witness :
  exists r : ProcessResult,
    processData (H := utcHost) (ArgArray (EObj <$> [oneDay; undatedOrder])) = Ok r
    /\ Cards.waiting (renderGeneralKPIs (H := utcHost) (data r)) = waiting_count (kpis r)
    /\ Cards.avgProcessingTime (renderGeneralKPIs (H := utcHost) (data r))
       = avg_processing_time (kpis r).
Proof.
  destruct (processData_average (H := utcHost) [oneDay; undatedOrder]) as (r & Hr & _);
    [discriminate|].
  exists r. split; [exact Hr|].
  destruct (cards_agree_with_kpis (H := utcHost) [oneDay; undatedOrder] r Hr)
    as (_ & _ & Hw & Havg).
  split; [exact Hw|]. apply Havg.
  replace (List.filter isClosed [oneDay; undatedOrder]) with [oneDay] by reflexivity.
  intros item Hin. apply list_elem_of_singleton in Hin as ->.
  unfold positiveOrUndated.
  replace (elapsedDays (H := utcHost) oneDay)
    with (Some (inject_Z (1 * msPerDay) / inject_Z msPerDay)%Q) by (vm_compute; reflexivity).
  reflexivity.
Defined.

(** ** Equipment statistics *)

Lemma inherited_long (k : string) :
  inherited k = true -> (7 <= String.length k)%nat /\ k <> "Unknown".
Proof.
  unfold inherited, inheritedNames. cbn [existsb]. intros Hk.
  repeat (apply orb_true_iff in Hk as [Hk | Hk];
          [apply String.eqb_eq in Hk; subst k; split; [cbn; lia | discriminate]|]).
  discriminate.
Qed.

(** The name [processData] gives an item is never an inherited one. *)
Lemma processItem_ownName (item : Obj) : ownName (processItem item) = true.
Proof.
  assert (Hname : exists name, get (processItem item) "EQ_name" = PStr name
                               /\ (name = "Unknown" \/ (String.length name <= 6)%nat)).
  { unfold processItem. destruct (enrichItem item) as [item'|e] eqn:He.
    - unfold enrichItem, equipmentNameAgain in He. cbv zeta in He.
      destruct (truthy (get (attachStatus item) "MO_key")).
      + destruct (upperOf (get (attachStatus item) "MO_key")) as [K|e]; [|discriminate He].
        cbn [mbind Result_bind] in He.
        destruct (includes K "STS"); [|destruct (includes K "SPR")];
          cbn [mbind Result_bind] in He; injection He as <-; unfold get; lookup_inserts;
          eexists; (split; [reflexivity|]).
        * right. rewrite length_slice0. lia.
        * right. rewrite length_slice0. lia.
        * now left.
      + cbn [mbind Result_bind] in He. injection He as <-. unfold get. lookup_inserts.
        eexists. split; [reflexivity | now left].
    - unfold enrichFallback. cbv zeta. unfold get. lookup_inserts.
      eexists. split; [reflexivity | now left]. }
  destruct Hname as (name & Hget & Hcases). unfold ownName. rewrite Hget. cbn [toStr].
  destruct (inherited name) eqn:Hi; [|reflexivity].
  destruct (inherited_long name Hi) as (Hlen & Hne). destruct Hcases as [-> | Hle]; [contradiction | lia].
Qed.

Section EquipmentFacts.
Context `{Host}.

Lemma applyFilters_unfiltered (r : ProcessResult) :
  applyFilters (Some r) noCriteria = Some (data r).
Proof.
  unfold applyFilters. f_equal. apply filter_all_true. intros item. apply keeps_noCriteria.
Qed.

(** With names of its own only, the loop does not throw. *)
Lemma forEachOrder_ok (data : list Obj) :
  (forall wo, wo ∈ data -> ownName wo = true) ->
  forall stats0, exists stats, forEachOrder data stats0 = Ok stats.
Proof.
  induction data as [|wo data IH]; intros Hown stats0; [now exists stats0|].
  cbn [forEachOrder].
  assert (Hstep : exists stats1, equipmentStep stats0 wo = Ok stats1).
  { unfold equipmentStep. destruct (truthy (get wo "EQ_name")); [|now eexists].
    cbv zeta. destruct (stats0 !! toStr (get wo "EQ_name")); [now eexists|].
    pose proof (Hown wo ltac:(left)) as Hw. unfold ownName in Hw.
    apply negb_true_iff in Hw. rewrite Hw. now eexists. }
  destruct Hstep as (stats1 & ->). cbn [mbind Result_bind].
  apply IH. intros w Hw. apply Hown. now right.
Qed.

End EquipmentFacts.

(** X24. [getEquipmentDetails] does not throw on the items of a result
    of [processData], nor on what [applyFilters] keeps of them: the
    equipment names [processData] writes are never names that objects
    inherit. *)
Theorem getEquipmentDetails_of_processData `{Host} (arg : JsArg) (r : ProcessResult)
    (c : Criteria) (filteredData : list Obj) :
  processData arg = Ok r -> applyFilters (Some r) c = Some filteredData ->
  (exists stats : gmap string EquipmentStats, getEquipmentDetails (data r) = Ok stats)
  /\ (exists stats : gmap string EquipmentStats, getEquipmentDetails filteredData = Ok stats).
Proof.
  intros Hr Hf. destruct (processData_ok arg r Hr) as (items & objs & _ & _ & _ & ->).
  cbn [applyFilters data] in *. injection Hf as <-.
  split; apply forEachOrder_ok; intros wo Hwo.
  - apply list_elem_of_fmap in Hwo as (item & -> & _). apply processItem_ownName.
  - apply list_elem_of_In, List.filter_In in Hwo as (Hwo & _).
    apply list_elem_of_In, list_elem_of_fmap in Hwo as (item & -> & _).
    apply processItem_ownName.
Qed.

Lemma getEquipmentDetails_of_processData_witness :
  exists (r : ProcessResult) (stats : gmap string EquipmentStats),
    processData (H := utcHost)
      (ArgArray [EObj {[ "MO_key" := PStr "constructor sts"; "Jobexec_dt" := PStr "x" ]}]) = Ok r
    /\ getEquipmentDetails (H := utcHost) (data r) = Ok stats.
Proof.
  destruct (processData (H := utcHost)
              (ArgArray [EObj {[ "MO_key" := PStr "constructor sts"; "Jobexec_dt" := PStr "x" ]}]))
    as [r|e] eqn:Hr; [|discriminate Hr].
  destruct (getEquipmentDetails_of_processData (H := utcHost) _ r noCriteria (data r) Hr)
    as ((stats & Hs) & _).
  - apply (applyFilters_unfiltered (H := utcHost)).
  - now exists r, stats.
Defined.

Section EquipmentCounts.
Context `{Host}.

Lemma ordersOf_snoc (name : string) (seen : list Obj) (wo : Obj) :
  ordersOf name (seen ++ [wo])
  = (ordersOf name seen
     ++ if truthy (get wo "EQ_name") && String.eqb (toStr (get wo "EQ_name")) name
        then [wo] else [])%list.
Proof. unfold ordersOf. rewrite List.filter_app. cbn [List.filter]. now destruct (_ && _). Qed.

Lemma recordOrder_counts (s : EquipmentStats) (wo : Obj) :
  totalWOs (recordOrder s wo) = totalWOs s + 1
  /\ completedWOs (recordOrder s wo) = completedWOs s + (if isClosed wo then 1 else 0).
Proof.
  unfold recordOrder, isClosed. cbv zeta. cbn [totalWOs completedWOs].
  split; [reflexivity|]. destruct (truthy (get wo "Jobexec_dt")); lia.
Qed.

Lemma equipmentStep_counts (name : string) (seen : list Obj) (wo : Obj)
    (stats0 stats1 : gmap string EquipmentStats) :
  inherited name = false ->
  equipmentStep stats0 wo = Ok stats1 ->
  countsOrders stats0 name seen -> countsOrders stats1 name (seen ++ [wo]).
Proof.
  intros Hname Hstep Hinv. unfold countsOrders in *. rewrite ordersOf_snoc.
  unfold equipmentStep in Hstep. cbv zeta in Hstep.
  destruct (truthy (get wo "EQ_name")); cbn [andb];
    [|injection Hstep as <-; now rewrite app_nil_r].
  destruct (String.eqb_spec (toStr (get wo "EQ_name")) name) as [Heq | Hne].
  - rewrite Heq in Hstep. rewrite List.filter_app, !length_app. cbn [List.filter length].
    destruct (stats0 !! name) as [s|].
    + injection Hstep as <-. rewrite lookup_insert_eq.
      destruct (recordOrder_counts s wo) as (-> & ->). destruct Hinv as (_ & -> & ->).
      split; [now destruct (ordersOf name seen)|].
      split; [lia|]. destruct (isClosed wo); cbn [length]; lia.
    + rewrite Hname in Hstep. injection Hstep as <-. rewrite lookup_insert_eq, Hinv.
      split; [discriminate|].
      destruct (recordOrder_counts
                  {| totalWOs := 0; completedWOs := 0; avgRepairTime := 0; failures := ∅;
                     type := orElse (get wo "EQ_type") (PStr "Unknown") |} wo) as (-> & ->).
      cbn [totalWOs completedWOs List.filter length app].
      split; [lia|]. destruct (isClosed wo); cbn [length]; lia.
  - rewrite app_nil_r.
    destruct (stats0 !! toStr (get wo "EQ_name")).
    + injection Hstep as <-. now rewrite lookup_insert_ne.
    + destruct (inherited (toStr (get wo "EQ_name"))).
      * destruct (truthy (get wo "failure")); [discriminate|]. now injection Hstep as <-.
      * injection Hstep as <-. now rewrite lookup_insert_ne.
Qed.

Lemma forEachOrder_counts (name : string) (data : list Obj) :
  inherited name = false ->
  forall (seen : list Obj) (stats0 stats : gmap string EquipmentStats),
    forEachOrder data stats0 = Ok stats ->
    countsOrders stats0 name seen -> countsOrders stats name (seen ++ data).
Proof.
  intros Hname. induction data as [|wo data IH]; intros seen stats0 stats Hrun Hinv.
  - injection Hrun as <-. now rewrite app_nil_r.
  - cbn [forEachOrder] in Hrun.
    destruct (equipmentStep stats0 wo) as [stats1|e] eqn:Hstep; [|discriminate].
    cbn [mbind Result_bind] in Hrun.
    replace (seen ++ wo :: data)%list with ((seen ++ [wo]) ++ data)%list
      by (now rewrite <- app_assoc).
    apply (IH _ stats1 stats Hrun). now apply (equipmentStep_counts name seen wo stats0).
Qed.

End EquipmentCounts.

(** X25. In the table of [getEquipmentDetails] an equipment has an entry
    exactly when some order names it; [totalWOs] is the number of its
    orders and [completedWOs] the number of those with an execution date,
    at most [totalWOs]. *)
Theorem getEquipmentDetails_counts `{Host} (data : list Obj)
    (stats : gmap string EquipmentStats) (name : string) :
  getEquipmentDetails data = Ok stats -> inherited name = false ->
  match stats !! name with
  | None => ordersOf name data = []
  | Some s =>
      ordersOf name data <> []
      /\ totalWOs s = Z.of_nat (length (ordersOf name data))
      /\ completedWOs s = Z.of_nat (length (List.filter isClosed (ordersOf name data)))
      /\ 0 <= completedWOs s <= totalWOs s
  end.
Proof.
  intros Hrun Hname.
  pose proof (forEachOrder_counts name data Hname [] ∅ stats Hrun) as Hinv.
  unfold countsOrders in Hinv. rewrite lookup_empty in Hinv. specialize (Hinv eq_refl).
  cbn [app] in Hinv. destruct (stats !! name) as [s|]; [|exact Hinv].
  destruct Hinv as (Hne & Ht & Hc). repeat split; try assumption; [lia|].
  rewrite Ht, Hc. pose proof (List.filter_length_le isClosed (ordersOf name data)). lia.
Qed.

Lemma getEquipmentDetails_counts_witness :
  exists (stats : gmap string EquipmentStats) (s : EquipmentStats),
    getEquipmentDetails (H := utcHost)
      [ {[ "EQ_name" := PStr "STS01"; "Jobexec_dt" := PStr "05/01/2024" ]};
        {[ "EQ_name" := PStr "SPR050" ]};
        {[ "EQ_name" := PStr "STS01" ]} ] = Ok stats
    /\ stats !! "STS01" = Some s /\ totalWOs s = 2 /\ completedWOs s = 1.
Proof.
  destruct (forEachOrder_ok (H := utcHost)
              [ {[ "EQ_name" := PStr "STS01"; "Jobexec_dt" := PStr "05/01/2024" ]};
                {[ "EQ_name" := PStr "SPR050" ]};
                {[ "EQ_name" := PStr "STS01" ]} ]) with (stats0 := (∅ : gmap string EquipmentStats))
    as (stats & Hrun).
  { intros wo Hwo. repeat (apply elem_of_cons in Hwo as [-> | Hwo]; [reflexivity|]).
    inversion Hwo. }
  pose proof (getEquipmentDetails_counts (H := utcHost) _ stats "STS01" Hrun eq_refl) as Hc.
  destruct (stats !! "STS01") as [s|] eqn:Hs; [|discriminate Hc].
  exists stats, s. destruct Hc as (_ & Ht & Hcl & _).
  split; [exact Hrun|]. split; [exact Hs|]. split; [exact Ht | exact Hcl].
Defined.

(** ** The equipment selector on imported data *)

Lemma filterResult_ok (callback : Obj -> Result bool) (f : Obj -> bool) (items : list Obj) :
  (forall item, item ∈ items -> callback item = Ok (f item)) ->
  filterResult callback items = Ok (List.filter f items).
Proof.
  induction items as [|item items IH]; intros Hcb; [reflexivity|].
  cbn [filterResult List.filter]. rewrite (Hcb item) by left.
  rewrite IH by (intros i Hi; apply Hcb; now right).
  cbn [mbind Result_bind]. now destruct (f item).
Qed.

(** The key of an order of the result: a string that names a crane, or
    a spreader with a number outside the reserved band. *)
Lemma processExcelWorkbook_key `{Host} (wb : Workbook) (r : ProcessResult) (item : Obj) :
  processExcelWorkbook (Some wb) = Ok r -> item ∈ data r ->
  exists key : string,
    get item "MO_key" = PStr key /\ key <> ""
    /\ (includes (toUpperCase key) "STS" = true
        \/ (includes (toUpperCase key) "SPR" = true
            /\ isValidSpreaderNumber (toUpperCase key) = true)).
Proof.
  intros Hr Hin.
  destruct (processExcelWorkbook_ok wb r Hr) as (rs & Hmap & _ & Hdata).
  rewrite Hdata in Hin. apply list_elem_of_fmap in Hin as (item0 & -> & Hin0).
  apply list_elem_of_omap in Hin0 as (o & Ho & Hid). simpl in Hid. subst o.
  destruct (mapRows_elem _ _ _ _ Hmap Ho) as (row & j & Hrow & Hn).
  destruct (normalizeRow_retained row j item0 Hn) as (key & Hkey & Hne & Hcases).
  cbv zeta in Hcases. exists key.
  split.
  - rewrite get_processItem by (simpl; intuition discriminate). unfold get.
    destruct Hcases as [(_ & ->) | (_ & _ & _ & ->)];
      now rewrite (workOrder_MO_key row j key Hkey).
  - split; [exact Hne|]. destruct Hcases as [(Hsts & _) | (_ & Hspr & Hv & _)]; auto.
Qed.

(** X26. On imported data the equipment selector never throws, "all"
    shows every order, and every order is shown under "STS" or under
    "SPR". *)
Theorem equipment_choices_cover_import `{Host} (wb : Workbook) (r : ProcessResult) :
  processExcelWorkbook (Some wb) = Ok r ->
  exists cranes spreaders : list Obj,
    equipmentSelection (Some r) "STS" = Some (Ok cranes)
    /\ equipmentSelection (Some r) "SPR" = Some (Ok spreaders)
    /\ equipmentSelection (Some r) "all" = Some (Ok (data r))
    /\ (forall item, item ∈ data r -> item ∈ cranes \/ item ∈ spreaders).
Proof.
  intros Hr.
  set (isCrane := fun item : Obj => includes (toUpperCase (toStr (get item "MO_key"))) "STS").
  set (isSpreader := fun item : Obj =>
         includes (toUpperCase (toStr (get item "MO_key"))) "SPR"
         && isValidSpreaderNumber (toUpperCase (toStr (get item "MO_key")))).
  exists (List.filter isCrane (data r)), (List.filter isSpreader (data r)).
  unfold equipmentSelection. cbn [String.eqb Ascii.eqb Bool.eqb].
  split; [|split; [|split; [reflexivity|]]].
  - f_equal. apply filterResult_ok. intros item Hin.
    destruct (processExcelWorkbook_key wb r item Hr Hin) as (key & Hkey & Hne & _).
    unfold equipmentChoice, isCrane. cbn [String.eqb Ascii.eqb Bool.eqb]. rewrite Hkey.
    cbn [truthy toStr upperOf]. destruct (String.eqb_spec key ""); [contradiction|].
    reflexivity.
  - f_equal. apply filterResult_ok. intros item Hin.
    destruct (processExcelWorkbook_key wb r item Hr Hin) as (key & Hkey & Hne & _).
    unfold equipmentChoice, isSpreader. cbn [String.eqb Ascii.eqb Bool.eqb]. rewrite Hkey.
    cbn [truthy toStr upperOf]. destruct (String.eqb_spec key ""); [contradiction|].
    cbn [negb mbind Result_bind].
    destruct (String.eqb_spec (toUpperCase key) "") as [Hup|_]; [|reflexivity].
    now apply toUpperCase_nonempty in Hup.
  - intros item Hin.
    destruct (processExcelWorkbook_key wb r item Hr Hin) as (key & Hkey & _ & Hcases).
    destruct Hcases as [Hsts | (Hspr & Hv)]; [left | right];
      apply list_elem_of_In, List.filter_In; (split; [now apply list_elem_of_In|]).
    + unfold isCrane. rewrite Hkey. cbn [toStr]. now rewrite Hsts.
    + unfold isSpreader. rewrite Hkey. cbn [toStr]. now rewrite Hspr, Hv.
Qed.

Lemma equipment_choices_cover_import_witness :
  exists (r : ProcessResult) (cranes spreaders : list Obj),
    processExcelWorkbook (H := utcHost) (Some sampleWorkbook) = Ok r
    /\ equipmentSelection (Some r) "STS" = Some (Ok cranes)
    /\ equipmentSelection (Some r) "SPR" = Some (Ok spreaders)
    /\ equipmentSelection (Some r) "all" = Some (Ok (data r))
    /\ (forall item, item ∈ data r -> item ∈ cranes \/ item ∈ spreaders).
Proof.
  destruct (processExcelWorkbook_single (H := utcHost) sampleWorkbook
              (<["Jobstatus" := PStr "active"]> {[ "MO_key" := PStr "spr050abc" ]}) _
              eq_refl
              (normalizeRow_spreader (H := utcHost) _ 0 "spr050abc"
                 (get_tagged "active" (PStr "spr050abc")) 50
                 eq_refl eq_refl (or_introl eq_refl)))
    as (r & Hr & _).
  destruct (equipment_choices_cover_import (H := utcHost) sampleWorkbook r Hr)
    as (cranes & spreaders & Hc).
  exists r, cranes, spreaders. split; [exact Hr | exact Hc].
Defined.

(** ** Job types *)

Lemma jobTypeMap_names (e : string * string) :
  In e jobTypeMap -> getJobTypeFullName (PStr (snd e)) = Primitive (PStr (snd e)).
Proof.
  unfold jobTypeMap. simpl.
  intros Hin. repeat (destruct Hin as [<- | Hin]; [reflexivity|]). contradiction.
Qed.

(** X27. A name [getJobTypeFullName] returns is returned unchanged when
    looked up in its turn: no full name of the table is an acronym of
    it. *)
Theorem getJobTypeFullName_fixed_point (acronym name : Prim) :
  getJobTypeFullName acronym = Primitive name -> getJobTypeFullName name = Primitive name.
Proof.
  unfold getJobTypeFullName at 1.
  destruct (List.find (fun e => String.eqb (fst e) (toStr acronym)) jobTypeMap)
    as [[k fullName]|] eqn:Hfind.
  - intros [= <-]. apply List.find_some in Hfind as (Hin & _).
    exact (jobTypeMap_names _ Hin).
  - destruct (inherited (toStr acronym)) eqn:Hi; [discriminate|].
    intros [= <-]. unfold getJobTypeFullName. now rewrite Hfind, Hi.
Qed.

Lemma getJobTypeFullName_fixed_point_witness :
  getJobTypeFullName (PStr "BDN") = Primitive (PStr "Breakdown")
  /\ getJobTypeFullName (PStr "Breakdown") = Primitive (PStr "Breakdown").
Proof.
  split; [reflexivity|].
  apply (getJobTypeFullName_fixed_point (PStr "BDN")). reflexivity.
Defined.

(** ** The dates of an imported order *)

Section ImportedDates.
Context `{Host}.
Hypothesis Htz : plausibleOffset.

Lemma formatToFrenchDate_date (t : Z) :
  -25568 <= Day (LocalTime t) <= 2932896 ->
  formatToFrenchDate (Some (DateOf t))
  = Some (displayDate (civilFromDays (Day (LocalTime t)))).
Proof.
  intros Hk. unfold formatToFrenchDate.
  pose proof (date_fields t) as Hf.
  pose proof (civilFromDays_bounds (Day (LocalTime t))) as Hb.
  pose proof (civilFromDays_year_bounds _ Hk) as Hy.
  destruct (civilFromDays (Day (LocalTime t))) as [[y m] d].
  destruct Hf as (-> & -> & ->). cbn [fmap option_fmap option_map numToString].
  unfold displayDate. replace (m - 1 + 1) with m by lia.
  rewrite (padStart2_twoDigits d), (padStart2_twoDigits m), (Z_to_string_fourDigits y) by lia.
  reflexivity.
Qed.

(** The display string of a Date parses to the start of its day. *)
Lemma parseFrenchDate_formatted (t : Z) :
  -25568 <= Day (LocalTime t) <= 2932896 ->
  exists s : string,
    frenchOrNull (Some (DateOf t)) = PStr s
    /\ parseFrenchDate (PStr s) = Some (DateOf (startOfDay t)).
Proof.
  intros Hk. exists (displayDate (civilFromDays (Day (LocalTime t)))).
  unfold frenchOrNull. rewrite (formatToFrenchDate_date t Hk). split; [reflexivity|].
  unfold startOfDay.
  pose proof (civilFromDays_bounds (Day (LocalTime t))) as Hb.
  pose proof (civilFromDays_year_bounds _ Hk) as Hy.
  pose proof (daysFromCivil_civilFromDays (Day (LocalTime t))) as Hrt.
  destruct (civilFromDays (Day (LocalTime t))) as [[y m] d].
  rewrite (parseFrenchDate_display Htz) by lia.
  rewrite (fullYear_modern y) by lia.
  rewrite (MakeDay_civil y m d d) by lia. rewrite Hrt.
  now replace (Day (LocalTime t) + (d - d)) with (Day (LocalTime t)) by lia.
Qed.

Lemma workOrder_dates (row : Obj) (index : nat) (name type loc : string)
    (od ed : option JsDate) :
  workOrder row index name type loc od ed !! "Order_date" = Some (frenchOrNull od)
  /\ workOrder row index name type loc od ed !! "Jobexec_dt" = Some (frenchOrNull ed).
Proof. unfold workOrder. cbv zeta. split; now lookup_inserts. Qed.

End ImportedDates.

(** X28. The import keeps the day of a date and drops the time: the
    [Order_date] and [Jobexec_dt] of a retained row parse back to the local
    midnight of the day the Date of the cell lies in (from 31 December 1899
    to 31 December 9999), and are [null] when the cell did not parse. *)
Theorem import_keeps_the_day `{Host} (row item : Obj) (index : nat) :
  plausibleOffset -> normalizeRow row index = Ok (Some item) ->
  (forall t, parseCell (get row "Order_date") = Some (DateOf t) ->
     -25568 <= Day (LocalTime t) <= 2932896 ->
     parseFrenchDate (get item "Order_date") = Some (DateOf (startOfDay t)))
  /\ (forall t, parseCell (get row "Jobexec_dt") = Some (DateOf t) ->
        -25568 <= Day (LocalTime t) <= 2932896 ->
        parseFrenchDate (get item "Jobexec_dt") = Some (DateOf (startOfDay t)))
  /\ (parseCell (get row "Order_date") = None -> get item "Order_date" = PNull)
  /\ (parseCell (get row "Jobexec_dt") = None -> get item "Jobexec_dt" = PNull).
Proof.
  intros Htz Hn.
  destruct (normalizeRow_retained row index item Hn) as (key & _ & _ & Hcases).
  cbv zeta in Hcases.
  assert (Hd : item !! "Order_date" = Some (frenchOrNull (parseCell (get row "Order_date")))
               /\ item !! "Jobexec_dt" = Some (frenchOrNull (parseCell (get row "Jobexec_dt"))))
    by (destruct Hcases as [(_ & ->) | (_ & _ & _ & ->)]; apply workOrder_dates).
  destruct Hd as (Ho & He).
  assert (Hgo : get item "Order_date" = frenchOrNull (parseCell (get row "Order_date")))
    by (unfold get at 1; now rewrite Ho).
  assert (Hge : get item "Jobexec_dt" = frenchOrNull (parseCell (get row "Jobexec_dt")))
    by (unfold get at 1; now rewrite He).
  rewrite Hgo, Hge.
  split; [|split; [|split]].
  - intros t -> Hk. destruct (parseFrenchDate_formatted Htz t Hk) as (s & -> & Hp). exact Hp.
  - intros t -> Hk. destruct (parseFrenchDate_formatted Htz t Hk) as (s & -> & Hp). exact Hp.
  - now intros ->.
  - now intros ->.
Qed.

Lemma import_keeps_the_day_witness :
  exists item : Obj,
    normalizeRow (H := casaHost)
      {[ "MO_key" := PStr "STS01"; "Order_date" := PStr "06/03/2024 14:30" ]} 0 = Ok (Some item)
    /\ get item "Order_date" = PStr "06/03/2024"
    /\ parseFrenchDate (H := casaHost) (get item "Order_date")
       = Some (DateOf (19788 * msPerDay - 3600000))
    /\ get item "Jobexec_dt" = PNull.
Proof.
  pose proof (normalizeRow_sts (H := casaHost)
                {[ "MO_key" := PStr "STS01"; "Order_date" := PStr "06/03/2024 14:30" ]} 0 "STS01"
                eq_refl eq_refl) as Hn.
  eexists. split; [exact Hn|].
  destruct (import_keeps_the_day (H := casaHost) _ _ 0
              ltac:(unfold plausibleOffset; vm_compute; discriminate) Hn)
    as (Ho & _ & _ & He).
  split; [vm_compute; reflexivity|]. split.
  - apply (Ho (19788 * msPerDay - 3600000)).
    + vm_compute. reflexivity.
    + vm_compute. split; discriminate.
  - apply He. vm_compute. reflexivity.
Defined.
